(** * Color Panel Tool: the preset store, the diff engine, the block state,
      the colour operations and the shading-pair helpers of [color_panel.py]

    The panel is a Python plugin of a 3D host application.  What is embedded
    here is the code of [color_panel.py] that carries logic of its own:

    - [read_json_config] / [write_json_config] (the config store),
    - [save_config], [normalize_saved_block], [has_unsaved_changes]
      (what is persisted and how the live state is compared with it),
    - [add_color_index_block], [update_color_block], [create_custom_color],
      [apply_color_button] (the per-block state behind the widgets),
    - [build_ui], [close_panel] (the panel at its opening and its closing),
    - [change_color_by_index], [change_color_by_rgb],
      [get_current_color_of_shape] (the colour override of the shapes),
    - [safe_name], [unique_node_name], [ensure_place2d_and_ramp],
      [cleanup_unused_ramps_and_textures] (the ramp / place2dTexture pair
      of a selected object),
    - [set_ramp_color] (the colour entries of that ramp).

    Python values are dynamically typed, so the embedding works over a
    type [value] of the values [json.load] can return, and every builtin
    that can raise returns a [result].  The environment of the code is
    explicit: the file behind [CONFIG_PATH] and what the user is shown are
    state ([Config.world]); the widgets are state ([Panel.ui]); the scene
    graph of the host is state ([Scene.scene]), and so are the attributes
    of its shapes ([Shapes.dag]) and the entries of its ramps
    ([Ramp.ramp]); [json] and the parsing of numbers out of strings are
    the fields of the class [Py.PyLib]; the palette of the host, the UUIDs
    drawn and the answer to a dialog are arguments.

    The layout: the embedding ([Py], [Config], [Panel], [Scene],
    [Session], [Shapes], [Ramp]), the specification's reading of the data
    ([Spec], [Names], [Normal], [Display], [Wiring]), states for the
    examples ([Samples], [Cases]), then the properties ([StoreProps],
    [DiffProps], [SaveProps], [BlockProps], [SceneProps], [NameProps],
    [NormalProps], [DisplayProps], [SessionProps], [ShapeProps],
    [WiringProps], [RampProps]). *)

From Stdlib Require Import ZArith Lia Bool Ascii String.
From Stdlib Require Import Floats.PrimFloat Floats.SpecFloat Floats.FloatOps.
From Stdlib Require Import Floats.FloatAxioms.
From stdpp Require Import base decidable option list strings pretty gmap.

Set Warnings "-register-all,-inexact-float".

Local Open Scope string_scope.
Local Open Scope list_scope.
Local Open Scope Z_scope.

(* ===================================================================== *)
(** ** Python values and the builtins the panel uses *)
(* ===================================================================== *)

Module Py.

(** The exception classes that can reach the panel's code.  All of them
    derive from [Exception], so an [except Exception] clause catches
    each one. *)
Inductive exn : Type :=
| AttributeError
| TypeError
| ValueError
| IndexError
| KeyError
| OverflowError
| OSError
| RuntimeError.

Inductive result (A : Type) : Type :=
| Ok (a : A)
| Raise (e : exn).
Arguments Ok {A} a.
Arguments Raise {A} e.

Definition bind {A B} (r : result A) (k : A -> result B) : result B :=
  match r with
  | Ok a => k a
  | Raise e => Raise e
  end.

#[export] Instance result_ret : MRet result := fun A a => Ok a.
#[export] Instance result_bind : MBind result := fun A B k r => bind r k.

(** [try: body / except Exception: handler]. *)
Definition try_except {A} (body : result A) (handler : exn -> result A)
  : result A :=
  match body with
  | Ok a => Ok a
  | Raise e => handler e
  end.

(** What [json.load] can return, which is also all the panel ever stores:
    [None], [bool], [int], [float], [str], [list] and [dict] with string
    keys.  An [int] is unbounded, a [float] is a binary64, a [str] is a
    [string] (a character is one of the 256 of [ascii]), and a dict keeps
    its insertion order.

    A value is read for its contents, with one exception, where Python
    tells two objects of the same contents apart and the panel's code
    depends on it.  [json] decodes every token [NaN] to one and the same
    float object, the constant [NaN] of [json.decoder], so that a NaN read
    from the file at one time is the very object read from it at another.
    That object is [VNaN].  Every other float object is a [VFloat], a NaN
    among them ([float("nan")], a NaN the host returns): an object of its
    own, which is no part of any other value. *)
Inductive value : Type :=
| VNone
| VBool (b : bool)
| VInt (z : Z)
| VFloat (f : float)
| VStr (s : string)
| VList (l : list value)
| VDict (d : list (string * value))
| VNaN.

Definition dict := list (string * value).

(** [d.get(k)] on the entries of a dict. *)
Fixpoint dict_get (d : dict) (k : string) : option value :=
  match d with
  | [] => None
  | (k', v) :: d' => if bool_decide (k' = k) then Some v else dict_get d' k
  end.

(** [d[k] = v]: an existing key keeps its place, a new one goes last. *)
Fixpoint dict_set (d : dict) (k : string) (v : value) : dict :=
  match d with
  | [] => [(k, v)]
  | (k', v') :: d' =>
      if bool_decide (k' = k) then (k', v) :: d' else (k', v') :: dict_set d' k v
  end.

(** *** Numbers *)

(** The integer a finite float truncates to ([int(f)], rounding towards
    zero); [None] for an infinity or a NaN. *)
Definition float_trunc (f : float) : option Z :=
  match Prim2SF f with
  | S754_zero _ => Some 0
  | S754_finite s m e =>
      let a := if 0 <=? e then Z.shiftl (Z.pos m) e else Z.shiftr (Z.pos m) (- e) in
      Some (if s then - a else a)
  | S754_infinity _ => None
  | S754_nan => None
  end.

(** A float and an int are equal when they denote the same number: Python
    compares them exactly, without converting the int. *)
Definition float_eq_int (f : float) (z : Z) : bool :=
  match Prim2SF f with
  | S754_zero _ => z =? 0
  | S754_finite s m e =>
      let sg (a : Z) := if s then - a else a in
      if 0 <=? e then z =? sg (Z.shiftl (Z.pos m) e)
      else (Z.land (Z.pos m) (Z.ones (- e)) =? 0)
           && (z =? sg (Z.shiftr (Z.pos m) (- e)))
  | S754_infinity _ => false
  | S754_nan => false
  end.

(** The float nearest to an int (ties to even), as [float(z)] computes
    it. *)
Definition float_of_int (z : Z) : float :=
  SF2Prim (binary_normalize prec emax z 0 false).

Definition is_inf (f : float) : bool :=
  match Prim2SF f with
  | S754_infinity _ => true
  | _ => false
  end.

Definition is_nan (f : float) : bool :=
  match Prim2SF f with
  | S754_nan => true
  | _ => false
  end.

Definition int_of_bool (b : bool) : Z := if b then 1 else 0.

(** *** The library behind the builtins

    [float(s)] and [int(s)] of a string parse it with Python's own
    grammar, and [json] prints and parses text.  The panel only calls
    them; they are the fields of this class, so every definition below
    is read for any implementation of them. *)
Class PyLib : Type := {
  (** [float(s)] for a [str]: [None] when it raises [ValueError]. *)
  float_of_str : string -> option float;
  (** [int(s)] for a [str]: [None] when it raises [ValueError]. *)
  int_of_str : string -> option Z;
  (** The text [json.dump(data, f, indent=4)] writes. *)
  json_dumps : value -> string;
  (** [json.load] of a file holding the given text. *)
  json_loads : string -> result value
}.

Section Builtins.
Context {lib : PyLib}.

(** [bool(v)], the test behind [if v] and [not v]. *)
Definition truthy (v : value) : bool :=
  match v with
  | VNone => false
  | VBool b => b
  | VInt z => negb (z =? 0)
  | VFloat f => negb (PrimFloat.eqb f 0%float)
  | VStr s => negb (bool_decide (s = ""))
  | VList l => match l with [] => false | _ => true end
  | VDict d => match d with [] => false | _ => true end
  | VNaN => true
  end.

Definition is_none (v : value) : bool :=
  match v with
  | VNone => true
  | _ => false
  end.

(** [v.get(k, default)]: only a dict has the method. *)
Definition py_get (v : value) (k : string) (dflt : value) : result value :=
  match v with
  | VDict d => Ok (default dflt (dict_get d k))
  | _ => Raise AttributeError
  end.

(** [float(v)], for the number it is. *)
Definition py_float (v : value) : result float :=
  match v with
  | VFloat f => Ok f
  | VNaN => Ok PrimFloat.nan
  | VInt z =>
      let f := float_of_int z in
      if is_inf f then Raise OverflowError else Ok f
  | VBool b => Ok (float_of_int (int_of_bool b))
  | VStr s =>
      match float_of_str s with
      | Some f => Ok f
      | None => Raise ValueError
      end
  | VNone | VList _ | VDict _ => Raise TypeError
  end.

(** [float(v)], for the object it is: a float is returned as it is, the
    same object, and anything else is converted to a new float. *)
Definition py_float_object (v : value) : result value :=
  match v with
  | VFloat _ | VNaN => Ok v
  | _ => f ← py_float v; Ok (VFloat f)
  end.

(** [int(v)]. *)
Definition py_int (v : value) : result Z :=
  match v with
  | VInt z => Ok z
  | VBool b => Ok (int_of_bool b)
  | VFloat f =>
      match float_trunc f with
      | Some z => Ok z
      | None => if is_nan f then Raise ValueError else Raise OverflowError
      end
  | VNaN => Raise ValueError
  | VStr s =>
      match int_of_str s with
      | Some z => Ok z
      | None => Raise ValueError
      end
  | VNone | VList _ | VDict _ => Raise TypeError
  end.

End Builtins.

(** [v >= 0]: numbers compare, anything else is a [TypeError]. *)
Definition py_ge0 (v : value) : result bool :=
  match v with
  | VInt z => Ok (0 <=? z)
  | VBool _ => Ok true
  | VFloat f => Ok (PrimFloat.leb 0%float f)
  | VNaN => Ok false
  | VNone | VStr _ | VList _ | VDict _ => Raise TypeError
  end.

(** [v[i]] for a literal index [i] that is not negative.  The keys of a
    dict are strings here, so an int is never among them. *)
Definition py_item (v : value) (i : nat) : result value :=
  match v with
  | VList l =>
      match l !! i with
      | Some x => Ok x
      | None => Raise IndexError
      end
  | VStr s =>
      match String.get i s with
      | Some c => Ok (VStr (String c EmptyString))
      | None => Raise IndexError
      end
  | VDict _ => Raise KeyError
  | VNone | VBool _ | VInt _ | VFloat _ | VNaN => Raise TypeError
  end.

(** [v[k]] for a string key. *)
Definition py_key (v : value) (k : string) : result value :=
  match v with
  | VDict d =>
      match dict_get d k with
      | Some x => Ok x
      | None => Raise KeyError
      end
  | VNone | VBool _ | VInt _ | VFloat _ | VStr _ | VList _ | VNaN =>
      Raise TypeError
  end.

(** [a == b] on two numbers: [bool] is an [int]; two floats compare as
    IEEE 754 says (a NaN equals nothing, the two zeros are equal); a
    float and an int compare exactly. *)
Definition num_eq (a b : Z + float) : bool :=
  match a, b with
  | inl x, inl y => x =? y
  | inr f, inr g => PrimFloat.eqb f g
  | inl x, inr g => float_eq_int g x
  | inr f, inl y => float_eq_int f y
  end.

Definition as_number (v : value) : option (Z + float) :=
  match v with
  | VInt z => Some (inl z)
  | VBool b => Some (inl (int_of_bool b))
  | VFloat f => Some (inr f)
  | VNaN => Some (inr PrimFloat.nan)
  | _ => None
  end.

(** [a is b], where it bears on a comparison: of the objects that can
    be part of two values, [json]'s NaN is the one that does not equal
    itself. *)
Definition py_is (a b : value) : bool :=
  match a, b with
  | VNaN, VNaN => true
  | _, _ => false
  end.

(** [a == b], for two objects that are not one object.  Two lists are
    equal when they have the same length and their items agree; two dicts
    when they have the same keys and the values under each key agree;
    values of unrelated types are unequal.  Two items, or two values
    under a key, agree when they are the same object or are equal: the
    comparison of containers tries [x is y] before [x == y], so that a
    list holding [json]'s NaN equals another that holds it at the same
    place, though that NaN, compared by itself, equals nothing. *)
Fixpoint py_eq (a b : value) {struct a} : bool :=
  match a, b with
  | VNone, VNone => true
  | VStr s, VStr t => bool_decide (s = t)
  | VList l, VList m =>
      (fix items (l m : list value) {struct l} : bool :=
         match l, m with
         | [], [] => true
         | x :: l', y :: m' => (py_is x y || py_eq x y) && items l' m'
         | _, _ => false
         end) l m
  | VDict d, VDict e =>
      (length d =? length e)%nat
      && (fix entries (d : list (string * value)) {struct d} : bool :=
            match d with
            | [] => true
            | (k, v) :: d' =>
                match dict_get e k with
                | Some w => py_is v w || py_eq v w
                | None => false
                end && entries d'
            end) d
  | _, _ =>
      match as_number a, as_number b with
      | Some x, Some y => num_eq x y
      | _, _ => false
      end
  end.

(** [a != b]. *)
Definition py_ne (a b : value) : bool := negb (py_eq a b).

End Py.

(* ===================================================================== *)
(** ** The config store: [read_json_config], [write_json_config] *)
(* ===================================================================== *)

Module Config.
Import Py.

(** How the next [open(CONFIG_PATH, "w")] and the writes after it go. *)
Inductive write_fault : Type :=
| NoFault                (** everything is written and the file closes *)
| OpenFails              (** [open] raises: the path is not writable *)
| FailsAfter (n : nat).  (** the file opens, and the device fails once [n]
                             characters of the text are in the file *)

(** The part of the file system the panel sees: the file at
    [CONFIG_PATH]. *)
Record filesystem : Type := {
  config_file : option string;  (** its text, [None] when the path does not exist *)
  may_read : bool;              (** whether [open(CONFIG_PATH, "r")] succeeds *)
  writing : write_fault
}.

(** What the user is shown. *)
Inductive ui_event : Type :=
| InViewMessage (amg : string)
| Warning (msg : string) (e : exn).

Record world : Type := {
  files : filesystem;
  shown : list ui_event
}.

Definition os_path_exists (fs : filesystem) : bool :=
  match config_file fs with
  | Some _ => true
  | None => false
  end.

(** [open(CONFIG_PATH, "r")] and reading the file to its end. *)
Definition open_read (fs : filesystem) : result string :=
  match config_file fs with
  | Some text => if may_read fs then Ok text else Raise OSError
  | None => Raise OSError
  end.

(** Code that acts on the world and may raise. *)
Definition io (A : Type) : Type := world -> result A * world.

#[export] Instance io_ret : MRet io := fun A a w => (Ok a, w).
#[export] Instance io_bind : MBind io := fun A B k m w =>
  match m w with
  | (Ok a, w') => k a w'
  | (Raise e, w') => (Raise e, w')
  end.

(** [try: body / except Exception as e: handler e]: what [body] did to
    the world before it raised stays done. *)
Definition io_try {A} (body : io A) (handler : exn -> io A) : io A :=
  fun w =>
    match body w with
    | (Ok a, w') => (Ok a, w')
    | (Raise e, w') => handler e w'
    end.

Definition show (ev : ui_event) : io unit :=
  fun w => (Ok tt, {| files := files w; shown := shown w ++ [ev] |}).

(** [with open(CONFIG_PATH, "w") as f: f.write(text)]: opening for
    writing empties the file before the first character is written, and
    what was written stays when a later write or the close fails. *)
Definition open_write (text : string) : io unit :=
  fun w =>
    let fs := files w in
    match writing fs with
    | NoFault =>
        (Ok tt, {| files := {| config_file := Some text;
                               may_read := may_read fs; writing := writing fs |};
                   shown := shown w |})
    | OpenFails => (Raise OSError, w)
    | FailsAfter n =>
        (Raise OSError,
         {| files := {| config_file := Some (String.substring 0 n text);
                        may_read := may_read fs; writing := writing fs |};
            shown := shown w |})
    end.

Section Store.
Context {lib : PyLib}.

Definition read_json_config (fs : filesystem) : result value :=
  if os_path_exists fs then
    try_except (text ← open_read fs; json_loads text)
               (fun _ => Ok (VDict []))
  else Ok (VDict []).

Definition write_json_config (data : value) : io unit :=
  io_try
    (open_write (json_dumps data);;
     show (InViewMessage "Configuración guardada"))
    (fun e => show (Warning "Error guardando configuración: " e)).

End Store.

End Config.

(* ===================================================================== *)
(** ** The panel's state, [save_config] and [has_unsaved_changes] *)
(* ===================================================================== *)

Module Panel.
Import Py Config.

(** One entry of [_color_ui_blocks] together with what its widgets hold:
    the dict stores the widget names, ["rgb"] and ["lastIndex"]; the
    selected index is the value of the [intSlider]. *)
Record block : Type := {
  slider : Z;        (** [cmds.intSlider(slider, q=True, value=True)] *)
  rgb : value;       (** [info.get("rgb")], [VNone] when there is none *)
  lastIndex : Z;     (** [info["lastIndex"]] *)
  label : string;    (** the text of the [label] widget *)
  swatch : value     (** the [rgbValue] of the [swatch] canvas *)
}.

(** The widgets of the panel: the blocks by title, in the order of the
    dict, and the two fields of the render frame. *)
Record ui : Type := {
  blocks : list (string * block);
  curve_width : float;    (** [cmds.floatField(curve_width, q=True, value=True)] *)
  sample_rate : Z         (** [cmds.intField(sample_rate, q=True, value=True)] *)
}.

Definition INDEXED_COLORS : list (Z * string) :=
  [ (0, "Gray"); (1, "Black"); (2, "Dark Gray"); (3, "Light Gray");
    (4, "Red"); (5, "Dark Blue"); (6, "Bright Blue"); (7, "Green 1");
    (8, "Dark Purple"); (9, "Pink"); (10, "Brown"); (11, "Dark Brown");
    (12, "Dark Red"); (13, "Bright Red"); (14, "Bright Green");
    (15, "Blue 1"); (16, "White"); (17, "Yellow"); (18, "Light Blue");
    (19, "Light Green"); (20, "Light Pink"); (21, "Light Orange");
    (22, "Light Yellow"); (23, "Green 2"); (24, "Dark Orange");
    (25, "Dark Yellow"); (26, "Green 3"); (27, "Green 4"); (28, "Blue 2");
    (29, "Blue 3"); (30, "Purple"); (31, "Dark Pink") ].

Definition BLOCK_GROUPS : list (string * list Z) :=
  [ ("MAIN CONTROLS", [17; 17; 17]); ("SIDE CONTROLS", [13; 13]);
    ("SECONDARY CONTROLS", [6; 6]) ].

(** [INDEXED_COLORS.get(idx, f"Index {idx}")]. *)
Definition color_name (idx : Z) : string :=
  match List.find (fun e => fst e =? idx) INDEXED_COLORS with
  | Some e => snd e
  | None => "Index " +:+ pretty idx
  end.

Definition RenderRigControls : string := "RenderRigControls".

(** *** [save_config] *)

(** The dict [data] that [save_config] builds and hands to
    [write_json_config]. *)
Definition save_config_data (u : ui) : dict :=
  let data :=
    fold_left
      (fun data '(title, info) =>
         let idx := slider info in
         if 0 <=? idx then
           dict_set data title
             (VDict [("index", VInt idx); ("name", VStr (color_name idx))])
         else
           dict_set data title
             (VDict [("index", VInt (-1)); ("rgb", rgb info)]))
      (blocks u) [] in
  dict_set data RenderRigControls
    (VDict [("curveWidth", VFloat (curve_width u));
            ("sampleRate", VInt (sample_rate u))]).

Definition save_config {lib : PyLib} (u : ui) : io unit :=
  write_json_config (VDict (save_config_data u)).

(** *** [normalize_saved_block] and [has_unsaved_changes] *)

Section Diff.
Context {lib : PyLib}.

Definition normalize_saved_block (block : value) : result value :=
  if negb (truthy block) then Ok VNone
  else
    idx ← py_get block "index" VNone;
    if is_none idx then Ok VNone
    else
      ge ← py_ge0 idx;
      if ge : bool then
        i ← py_int idx;
        Ok (VDict [("index", VInt i)])
      else
        rgb ← py_get block "rgb" VNone;
        if is_none rgb then Ok (VDict [("index", VInt (-1))])
        else
          r ← py_item rgb 0 ≫= py_float_object;
          g ← py_item rgb 1 ≫= py_float_object;
          b ← py_item rgb 2 ≫= py_float_object;
          Ok (VDict [("index", VInt (-1)); ("rgb", VList [r; g; b])]).

(** The dict [current]: one entry per block, then the render entry. *)
Definition current_state (u : ui) : dict :=
  let current :=
    fold_left
      (fun current '(title, info) =>
         let slider_val := slider info in
         if 0 <=? slider_val then
           dict_set current title (VDict [("index", VInt slider_val)])
         else
           dict_set current title
             (VDict [("index", VInt (-1)); ("rgb", rgb info)]))
      (blocks u) [] in
  dict_set current RenderRigControls
    (VDict [("curveWidth", VFloat (curve_width u));
            ("sampleRate", VInt (sample_rate u))]).

(** One turn of the loop [for k, v in current.items()]: [continue] is
    what the rest of the loop returns. *)
Definition compare_block (saved_config : value) (k : string) (v : value)
    (continue : result bool) : result bool :=
  if bool_decide (k = RenderRigControls) then continue
  else
    saved_block ← py_get saved_config k (VDict []);
    saved_norm ← normalize_saved_block saved_block;
    if is_none saved_norm then Ok true
    else
      v_index ← py_get v "index" VNone;
      saved_index ← py_get saved_norm "index" VNone;
      if py_ne v_index saved_index then Ok true
      else if py_eq v_index (VInt (-1)) then
        saved_rgb ← py_get saved_norm "rgb" VNone;
        cur_rgb ← py_get v "rgb" VNone;
        if is_none saved_rgb && is_none cur_rgb then continue
        else if py_ne saved_rgb cur_rgb then Ok true
        else continue
      else continue.

(** The loop, with the [return False] that follows it. *)
Fixpoint compare_blocks (saved_config : value) (items : dict) : result bool :=
  match items with
  | [] => Ok false
  | (k, v) :: rest =>
      compare_block saved_config k v (compare_blocks saved_config rest)
  end.

Definition has_unsaved_changes (fs : filesystem) (u : ui) : result bool :=
  saved_config ← read_json_config fs;
  let current := current_state u in
  if negb (truthy saved_config) then Ok true
  else
    saved_rig ← py_get saved_config RenderRigControls (VDict []);
    saved_cw ← py_get saved_rig "curveWidth" (VFloat 0%float) ≫= py_float;
    cur_cw ← py_key (VDict current) RenderRigControls
               ≫= (fun rig => py_key rig "curveWidth");
    if py_ne (VFloat saved_cw) cur_cw then Ok true
    else
      saved_sr ← py_get saved_rig "sampleRate" (VInt 1) ≫= py_int;
      cur_sr ← py_key (VDict current) RenderRigControls
                 ≫= (fun rig => py_key rig "sampleRate");
      if py_ne (VInt saved_sr) cur_sr then Ok true
      else compare_blocks saved_config current.

End Diff.

(** *** The handlers of one block *)

Section Handlers.
(** [cmds.colorIndex(idx, q=True)]: the palette of the host. *)
Variable colorIndex : Z -> result value.

Definition black : value :=
  VList [VFloat 0%float; VFloat 0%float; VFloat 0%float].

Definition palette_rgb (idx : Z) : value :=
  match try_except (colorIndex idx) (fun _ => Ok black) with
  | Ok rgb => rgb
  | Raise _ => black
  end.

(** The value an [intSlider] takes for its [value] flag: the host
    wants an int.  (A value inside the slider's range [-1..31] is
    shown as it is; the model keeps any int as it is.) *)
Definition slider_value (v : value) : result Z :=
  match v with
  | VInt z => Ok z
  | _ => Raise TypeError
  end.

(** [add_color_index_block]: the entry it stores in [blocks_dict],
    with the widgets as it leaves them. *)
Definition add_color_index_block (default_index : Z) (saved_data : value)
  : result block :=
  saved_idx ← (if truthy saved_data
               then py_get saved_data "index" (VInt default_index)
               else Ok (VInt default_index));
  saved_rgb ← (if truthy saved_data
               then py_get saved_data "rgb" VNone
               else Ok VNone);
  idx ← slider_value saved_idx;
  if py_eq saved_idx (VInt (-1)) && truthy saved_rgb then
    Ok {| slider := idx;
          rgb := if py_eq saved_idx (VInt (-1)) then saved_rgb else VNone;
          lastIndex := default_index;
          label := "Selected: Custom RGB";
          swatch := saved_rgb |}
  else
    Ok {| slider := idx;
          rgb := if py_eq saved_idx (VInt (-1)) then saved_rgb else VNone;
          lastIndex := idx;
          label := "Selected: " +:+ color_name idx;
          swatch := palette_rgb idx |}.

(** [update_color_block], the slider's [dragCommand]: the slider
    already holds the position the user dragged it to. *)
Definition update_color_block (b : block) : block :=
  let idx := slider b in
  if idx =? -1 then
    let custom_rgb := rgb b in
    if negb (truthy custom_rgb) then
      {| slider := lastIndex b; rgb := rgb b; lastIndex := lastIndex b;
         label := label b; swatch := swatch b |}
    else
      {| slider := slider b; rgb := rgb b; lastIndex := lastIndex b;
         label := "Selected: Custom RGB"; swatch := custom_rgb |}
  else
    {| slider := slider b; rgb := rgb b; lastIndex := idx;
       label := "Selected: " +:+ color_name idx;
       swatch := palette_rgb idx |}.

(** [create_custom_color]: [picked] is what the colour editor returned,
    [None] when the user dismissed it. *)
Definition create_custom_color (picked : option (float * float * float))
    (b : block) : block * list ui_event :=
  match picked with
  | Some (r, g, bl) =>
      let rgb := VList [VFloat r; VFloat g; VFloat bl] in
      ({| slider := -1; rgb := rgb; lastIndex := lastIndex b;
          label := "Selected: Custom RGB"; swatch := rgb |},
       [InViewMessage "Custom color creado"])
  | None => (b, [])
  end.

(** What [apply_color_button] asks of the scene; the block is only
    read. *)
Inductive color_command : Type :=
| ChangeColorByIndex (index : Z)
| ChangeColorByRgb (rgb : value).

Definition apply_color_button (b : block) : color_command :=
  let idx := slider b in
  let rgb := swatch b in
  if 0 <=? idx then ChangeColorByIndex idx else ChangeColorByRgb rgb.

(** The titles [build_ui] gives the blocks, [f"{group_name} {i}"] with [i]
    counting from 1 within the group, each with its default index. *)
Definition block_titles : list (string * Z) :=
  flat_map
    (fun '(group_name, defaults) =>
       imap (fun i default_index =>
               (group_name +:+ " " +:+ pretty (S i), default_index))
            defaults)
    BLOCK_GROUPS.

(** The blocks [build_ui] puts in [_color_ui_blocks] for a saved
    document. *)
Definition build_blocks (saved_config : value)
  : result (list (string * block)) :=
  mapM
    (fun '(block_title, default_index) =>
       saved_data ← py_get saved_config block_title (VDict []);
       b ← add_color_index_block default_index saved_data;
       Ok (block_title, b))
    block_titles.

(** What can happen to a block once it is built. *)
Inductive event : Type :=
| Drag (idx : Z)          (** the user drags the slider to [idx] *)
| CreateCustom (picked : option (float * float * float))
| Apply.

Definition set_slider (idx : Z) (b : block) : block :=
  {| slider := idx; rgb := rgb b; lastIndex := lastIndex b;
     label := label b; swatch := swatch b |}.

Definition step (b : block) (e : event) : block :=
  match e with
  | Drag idx => update_color_block (set_slider idx b)
  | CreateCustom picked => fst (create_custom_color picked b)
  | Apply => b
  end.

Definition run (b : block) (es : list event) : block := fold_left step es b.

(** The positions the slider showed: at construction, then after each
    event. *)
Fixpoint slider_trace (b : block) (es : list event) : list Z :=
  slider b ::
  match es with
  | [] => []
  | e :: es' => slider_trace (step b e) es'
  end.

End Handlers.

(** What the handlers keep true of a block: a custom selection has its
    rgb, [lastIndex] is a palette index, and it is the slider's position
    whenever that is a palette index. *)
Definition sound (b : block) : Prop :=
  (slider b = -1 -> truthy (rgb b) = true)
  /\ lastIndex b <> -1
  /\ (slider b <> -1 -> lastIndex b = slider b).

End Panel.

(* ===================================================================== *)
(** ** The shading pair: [safe_name], [unique_node_name],
       [ensure_place2d_and_ramp] *)
(* ===================================================================== *)

Module Scene.
Import Py.

(** *** The scene graph of the host

    A node has a name, unique in the scene, a type and attributes; a
    connection joins a source plug to a destination plug, and a
    destination has at most one source.  A plug is written
    [node.attribute], as the panel writes it. *)
Record node : Type := {
  node_type : string;
  attributes : list string
}.

Record scene : Type := {
  nodes : gmap string node;
  connections : gset (string * string)
}.

(** The attributes the panel uses of the nodes it creates. *)
Definition attributes_of (type : string) : list string :=
  if bool_decide (type = "ramp") then
    ["uv"; "uvFilterSize"; "outColor"; "type"; "colorEntryList"]
  else if bool_decide (type = "place2dTexture") then
    ["outUV"; "outUvFilterSize"]
  else [].

(** [node.attribute] split at its first dot. *)
Fixpoint split_plug (p : string) : option (string * string) :=
  match p with
  | EmptyString => None
  | String c p' =>
      if bool_decide (c = "."%char) then Some (EmptyString, p')
      else
        match split_plug p' with
        | Some (n, a) => Some (String c n, a)
        | None => None
        end
  end.

Definition plug_exists (sc : scene) (p : string) : bool :=
  match split_plug p with
  | Some (n, a) =>
      match nodes sc !! n with
      | Some nd => bool_decide (a ∈ attributes nd)
      | None => false
      end
  | None => false
  end.

(** [cmds.objExists(name)]. *)
Definition objExists (name : string) (sc : scene) : bool :=
  bool_decide (is_Some (nodes sc !! name)).

(** The name the host gives a new node when [name] is taken: the first
    free one among [name1], [name2], ... *)
Definition free_name (name : string) (sc : scene) : string :=
  default name
    (List.find (fun c => negb (objExists c sc))
       (name :: List.map (fun k => name +:+ pretty k)
                  (seq 1 (S (size (nodes sc)))))).

(** [cmds.createNode(type, name=name)]. *)
Definition createNode (type name : string) (sc : scene) : result scene :=
  Ok {| nodes := <[free_name name sc :=
                     {| node_type := type; attributes := attributes_of type |}]>
                   (nodes sc);
        connections := connections sc |}.

(** [cmds.isConnected(src, dst)]: an error when a plug does not exist. *)
Definition isConnected (src dst : string) (sc : scene) : result bool :=
  if plug_exists sc src && plug_exists sc dst then
    Ok (bool_decide ((src, dst) ∈ connections sc))
  else Raise RuntimeError.

Definition has_source (dst : string) (sc : scene) : bool :=
  bool_decide (set_Exists (fun c => c.2 = dst) (connections sc)).

(** [cmds.connectAttr(src, dst, force=force)]: an error when a plug does
    not exist, when the two are connected already, and when [dst] has
    another source and [force] is off; with [force] on, that source is
    disconnected first. *)
Definition connectAttr (src dst : string) (force : bool) (sc : scene)
  : result scene :=
  if negb (plug_exists sc src && plug_exists sc dst) then Raise RuntimeError
  else if bool_decide ((src, dst) ∈ connections sc) then Raise RuntimeError
  else if has_source dst sc && negb force then Raise RuntimeError
  else
    Ok {| nodes := nodes sc;
          connections :=
            filter (fun c => c.2 ≠ dst) (connections sc) ∪ {[ (src, dst) ]} |}.

(** [try: body / except Exception: pass] around a change of the scene. *)
Definition attempt (body : scene -> result scene) (sc : scene) : scene :=
  match body sc with
  | Ok sc' => sc'
  | Raise _ => sc
  end.

(** *** The panel's code *)

(** [try: if not cmds.objExists(name): cmds.createNode(type, name=name)
    / except Exception: pass]. *)
Definition ensure_node (type name : string) (sc : scene) : scene :=
  attempt (fun sc =>
    if negb (objExists name sc) then createNode type name sc
    else Ok sc) sc.

(** [try: if not cmds.isConnected(src, dst): cmds.connectAttr(src, dst,
    force=force) / except Exception: pass]. *)
Definition ensure_connection (src dst : string) (force : bool) (sc : scene)
  : scene :=
  attempt (fun sc =>
    c ← isConnected src dst sc;
    if negb c then connectAttr src dst force sc
    else Ok sc) sc.

Definition ensure_place2d_and_ramp (ramp_name texture_name curve_shader_attr : string)
    (sc : scene) : scene :=
  let sc := ensure_node "ramp" ramp_name sc in
  let sc := ensure_node "place2dTexture" texture_name sc in
  let sc := ensure_connection (texture_name +:+ ".outUV")
                              (ramp_name +:+ ".uv") false sc in
  let sc := ensure_connection (texture_name +:+ ".outUvFilterSize")
                              (ramp_name +:+ ".uvFilterSize") false sc in
  ensure_connection (ramp_name +:+ ".outColor") curve_shader_attr true sc.

(** [name.split('|')]. *)
Fixpoint split_bar (name : string) : list string :=
  match name with
  | EmptyString => [EmptyString]
  | String c name' =>
      if bool_decide (c = "|"%char) then EmptyString :: split_bar name'
      else
        match split_bar name' with
        | seg :: segs => String c seg :: segs
        | [] => [String c EmptyString]
        end
  end.

(** The class [[0-9A-Za-z_]] of the pattern in [safe_name]. *)
Definition word_char (c : ascii) : bool :=
  let n := nat_of_ascii c in
  ((48 <=? n) && (n <=? 57) || (65 <=? n) && (n <=? 90)
   || (97 <=? n) && (n <=? 122) || (n =? 95))%nat.

Fixpoint sub_non_word (s : string) : string :=
  match s with
  | EmptyString => EmptyString
  | String c s' =>
      String (if word_char c then c else "_"%char) (sub_non_word s')
  end.

Definition safe_name (name : string) : string :=
  sub_non_word (List.last (split_bar name) EmptyString).

(** [unique_node_name]: [uuid4] is the text of the UUID the call draws,
    [str(uuid.uuid4())]. *)
Definition unique_node_name (base_name uuid4 : string) : string :=
  let short_uuid := String.substring 0 8 uuid4 in
  base_name +:+ "_" +:+ short_uuid.

(** The names [render_selected_controls] chooses for an object:
    [uuid_ramp] and [uuid_texture] are the two UUIDs drawn for an object
    with a referenced shape. *)
Definition shading_names (obj : string) (is_any_referenced : bool)
    (uuid_ramp uuid_texture : string) : string * string :=
  let base_name := safe_name obj in
  if is_any_referenced then
    (unique_node_name ("ramp_" +:+ base_name) uuid_ramp,
     unique_node_name ("place2dTexture_" +:+ base_name) uuid_texture)
  else
    ("ramp_" +:+ base_name, "place2dTexture_" +:+ base_name).

(** The first call of [ensure_place2d_and_ramp] for an object whose
    first shape is [shape]. *)
Definition ensure_shading_pair (obj shape : string) (is_any_referenced : bool)
    (uuid_ramp uuid_texture : string) (sc : scene) : scene :=
  let '(ramp_name, texture_name) :=
    shading_names obj is_any_referenced uuid_ramp uuid_texture in
  ensure_place2d_and_ramp ramp_name texture_name (shape +:+ ".aiCurveShader") sc.

(** The node a plug is on. *)
Definition plug_node (p : string) : string :=
  match split_plug p with
  | Some (n, _) => n
  | None => p
  end.

(** [cmds.listConnections(name, source=False, destination=True) or []]:
    the connections that leave the node. *)
Definition listConnections (name : string) (sc : scene) : list (string * string) :=
  elements (filter (fun c => plug_node c.1 = name) (connections sc)).

(** [cmds.delete(name)]: the node goes, and with it every connection that
    has an end on it. *)
Definition delete (name : string) (sc : scene) : result scene :=
  if objExists name sc then
    Ok {| nodes := base.delete name (nodes sc);
          connections :=
            filter (fun c => plug_node c.1 ≠ name ∧ plug_node c.2 ≠ name)
                   (connections sc) |}
  else Raise RuntimeError.

(** One turn of either loop of [cleanup_unused_ramps_and_textures]. *)
Definition cleanup_node (name : string) (sc : scene) : scene :=
  if objExists name sc then
    let conns := listConnections name sc in
    match conns with
    | [] => attempt (delete name) sc
    | _ => sc
    end
  else sc.

Definition cleanup_unused_ramps_and_textures (created_ramps created_textures : list string)
    (sc : scene) : scene :=
  let sc := fold_left (fun sc ramp => cleanup_node ramp sc) created_ramps sc in
  fold_left (fun sc tex => cleanup_node tex sc) created_textures sc.

(** The state in which a connection asked for without force is settled:
    a plug is missing, or the destination has a source. *)
Definition stable (src dst : string) (sc : scene) : Prop :=
  plug_exists sc src && plug_exists sc dst = false \/ has_source dst sc = true.

Definition count_type (type : string) (sc : scene) : nat :=
  size (filter (fun kv => node_type kv.2 = type) (nodes sc)).

End Scene.

(* ===================================================================== *)
(** ** The specification's reading of the data *)
(* ===================================================================== *)

Module Spec.
Import Py.

(** A colour block as the specification's data model has it: an index in
    [-1..31] and, for the custom index [-1], an optional triple. *)
Record ColorBlock : Type := {
  index : Z;
  rgb : option (float * float * float)
}.

Record RenderSettings : Type := {
  curveWidth : float;
  sampleRate : Z
}.

(** The block value shapes of the config file, as documented:
    [{"index": int}] or [{"index": -1, "rgb": [float, float, float]}]. *)
Definition documented_block (v : value) : bool :=
  match v with
  | VDict [("index", VInt i)] => 0 <=? i
  | VDict [("index", VInt i); ("rgb", VList [VFloat _; VFloat _; VFloat _])] =>
      i =? -1
  | _ => false
  end.

(** The documented [RenderRigControls] value:
    [{"curveWidth": float, "sampleRate": int}]. *)
Definition documented_render (v : value) : bool :=
  match v with
  | VDict [("curveWidth", VFloat _); ("sampleRate", VInt _)] => true
  | _ => false
  end.

(** A saved record read as a [ColorBlock]: an int index that is not
    below [-1]; under a palette index whatever else the record holds is
    dropped; under [-1] the record carries a triple of floats or no rgb
    at all.  [None] for a record of any other form. *)
Definition read_record (v : value) : option ColorBlock :=
  match v with
  | VDict d =>
      match dict_get d "index" with
      | Some (VInt i) =>
          if 0 <=? i then Some {| index := i; rgb := None |}
          else if i =? -1 then
            match dict_get d "rgb" with
            | None | Some VNone => Some {| index := -1; rgb := None |}
            | Some (VList [VFloat r; VFloat g; VFloat b]) =>
                Some {| index := -1; rgb := Some (r, g, b) |}
            | Some _ => None
            end
          else None
      | _ => None
      end
  | _ => None
  end.

(** The saved render settings, with the defaults for what is missing. *)
Definition read_render (saved : dict) : option RenderSettings :=
  match dict_get saved "RenderRigControls" with
  | None => Some {| curveWidth := 0%float; sampleRate := 1 |}
  | Some (VDict rig) =>
      match dict_get rig "curveWidth", dict_get rig "sampleRate" with
      | Some (VFloat c), Some (VInt n) => Some {| curveWidth := c; sampleRate := n |}
      | Some (VFloat c), None => Some {| curveWidth := c; sampleRate := 1 |}
      | None, Some (VInt n) => Some {| curveWidth := 0%float; sampleRate := n |}
      | None, None => Some {| curveWidth := 0%float; sampleRate := 1 |}
      | _, _ => None
      end
  | Some _ => None
  end.

(** The live state of a block as a [ColorBlock]. *)
Definition read_block (b : Panel.block) : option ColorBlock :=
  if 0 <=? Panel.slider b then Some {| index := Panel.slider b; rgb := None |}
  else
    match Panel.rgb b with
    | VNone => Some {| index := -1; rgb := None |}
    | VList [VFloat r; VFloat g; VFloat bl] =>
        Some {| index := -1; rgb := Some (r, g, bl) |}
    | _ => None
    end.

(** Two triples compared element by element, with the equality of
    floats and nothing more lenient. *)
Definition rgb_equal (x y : option (float * float * float)) : bool :=
  match x, y with
  | None, None => true
  | Some (r, g, b), Some (r', g', b') =>
      PrimFloat.eqb r r' && PrimFloat.eqb g g' && PrimFloat.eqb b b'
  | _, _ => false
  end.

(** Step 3 and 4 of the diff: a block has changed when its title is
    absent from the saved document, when the indices differ, or when
    both are custom and the triples differ. *)
Definition block_changed (saved : option ColorBlock) (cur : ColorBlock) : bool :=
  match saved with
  | None => true
  | Some s =>
      negb (index cur =? index s)
      || (index cur =? -1) && negb (rgb_equal (rgb s) (rgb cur))
  end.

Definition render_changed (saved : RenderSettings) (cw : float) (sr : Z) : bool :=
  negb (PrimFloat.eqb (curveWidth saved) cw) || negb (sampleRate saved =? sr).

(** The record saved under a title, [None] when the title is absent. *)
Definition saved_record (saved : dict) (k : string) : option ColorBlock :=
  dict_get saved k ≫= read_record.

(** The diff as the specification words it, on a saved document that is
    not empty. *)
Definition changed (saved : dict) (rs : RenderSettings) (u : Panel.ui) : bool :=
  render_changed rs (Panel.curve_width u) (Panel.sample_rate u)
  || existsb
       (fun kb =>
          match read_block (snd kb) with
          | Some cur => block_changed (saved_record saved (fst kb)) cur
          | None => true
          end)
       (Panel.blocks u).

(** The entry of [current] for a block. *)
Definition current_value (b : Panel.block) : value :=
  if 0 <=? Panel.slider b then VDict [("index", VInt (Panel.slider b))]
  else VDict [("index", VInt (-1)); ("rgb", Panel.rgb b)].

(** The value [save_config] stores for a block. *)
Definition saved_value (b : Panel.block) : value :=
  if 0 <=? Panel.slider b then
    VDict [("index", VInt (Panel.slider b)); ("name", VStr (Panel.color_name (Panel.slider b)))]
  else VDict [("index", VInt (-1)); ("rgb", Panel.rgb b)].

Definition is_some {A} (o : option A) : bool :=
  match o with
  | Some _ => true
  | None => false
  end.

(** The live state and the saved document are of the documented form: the
    titles are distinct, as the keys of a dict are, and none is the
    reserved key; every block reads as a [ColorBlock]; and every saved
    record under a title of the panel does too. *)
Definition well_formed (saved : dict) (u : Panel.ui) : bool :=
  bool_decide (NoDup (Panel.blocks u).*1)
  && bool_decide (Panel.RenderRigControls ∉ (Panel.blocks u).*1)
  && forallb
       (fun kb =>
          is_some (read_block (snd kb))
          && match dict_get saved (fst kb) with
             | None => true
             | Some v => is_some (read_record v)
             end)
       (Panel.blocks u).

(** The entries of [current] for the blocks, and those [save_config]
    stores for them. *)
Definition current_entries (bs : list (string * Panel.block)) : dict :=
  List.map (fun kb => (fst kb, current_value (snd kb))) bs.

Definition saved_entries (bs : list (string * Panel.block)) : dict :=
  List.map (fun kb => (fst kb, saved_value (snd kb))) bs.

(** A block whose numbers equal themselves: no component of its rgb is a
    NaN. *)
Definition no_nan (c : ColorBlock) : bool :=
  rgb_equal (rgb c) (rgb c).

(** A panel of the documented form, without a NaN in it. *)
Definition savable (u : Panel.ui) : bool :=
  bool_decide (NoDup (Panel.blocks u).*1)
  && bool_decide (Panel.RenderRigControls ∉ (Panel.blocks u).*1)
  && PrimFloat.eqb (Panel.curve_width u) (Panel.curve_width u)
  && forallb
       (fun kb =>
          match read_block (snd kb) with
          | Some c => no_nan c
          | None => false
          end)
       (Panel.blocks u).

(** The invariant of a block as the data model states it: rgb is set
    exactly when the index is [-1]. *)
Definition rgb_iff_custom (b : Panel.block) : bool :=
  Bool.eqb (negb (is_none (Panel.rgb b))) (Panel.slider b =? -1).

(** The most recent position that is not the custom one, [start] when
    there is none. *)
Fixpoint most_recent_palette (start : Z) (positions : list Z) : Z :=
  match positions with
  | [] => start
  | p :: ps => most_recent_palette (if p =? -1 then start else p) ps
  end.

(** The most recent custom colour: the triple of the last colour picked
    in the colour editor, [start] when none was picked. *)
Fixpoint most_recent_custom (start : value) (es : list Panel.event) : value :=
  match es with
  | [] => start
  | Panel.CreateCustom (Some (r, g, b)) :: es' =>
      most_recent_custom (VList [VFloat r; VFloat g; VFloat b]) es'
  | _ :: es' => most_recent_custom start es'
  end.

End Spec.

(* ===================================================================== *)
(** ** States and documents for the examples *)
(* ===================================================================== *)

Module Samples.
Import Py Config Panel.

(** Two values are the same value: same constructor, same parts, floats
    bit for bit. *)
Fixpoint same_value (a b : value) {struct a} : bool :=
  match a, b with
  | VNone, VNone => true
  | VBool x, VBool y => Bool.eqb x y
  | VInt x, VInt y => x =? y
  | VFloat f, VFloat g => PrimFloat.Leibniz.eqb f g
  | VNaN, VNaN => true
  | VStr s, VStr t => bool_decide (s = t)
  | VList l, VList m =>
      (fix items (l m : list value) {struct l} : bool :=
         match l, m with
         | [], [] => true
         | x :: l', y :: m' => same_value x y && items l' m'
         | _, _ => false
         end) l m
  | VDict d, VDict e =>
      (fix entries (d e : list (string * value)) {struct d} : bool :=
         match d, e with
         | [], [] => true
         | (k, v) :: d', (k', w) :: e' =>
             bool_decide (k = k') && same_value v w && entries d' e'
         | _, _ => false
         end) d e
  | _, _ => false
  end.

(** A library whose [json] knows the documents of [table], each under
    its text, and nothing else; it parses no number out of a string. *)
Definition table_lib (table : list (string * value)) : PyLib := {|
  float_of_str := fun _ => None;
  int_of_str := fun _ => None;
  json_dumps := fun v =>
    match List.find (fun e => same_value (snd e) v) table with
    | Some e => fst e
    | None => "null"
    end;
  json_loads := fun text =>
    match List.find (fun e => bool_decide (fst e = text)) table with
    | Some e => Ok (snd e)
    | None => Raise ValueError
    end
|}.

Definition render_1_1 : value :=
  VDict [("curveWidth", VFloat 1%float); ("sampleRate", VInt 1)].

(** Saved [{"A": {"index": 5}}] with render settings. *)
Definition doc_A5 : value :=
  VDict [("A", VDict [("index", VInt 5)]); ("RenderRigControls", render_1_1)].

(** Saved [{"A": {"index": -1, "rgb": [0.1, 0.2, 0.30001]}}]. *)
Definition doc_A_custom : value :=
  VDict [("A", VDict [("index", VInt (-1));
                      ("rgb", VList [VFloat 0.1%float; VFloat 0.2%float;
                                     VFloat 0.30001%float])]);
         ("RenderRigControls", render_1_1)].

(** Saved [{"A": {"index": -1}}]: custom, without an rgb. *)
Definition doc_A_bare : value :=
  VDict [("A", VDict [("index", VInt (-1))]); ("RenderRigControls", render_1_1)].

(** Render settings one unit in the last place above [1.0]. *)
Definition doc_A5_wider : value :=
  VDict [("A", VDict [("index", VInt 5)]);
         ("RenderRigControls",
          VDict [("curveWidth", VFloat (PrimFloat.next_up 1%float));
                 ("sampleRate", VInt 1)])].

Definition sample_lib : PyLib :=
  table_lib [("text of doc_A5", doc_A5);
             ("text of doc_A_custom", doc_A_custom);
             ("text of doc_A_bare", doc_A_bare);
             ("text of doc_A5_wider", doc_A5_wider);
             ("{}", VDict [])].

Definition file_with (text : string) : filesystem :=
  {| config_file := Some text; may_read := true; writing := NoFault |}.

Definition no_file : filesystem :=
  {| config_file := None; may_read := true; writing := NoFault |}.

Definition plain_block (idx : Z) : block :=
  {| slider := idx; rgb := VNone; lastIndex := idx;
     label := "Selected: " +:+ color_name idx; swatch := black |}.

Definition custom_block (r g b : float) : block :=
  {| slider := -1; rgb := VList [VFloat r; VFloat g; VFloat b];
     lastIndex := 17; label := "Selected: Custom RGB";
     swatch := VList [VFloat r; VFloat g; VFloat b] |}.

Definition bare_custom_block : block :=
  {| slider := -1; rgb := VNone; lastIndex := -1;
     label := "Selected: Index -1"; swatch := black |}.

Definition ui_with (b : block) : ui :=
  {| blocks := [("A", b)]; curve_width := 1%float; sample_rate := 1 |}.

(** A file with a text in it, on a device that fails once eight
    characters of a new text are written. *)
Definition failing_world : world :=
  {| files := {| config_file := Some "text of doc_A5"; may_read := true;
                 writing := FailsAfter 8 |};
     shown := [] |}.

Definition fresh_world : world :=
  {| files := no_file; shown := [] |}.

(** A scene with one curve shape that has the render engine's shader
    attribute. *)
Definition sample_scene : Scene.scene :=
  {| Scene.nodes :=
       {[ "ctlShape" := {| Scene.node_type := "nurbsCurve";
                           Scene.attributes := ["aiCurveShader"] |} ]};
     Scene.connections := ∅ |}.

(** The pair of an object whose shape is not in the scene: the ramp
    drives nothing. *)
Definition scene_with_unused_pair : Scene.scene :=
  Scene.ensure_shading_pair "|grp|ctl-1" "otherShape" false "u1" "u2" sample_scene.

(** A palette that knows no index. *)
Definition no_palette (idx : Z) : result value := Raise RuntimeError.

(** A fresh block with default 17; the user creates the custom colour
    red, then drags the slider to palette index 5. *)
Definition custom_then_palette : result block :=
  b0 ← add_color_index_block no_palette 17 (VDict []);
  Ok (run no_palette b0 [CreateCustom (Some (1, 0, 0)%float); Drag 5]).

(** A saved custom record. *)
Definition saved_red : value :=
  VDict [("index", VInt (-1));
         ("rgb", VList [VFloat 1%float; VFloat 0%float; VFloat 0%float])].

End Samples.

(* ===================================================================== *)
(** ** Names of nodes *)
(* ===================================================================== *)

Module Names.
Import Py Scene.

(** Every character of the string is of the class [[0-9A-Za-z_]]. *)
Fixpoint word (s : string) : bool :=
  match s with
  | EmptyString => true
  | String c s' => word_char c && word s'
  end.

End Names.

(* ===================================================================== *)
(** ** The forms of a saved record *)
(* ===================================================================== *)

Module Normal.
Import Py Panel.

(** A float object. *)
Definition is_float (v : value) : bool :=
  match v with
  | VFloat _ | VNaN => true
  | _ => false
  end.

(** What [normalize_saved_block] can return: [None], [{"index": i}] with
    [i] a palette index or [-1], or [{"index": -1, "rgb": [r, g, b]}] with
    three floats. *)
Inductive normal_form : value -> Prop :=
| normal_none : normal_form VNone
| normal_index i : -1 <= i -> normal_form (VDict [("index", VInt i)])
| normal_custom r g b :
    is_float r = true -> is_float g = true -> is_float b = true ->
    normal_form (VDict [("index", VInt (-1)); ("rgb", VList [r; g; b])]).

(** The index a block has in the dict [current]. *)
Definition current_index (b : block) : Z :=
  if 0 <=? slider b then slider b else -1.

End Normal.

(* ===================================================================== *)
(** ** The diff as the specification words it, on any saved document *)
(* ===================================================================== *)

Module Reading.
Import Py Panel Normal.

(** What step 3 of the diff makes of a saved record. *)
Inductive reading : Type :=
| Unusable                  (** no record, or one without an index: the
                                title counts as absent *)
| Palette (i : Z)           (** an index that is not negative, as an int;
                                an rgb beside it is dropped *)
| Custom (rgb : option (value * value * value)).
                            (** a negative index, read as the custom index
                                [-1]: with three components, each as a
                                float, or with no rgb *)

Section WithLib.
Context {lib : PyLib}.

(** The first three items of a saved rgb, each as [float()] returns it;
    [None] when an item is missing or is no number. *)
Definition components (rgb : value) : option (value * value * value) :=
  match py_item rgb 0 ≫= py_float_object,
        py_item rgb 1 ≫= py_float_object,
        py_item rgb 2 ≫= py_float_object with
  | Ok r, Ok g, Ok b => Some (r, g, b)
  | _, _, _ => None
  end.

(** The record normalized; [None] for a record that is no dict, and for
    one whose index or rgb cannot be read as numbers. *)
Definition normalize (record : value) : option reading :=
  match record with
  | VDict d =>
      let idx := default VNone (dict_get d "index") in
      let rgb := default VNone (dict_get d "rgb") in
      if is_none idx then Some Unusable
      else
        match py_ge0 idx with
        | Ok true =>
            match py_int idx with
            | Ok i => Some (Palette i)
            | Raise _ => None
            end
        | Ok false =>
            if is_none rgb then Some (Custom None)
            else
              match components rgb with
              | Some c => Some (Custom (Some c))
              | None => None
              end
        | Raise _ => None
        end
  | _ => if truthy record then None else Some Unusable
  end.

(** The record saved under a title, normalized; a title the document
    does not have counts as an empty record. *)
Definition saved_record (saved : dict) (k : string) : option reading :=
  normalize (default (VDict []) (dict_get saved k)).

(** The saved render settings, each as a number: [curveWidth] as
    [float()] and [sampleRate] as [int()] convert what is stored, with
    the defaults [0.0] and [1] for what is missing. *)
Definition saved_render (saved : dict) : option Spec.RenderSettings :=
  match default (VDict []) (dict_get saved RenderRigControls) with
  | VDict rig =>
      match py_float (default (VFloat 0%float) (dict_get rig "curveWidth")),
            py_int (default (VInt 1) (dict_get rig "sampleRate")) with
      | Ok c, Ok n => Some {| Spec.curveWidth := c; Spec.sampleRate := n |}
      | _, _ => None
      end
  | _ => None
  end.

End WithLib.

(** Two numbers that are equal: an int and a float compare by the number
    they denote, two floats as IEEE 754 has it. *)
Definition equal_numbers (a b : value) : bool :=
  match as_number a, as_number b with
  | Some x, Some y => num_eq x y
  | _, _ => false
  end.

(** A component of the saved rgb against the item of the block's rgb at
    its place: they are equal numbers, or one and the same object. *)
Definition same_component (saved cur : value) : bool :=
  py_is saved cur || equal_numbers saved cur.

(** The saved rgb against the rgb of the block, element by element. *)
Definition same_rgb (saved : option (value * value * value)) (cur : value)
  : bool :=
  match saved, cur with
  | None, VNone => true
  | Some (r, g, b), VList [x; y; z] =>
      same_component r x && same_component g y && same_component b z
  | _, _ => false
  end.

(** Steps 3 and 4 of the diff for one block: it has changed when there
    is no usable record under its title, when its index is not the
    record's, and, both being custom, when the rgb differs. *)
Definition block_changed (saved : reading) (b : block) : bool :=
  match saved with
  | Unusable => true
  | Palette i => negb (current_index b =? i)
  | Custom rgb' =>
      negb (current_index b =? -1) || negb (same_rgb rgb' (rgb b))
  end.

(** The dict [normalize_saved_block] returns for a reading. *)
Definition encode (rd : reading) : value :=
  match rd with
  | Unusable => VNone
  | Palette i => VDict [("index", VInt i)]
  | Custom None => VDict [("index", VInt (-1))]
  | Custom (Some (r, g, b)) =>
      VDict [("index", VInt (-1)); ("rgb", VList [r; g; b])]
  end.

End Reading.

(* ===================================================================== *)
(** ** What the widgets of a block show *)
(* ===================================================================== *)

Module Display.
Import Py Panel.

Section Widgets.
Variable colorIndex : Z -> result value.

(** The label and the swatch show what the slider selects: the custom
    colour of the block at [-1], the palette colour of the index
    elsewhere. *)
Definition shows_selection (b : block) : Prop :=
  label b = (if slider b =? -1 then "Selected: Custom RGB"
             else "Selected: " +:+ color_name (slider b))
  /\ swatch b = (if slider b =? -1 then rgb b
                 else palette_rgb colorIndex (slider b)).

(** What the handlers keep true of the widgets of a block. *)
Definition consistent (b : block) : Prop :=
  sound b /\ 0 <= lastIndex b /\ -1 <= slider b /\ shows_selection b.

(** A drag stays inside the range [-1..31] of the slider. *)
Definition in_range (e : event) : bool :=
  match e with
  | Drag idx => (-1 <=? idx) && (idx <=? 31)
  | CreateCustom _ | Apply => true
  end.

End Widgets.
End Display.

(* ===================================================================== *)
(** ** Opening and closing the panel: [build_ui], [close_panel] *)
(* ===================================================================== *)

Module Session.
Import Py Config Panel.

Section Build.
Context {lib : PyLib}.
(** [cmds.colorIndex(idx, q=True)]: the palette of the host. *)
Variable colorIndex : Z -> result value.

(** The value a [floatField] takes for its [value] flag: the host wants
    a number.  (The field shows three decimals and holds the value; a
    value inside the field's range [0..100] is held as it is, and the
    model holds any value as it is.) *)
Definition float_field_value (v : value) : result float :=
  match v with
  | VFloat f => Ok f
  | VNaN => Ok PrimFloat.nan
  | VInt z => Ok (float_of_int z)
  | _ => Raise TypeError
  end.

(** The value an [intField] takes for its [value] flag: the host wants
    an int.  (A value inside the field's range [1..100] is held as it
    is; the model holds any int as it is.) *)
Definition int_field_value (v : value) : result Z :=
  match v with
  | VInt z => Ok z
  | _ => Raise TypeError
  end.

(** [build_ui]: the widgets it leaves, for the file it finds. *)
Definition build_ui (fs : filesystem) : result ui :=
  saved_config ← read_json_config fs;
  bs ← build_blocks colorIndex saved_config;
  saved_rig ← py_get saved_config RenderRigControls (VDict []);
  cw_default ← py_get saved_rig "curveWidth" (VFloat 1%float);
  sr_default ← py_get saved_rig "sampleRate" (VInt 1);
  cw ← float_field_value cw_default;
  sr ← int_field_value sr_default;
  Ok {| blocks := bs; curve_width := cw; sample_rate := sr |}.

(** The block [add_color_index_block] builds when there is no saved
    record: the default index, with its name and its palette colour. *)
Definition default_block (default_index : Z) : block :=
  {| slider := default_index; rgb := VNone; lastIndex := default_index;
     label := "Selected: " +:+ color_name default_index;
     swatch := palette_rgb colorIndex default_index |}.

End Build.

(** What [close_panel] leaves: whether the user was asked, and whether
    the workspace control of the panel still exists. *)
Record closing : Type := {
  asked : bool;
  control : bool
}.

(** [close_panel]: [answer] is what [cmds.confirmDialog] returns when it
    is shown, the label of the button pressed or the dismiss string;
    [exists_] is whether the workspace control exists and [deletes] is
    whether [cmds.deleteUI] succeeds on it. *)
Definition close_panel {lib : PyLib} (fs : filesystem) (u : ui)
    (answer : string) (exists_ deletes : bool) : result closing :=
  changed ← has_unsaved_changes fs u;
  let remains := exists_ && negb deletes in
  if changed : bool then
    if negb (bool_decide (answer = "Yes")) then
      Ok {| asked := true; control := exists_ |}
    else Ok {| asked := true; control := remains |}
  else Ok {| asked := false; control := remains |}.

End Session.

(* ===================================================================== *)
(** ** The colour operations: [change_color_by_index], [change_color_by_rgb],
       [get_current_color_of_shape] *)
(* ===================================================================== *)

Module Shapes.
Import Py.

(** *** The shapes of the host and their attributes

    What the colour operations see of the scene: the shapes under each
    object that a name resolves to, the value of every plug that exists,
    written [node.attribute], and the plugs that are locked. *)
Record dag : Type := {
  shapes_of : gmap string (list string);
  plugs : gmap string value;
  locked : gset string
}.

(** [cmds.listRelatives(ctl, shapes=True, fullPath=True) or []]: an
    error when the name resolves to no object. *)
Definition listRelatives (ctl : string) (d : dag) : result (list string) :=
  match shapes_of d !! ctl with
  | Some shapes => Ok shapes
  | None => Raise ValueError
  end.

Definition settable (plug : string) (d : dag) : bool :=
  bool_decide (is_Some (plugs d !! plug))
  && negb (bool_decide (plug ∈ locked d)).

(** [cmds.setAttr(plug, v)]: an error when the plug does not exist or is
    locked. *)
Definition setAttr (plug : string) (v : value) (d : dag) : result dag :=
  if settable plug d then
    Ok {| shapes_of := shapes_of d;
          plugs := <[plug := v]> (plugs d);
          locked := locked d |}
  else Raise RuntimeError.

(** [cmds.getAttr(plug)]: an error when the plug does not exist. *)
Definition getAttr (plug : string) (d : dag) : result value :=
  match plugs d !! plug with
  | Some v => Ok v
  | None => Raise ValueError
  end.

(** The items of [for x in v] and of [*v]. *)
Definition py_iter (v : value) : result (list value) :=
  match v with
  | VList l => Ok l
  | VStr s =>
      Ok (List.map (fun c => VStr (String c EmptyString)) (list_ascii_of_string s))
  | VDict d => Ok (List.map (fun kv => VStr kv.1) d)
  | VNone | VBool _ | VInt _ | VFloat _ | VNaN => Raise TypeError
  end.

(** The number the host reads in an argument of [setAttr]. *)
Definition as_float (v : value) : option float :=
  match v with
  | VFloat f => Some f
  | VNaN => Some PrimFloat.nan
  | VInt z => Some (float_of_int z)
  | VBool b => Some (float_of_int (int_of_bool b))
  | _ => None
  end.

(** [try: step; step; ... / except Exception: pass]: what the steps did
    before one raised stays done. *)
Fixpoint attempt_all (steps : list (dag -> result dag)) (d : dag) : dag :=
  match steps with
  | [] => d
  | step :: rest =>
      match step d with
      | Ok d' => attempt_all rest d'
      | Raise _ => d
      end
  end.

(** The two loops [for ctl in sel: for s in cmds.listRelatives(...) or []]
    of the colour operations, around the body of the inner one. *)
Fixpoint for_each_shape (body : string -> dag -> dag) (sel : list string)
    (d : dag) : result unit * dag :=
  match sel with
  | [] => (Ok tt, d)
  | ctl :: rest =>
      match listRelatives ctl d with
      | Ok shapes =>
          for_each_shape body rest (fold_left (fun d s => body s d) shapes d)
      | Raise e => (Raise e, d)
      end
  end.

(** [change_color_by_index]; an empty selection returns at once, as the
    loop over it does. *)
Definition change_color_by_index (sel : list string) (index : Z) (d : dag)
  : result unit * dag :=
  for_each_shape
    (fun s =>
       attempt_all
         [ setAttr (s +:+ ".overrideEnabled") (VInt 1);
           setAttr (s +:+ ".overrideRGBColors") (VInt 0);
           setAttr (s +:+ ".overrideColor") (VInt index) ])
    sel d.

Section Host.
Context {lib : PyLib}.
(** The number a [float3] attribute of the host holds for a double. *)
Variable stored : float -> float.
(** [cmds.colorIndex(idx, q=True)]: the palette of the host. *)
Variable colorIndex : Z -> result value.

(** [cmds.setAttr(plug, *rgb)] on a colour attribute: the host wants three
    numbers, and [getAttr] returns them as one triple in a list. *)
Definition setAttr_color (plug : string) (rgb : value) (d : dag) : result dag :=
  args ← py_iter rgb;
  match args with
  | [r; g; b] =>
      match as_float r, as_float g, as_float b with
      | Some r, Some g, Some b =>
          setAttr plug
            (VList [VList [VFloat (stored r); VFloat (stored g);
                           VFloat (stored b)]]) d
      | _, _, _ => Raise TypeError
      end
  | _ => Raise TypeError
  end.

Definition change_color_by_rgb (sel : list string) (rgb : value) (d : dag)
  : result unit * dag :=
  for_each_shape
    (fun s =>
       attempt_all
         [ setAttr (s +:+ ".overrideEnabled") (VInt 1);
           setAttr (s +:+ ".overrideRGBColors") (VInt 1);
           setAttr_color (s +:+ ".overrideColorRGB") rgb ])
    sel d.

Definition white : value := VList [VFloat 1%float; VFloat 1%float; VFloat 1%float].

(** [[float(x) for x in v]].  (No value of the host holds [json]'s NaN;
    one met here is read for the number it is.) *)
Definition floats (v : value) : result value :=
  items ← py_iter v;
  fs ← mapM py_float items;
  Ok (VList (VFloat <$> fs)).

Definition get_current_color_of_shape (shape : string) (d : dag) : result value :=
  enabled ← try_except
               (v ← getAttr (shape +:+ ".overrideEnabled") d; Ok (truthy v))
               (fun _ => Ok false);
  if negb enabled then Ok white
  else
    try_except
      (rgb_mode ← getAttr (shape +:+ ".overrideRGBColors") d;
       if truthy rgb_mode then
         val ← getAttr (shape +:+ ".overrideColorRGB") d;
         match val with
         | VList (first :: _) => floats first
         | _ => Ok white
         end
       else
         idx ← getAttr (shape +:+ ".overrideColor") d ≫= py_int;
         try_except
           (rgb ← colorIndex idx;
            if truthy rgb then floats rgb else Ok white)
           (fun _ => Ok white))
      (fun _ => Ok white).

(** What [change_color_by_rgb] writes on a shape, for three numbers. *)
Definition rgb_writes (r g b : float) (s : string) : list (string * value) :=
  [ (s +:+ ".overrideEnabled", VInt 1);
    (s +:+ ".overrideRGBColors", VInt 1);
    (s +:+ ".overrideColorRGB",
     VList [VList [VFloat (stored r); VFloat (stored g); VFloat (stored b)]]) ].

End Host.


(** *** What the loops write

    The body of either loop is a sequence of [setAttr] in one [try]: the
    plugs it writes, each with its value. *)
Definition writes (ws : list (string * value)) : dag -> dag :=
  attempt_all (List.map (fun pv => setAttr pv.1 pv.2) ws).

(** The writes of the loops over the shapes [shapes], in order. *)
Definition each (ws : string -> list (string * value)) (shapes : list string)
    (d : dag) : dag :=
  fold_left (fun d s => writes (ws s) d) shapes d.

(** The shapes the two loops visit, in order. *)
Definition visited (sel : list string) (d : dag) : list string :=
  concat (List.map (fun ctl => default [] (shapes_of d !! ctl)) sel).

(** What [change_color_by_index] writes on a shape. *)
Definition index_writes (index : Z) (s : string) : list (string * value) :=
  [ (s +:+ ".overrideEnabled", VInt 1);
    (s +:+ ".overrideRGBColors", VInt 0);
    (s +:+ ".overrideColor", VInt index) ].

(** Two states with the same objects, the same plugs and the same locks. *)
Definition same_frame (d d' : dag) : Prop :=
  shapes_of d' = shapes_of d /\ locked d' = locked d
  /\ forall q, settable q d' = settable q d.

(** The last character of a string. *)
Fixpoint last_char (s : string) : option ascii :=
  match s with
  | EmptyString => None
  | String c s' =>
      match last_char s' with
      | Some l => Some l
      | None => Some c
      end
  end.

End Shapes.

(* ===================================================================== *)
(** ** The colour of a ramp: [set_ramp_color] *)
(* ===================================================================== *)

Module Ramp.
Import Py Shapes.

(** *** The colour entries of the ramps of the host

    [colorEntryList] is a multi attribute: its elements sit at indices
    that need not be consecutive, and each has a colour and a position.
    A ramp of the scene is known by its name. *)
Record entry : Type := {
  color : value;      (** what [getAttr] returns: one triple in a list *)
  position : value
}.

Record ramp : Type := {
  ramp_type : value;              (** the attribute [type] *)
  entries : gmap nat entry        (** [colorEntryList], by index *)
}.


(** The element a [setAttr] on a missing index creates: the defaults of
    the attribute. *)
Definition default_entry : entry :=
  {| color := VList [VList [VFloat 0%float; VFloat 0%float; VFloat 0%float]];
     position := VFloat 0%float |}.

Definition with_entries (r : ramp) (es : gmap nat entry) : ramp :=
  {| ramp_type := ramp_type r; entries := es |}.

(** [cmds.setAttr(ramp_name + '.type', v)]. *)
Definition set_type (ramp_name : string) (v : value) (rs : gmap string ramp) : result (gmap string ramp) :=
  match rs !! ramp_name with
  | Some r => Ok (<[ramp_name := {| ramp_type := v; entries := entries r |}]> rs)
  | None => Raise RuntimeError
  end.

(** [cmds.getAttr(ramp_name + ".colorEntryList", size=True)]: the number
    of elements. *)
Definition entry_count (ramp_name : string) (rs : gmap string ramp) : result nat :=
  match rs !! ramp_name with
  | Some r => Ok (size (entries r))
  | None => Raise ValueError
  end.

(** [try: body / except Exception: pass]. *)
Definition attempt (body : gmap string ramp -> result (gmap string ramp)) (rs : gmap string ramp) : gmap string ramp :=
  match body rs with
  | Ok rs' => rs'
  | Raise _ => rs
  end.

(** [try: step; step; ... / except Exception: pass]: what the steps did
    before one raised stays done. *)
Fixpoint attempt_steps (steps : list (gmap string ramp -> result (gmap string ramp))) (rs : gmap string ramp) : gmap string ramp :=
  match steps with
  | [] => rs
  | step :: rest =>
      match step rs with
      | Ok rs' => attempt_steps rest rs'
      | Raise _ => rs
      end
  end.

Section Host.
(** Whether [removeMultiInstance] raises on an element that does not
    exist, or leaves the attribute as it is. *)
Variable strict : bool.
(** The number an element's colour holds for a double. *)
Variable stored : float -> float.

(** [cmds.removeMultiInstance(f"{ramp_name}.colorEntryList[{i}]", b=True)].
    (With [b=True] the connections of the element are broken first; the
    entries of this state have none.) *)
Definition removeMultiInstance (ramp_name : string) (i : nat) (rs : gmap string ramp)
  : result (gmap string ramp) :=
  match rs !! ramp_name with
  | Some r =>
      if bool_decide (is_Some (entries r !! i)) then
        Ok (<[ramp_name := with_entries r (delete i (entries r))]> rs)
      else if strict then Raise RuntimeError
      else Ok rs
  | None => Raise RuntimeError
  end.

(** [cmds.setAttr(f"{ramp_name}.colorEntryList[{i}].color", r, g, b,
    type="double3")]: the element is created when it is missing. *)
Definition set_entry_color (ramp_name : string) (i : nat) (r g b : value)
    (rs : gmap string ramp) : result (gmap string ramp) :=
  match rs !! ramp_name with
  | Some rm =>
      match as_float r, as_float g, as_float b with
      | Some r, Some g, Some b =>
          let e := default default_entry (entries rm !! i) in
          Ok (<[ramp_name :=
                  with_entries rm
                    (<[i := {| color := VList [VList [VFloat (stored r);
                                                      VFloat (stored g);
                                                      VFloat (stored b)]];
                               position := position e |}]> (entries rm))]> rs)
      | _, _, _ => Raise TypeError
      end
  | None => Raise RuntimeError
  end.

(** [cmds.setAttr(f"{ramp_name}.colorEntryList[{i}].position", p)]. *)
Definition set_entry_position (ramp_name : string) (i : nat) (p : value)
    (rs : gmap string ramp) : result (gmap string ramp) :=
  match rs !! ramp_name with
  | Some rm =>
      let e := default default_entry (entries rm !! i) in
      Ok (<[ramp_name :=
              with_entries rm
                (<[i := {| color := color e; position := p |}]> (entries rm))]> rs)
  | None => Raise RuntimeError
  end.

(** The loop [for i in reversed(range(size))] inside its [try]: a removal
    that raises ends it, and what was removed stays removed. *)
Fixpoint remove_each (ramp_name : string) (indices : list nat) (rs : gmap string ramp) : gmap string ramp :=
  match indices with
  | [] => rs
  | i :: rest =>
      match removeMultiInstance ramp_name i rs with
      | Ok rs' => remove_each ramp_name rest rs'
      | Raise _ => rs
      end
  end.

Definition set_ramp_color (ramp_name : string) (rgb : value) (rs : gmap string ramp) : gmap string ramp :=
  let rs := attempt (set_type ramp_name (VInt 0)) rs in
  let rs :=
    match entry_count ramp_name rs with
    | Ok size => remove_each ramp_name (reverse (seq 0 size)) rs
    | Raise _ => rs
    end in
  attempt_steps
    [ (fun rs =>
         r ← py_item rgb 0; g ← py_item rgb 1; b ← py_item rgb 2;
         set_entry_color ramp_name 0 r g b rs);
      set_entry_position ramp_name 0 (VFloat 0%float);
      (fun rs =>
         r ← py_item rgb 0; g ← py_item rgb 1; b ← py_item rgb 2;
         set_entry_color ramp_name 1 r g b rs);
      set_entry_position ramp_name 1 (VFloat 1%float) ]
    rs.

(** The one colour at both ends that [set_ramp_color] aims at. *)
Definition flat (r g b : float) : gmap nat entry :=
  {[ 0%nat := {| color := VList [VList [VFloat (stored r); VFloat (stored g);
                                        VFloat (stored b)]];
                 position := VFloat 0%float |};
     1%nat := {| color := VList [VList [VFloat (stored r); VFloat (stored g);
                                        VFloat (stored b)]];
                 position := VFloat 1%float |} ]}.

End Host.

(** The indices of the entries are [0 .. n-1] for the [n] entries there
    are. *)
Definition dense (es : gmap nat entry) : Prop :=
  forall i, is_Some (es !! i) <-> (i < size es)%nat.

End Ramp.

(* ===================================================================== *)
(** ** Scenes whose connections join plugs that exist *)
(* ===================================================================== *)

Module Wiring.
Import Py Scene.

(** The name has no dot in it, as the name of a node has none. *)
Fixpoint no_dot (s : string) : bool :=
  match s with
  | EmptyString => true
  | String c s' => negb (bool_decide (c = "."%char)) && no_dot s'
  end.

(** Every connection of the scene joins two plugs that exist. *)
Definition wired (sc : scene) : Prop :=
  forall c, c ∈ connections sc ->
    plug_exists sc c.1 = true /\ plug_exists sc c.2 = true.

End Wiring.

(* ===================================================================== *)
(** ** More states and documents for the examples *)
(* ===================================================================== *)

Module Cases.
Import Py Config Panel Samples Session Shapes.

(** The panel of [build_ui], with the first block on a custom red, the
    others on their defaults, and render settings of its own. *)
Definition sample_panel : ui :=
  {| blocks :=
       match block_titles with
       | [] => []
       | (title, _) :: rest =>
           (title, custom_block 1 0 0)
           :: List.map (fun td => (td.1, plain_block td.2)) rest
       end;
     curve_width := 0.5%float;
     sample_rate := 4 |}.

(** A saved document with one block and no render settings. *)
Definition doc_presets : value :=
  VDict [("MAIN CONTROLS 1", VDict [("index", VInt 5)])].

(** A library whose [json] knows the document of [sample_panel], a
    document that is a list, and [doc_presets]. *)
Definition panel_lib : PyLib :=
  table_lib [("text of sample_panel", VDict (save_config_data sample_panel));
             ("text of a list", VList [VInt 1]);
             ("text of doc_presets", doc_presets)].

(** Saved documents whose records are not in normal form: an index that
    is a float, with a name beside it; a negative index other than [-1];
    an rgb of ints with a fourth item. *)
Definition doc_float_index : value :=
  VDict [("A", VDict [("index", VFloat 5.7%float); ("name", VStr "Dark Blue")]);
         ("RenderRigControls", render_1_1)].

Definition doc_negative_index : value :=
  VDict [("A", VDict [("index", VInt (-7))]); ("RenderRigControls", render_1_1)].

Definition doc_int_rgb : value :=
  VDict [("A", VDict [("index", VInt (-1));
                      ("rgb", VList [VInt 1; VInt 0; VInt 0; VInt 9])]);
         ("RenderRigControls", render_1_1)].

(** A saved sample rate that is no int. *)
Definition doc_rate_1_9 : value :=
  VDict [("A", VDict [("index", VInt 5)]);
         ("RenderRigControls",
          VDict [("curveWidth", VFloat 1%float); ("sampleRate", VFloat 1.9%float)])].

(** A saved custom record whose first component is a NaN, as [json]
    reads it. *)
Definition nan_record : value :=
  VDict [("index", VInt (-1));
         ("rgb", VList [VNaN; VFloat 0%float; VFloat 0%float])].

Definition doc_nan : value :=
  VDict [("A", nan_record); ("RenderRigControls", render_1_1)].

(** A library whose [json] knows these documents. *)
Definition odd_lib : PyLib :=
  table_lib [("text of doc_float_index", doc_float_index);
             ("text of doc_negative_index", doc_negative_index);
             ("text of doc_int_rgb", doc_int_rgb);
             ("text of doc_rate_1_9", doc_rate_1_9);
             ("text of doc_nan", doc_nan);
             ("text of doc_A_custom", doc_A_custom);
             ("text of doc_A5", doc_A5);
             ("text of doc_A5_wider", doc_A5_wider)].

(** An object with two shapes; the override of the second is locked. *)
Definition sample_dag : dag :=
  {| shapes_of := {[ "ctl" := ["ctlShape"; "lockedShape"] ]};
     plugs :=
       list_to_map
         [ ("ctlShape.overrideEnabled", VBool false);
           ("ctlShape.overrideRGBColors", VBool false);
           ("ctlShape.overrideColor", VInt 0);
           ("ctlShape.overrideColorRGB",
            VList [VList [VFloat 0%float; VFloat 0%float; VFloat 0%float]]);
           ("lockedShape.overrideEnabled", VBool false);
           ("lockedShape.overrideRGBColors", VBool false);
           ("lockedShape.overrideColor", VInt 0) ];
     locked := {[ "lockedShape.overrideEnabled" ]} |}.

(** A palette that knows index 13, bright red. *)
Definition red_palette (idx : Z) : result value :=
  if idx =? 13 then Ok (VList [VFloat 1%float; VFloat 0%float; VFloat 0%float])
  else Raise RuntimeError.

(** A host whose attributes hold a double as it is. *)
Definition exactly (f : float) : float := f.

(** The scene after a first pair was made for a referenced object with
    the curve shape [ctlShape]. *)
Definition scene_with_first_pair : Scene.scene :=
  Scene.ensure_shading_pair "|grp|ctl" "ctlShape" true
    "1a2b3c4d-0000-4000-8000-000000000000"
    "1a2b3c4d-0000-4000-8000-000000000000" sample_scene.

(** A scene with two curve shapes that have the render engine's shader
    attribute. *)
Definition two_curves : Scene.scene :=
  {| Scene.nodes :=
       {[ "aShape" := {| Scene.node_type := "nurbsCurve";
                         Scene.attributes := ["aiCurveShader"] |};
          "bShape" := {| Scene.node_type := "nurbsCurve";
                         Scene.attributes := ["aiCurveShader"] |} ]};
     Scene.connections := ∅ |}.

(** A scene where a transform bears the name the panel gives the ramp
    of [ctl]. *)
Definition scene_with_namesake : Scene.scene :=
  {| Scene.nodes :=
       {[ "ctlShape" := {| Scene.node_type := "nurbsCurve";
                           Scene.attributes := ["aiCurveShader"] |};
          "ramp_ctl" := {| Scene.node_type := "transform";
                           Scene.attributes := [] |} ]};
     Scene.connections := ∅ |}.

(** A ramp with three entries at the indices [0], [1] and [2]. *)
Definition blue_entry : Ramp.entry :=
  {| Ramp.color := VList [VList [VFloat 0%float; VFloat 0%float; VFloat 1%float]];
     Ramp.position := VFloat 0.5%float |}.

Definition dense_ramp : Ramp.ramp :=
  {| Ramp.ramp_type := VInt 1;
     Ramp.entries :=
       <[0%nat := Ramp.default_entry]>
         (<[1%nat := blue_entry]> (<[2%nat := Ramp.default_entry]> ∅)) |}.

(** A ramp with two entries, at the indices [0] and [5]. *)
Definition sparse_ramp : Ramp.ramp :=
  {| Ramp.ramp_type := VInt 1;
     Ramp.entries := <[0%nat := Ramp.default_entry]> (<[5%nat := blue_entry]> ∅) |}.

End Cases.

(* ===================================================================== *)
(** ** Tactics *)
(* ===================================================================== *)

(** Splits a list of values that a hypothesis forces to be three floats;
    the cases of any other shape are closed by that hypothesis. *)
Ltac float_triple l :=
  destruct l as [|[| | |?| | | |] [|[| | |?| | | |] [|[| | |?| | | |] [|]]]];
  try discriminate.

(** Cases on every comparison of two floats in the goal. *)
Ltac float_cases :=
  repeat match goal with
         | |- context [PrimFloat.eqb ?x ?y] => destruct (PrimFloat.eqb x y)
         end.

(* ===================================================================== *)
(** ** Properties of the config store *)
(* ===================================================================== *)

Module StoreProps.
Import Py Config Samples.

Section WithLib.
Context {lib : PyLib}.

Lemma read_absent fs :
  config_file fs = None -> read_json_config fs = Ok (VDict []).
Proof.
  intros Hnone. unfold read_json_config, os_path_exists.
  now rewrite Hnone.
Qed.

Lemma read_unparsable fs text e :
  config_file fs = Some text -> json_loads text = Raise e ->
  read_json_config fs = Ok (VDict []).
Proof.
  intros Hfile Hload. unfold read_json_config, os_path_exists, open_read.
  rewrite Hfile. destruct (may_read fs); simpl; [|reflexivity].
  unfold mbind, result_bind; simpl. now rewrite Hload.
Qed.

Lemma read_unreadable fs :
  may_read fs = false -> read_json_config fs = Ok (VDict []).
Proof.
  intros Hread. unfold read_json_config, os_path_exists, open_read.
  destruct (config_file fs); [|reflexivity]. now rewrite Hread.
Qed.

Lemma read_parsed fs text doc :
  config_file fs = Some text -> may_read fs = true ->
  json_loads text = Ok doc ->
  read_json_config fs = Ok doc.
Proof.
  intros Hfile Hread Hload. unfold read_json_config, os_path_exists, open_read.
  rewrite Hfile, Hread. unfold mbind, result_bind; simpl. now rewrite Hload.
Qed.

Lemma read_total fs : exists doc, read_json_config fs = Ok doc.
Proof.
  destruct (config_file fs) as [text|] eqn:Hfile.
  - destruct (may_read fs) eqn:Hread.
    + destruct (json_loads text) as [doc|e] eqn:Hload.
      * exists doc. eapply read_parsed; eauto.
      * exists (VDict []). eapply read_unparsable; eauto.
    + exists (VDict []). now apply read_unreadable.
  - exists (VDict []). now apply read_absent.
Qed.

(** Runs [write_json_config] on a world whose way of writing is known. *)
Ltac run_write Hw :=
  unfold write_json_config, io_try, open_write, show;
  unfold mbind, io_bind; rewrite Hw; reflexivity.

(** What a write leaves behind, by the way it went. *)
Lemma write_ok data w :
  writing (files w) = NoFault ->
  write_json_config data w =
    (Ok tt,
     {| files := {| config_file := Some (json_dumps data);
                    may_read := may_read (files w);
                    writing := NoFault |};
        shown := (shown w ++ [InViewMessage "Configuración guardada"])%list |}).
Proof.
  intros Hw. run_write Hw.
Qed.

Lemma write_open_fails data w :
  writing (files w) = OpenFails ->
  write_json_config data w =
    (Ok tt,
     {| files := files w;
        shown := (shown w
                  ++ [Warning "Error guardando configuración: " OSError])%list |}).
Proof.
  intros Hw. run_write Hw.
Qed.

Lemma write_fails_after data w n :
  writing (files w) = FailsAfter n ->
  write_json_config data w =
    (Ok tt,
     {| files := {| config_file := Some (String.substring 0 n (json_dumps data));
                    may_read := may_read (files w);
                    writing := FailsAfter n |};
        shown := (shown w
                  ++ [Warning "Error guardando configuración: " OSError])%list |}).
Proof.
  intros Hw. run_write Hw.
Qed.

(** C7.  [read_json_config] never raises: for every state of the file
    and for every text in it, it returns a document; and that document
    is the empty one, [{}], when the file is absent, when its text does
    not parse as JSON, and when it cannot be opened. *)
Theorem read_json_config_never_raises (fs : filesystem) :
  (exists doc, read_json_config fs = Ok doc)
  /\ (config_file fs = None -> read_json_config fs = Ok (VDict []))
  /\ (forall text e,
         config_file fs = Some text -> json_loads text = Raise e ->
         read_json_config fs = Ok (VDict []))
  /\ (may_read fs = false -> read_json_config fs = Ok (VDict [])).
Proof.
  split; [apply read_total|].
  split; [apply read_absent|].
  split; [apply read_unparsable|apply read_unreadable].
Qed.

(** C4, as amended.  When saving fails, the failure is shown to the user
    as a warning and does not leave [write_json_config]; the file is
    untouched when it could not be opened for writing, and after a
    failure past the opening it holds what was written of the new text
    until then, its old text gone. *)
Theorem write_failure_reported (data : value) (w : world) :
  writing (files w) <> NoFault ->
  fst (write_json_config data w) = Ok tt
  /\ shown (snd (write_json_config data w))
     = (shown w ++ [Warning "Error guardando configuración: " OSError])%list
  /\ (writing (files w) = OpenFails ->
      files (snd (write_json_config data w)) = files w)
  /\ (forall n, writing (files w) = FailsAfter n ->
      config_file (files (snd (write_json_config data w)))
      = Some (String.substring 0 n (json_dumps data))).
Proof.
  intros Hfault. destruct (writing (files w)) as [| |n] eqn:Hw.
  - congruence.
  - rewrite write_open_fails by assumption. simpl.
    split; [reflexivity|]. split; [reflexivity|].
    split; [reflexivity|]. intros n Hn. discriminate Hn.
  - rewrite (write_fails_after _ _ n) by assumption. simpl.
    split; [reflexivity|]. split; [reflexivity|].
    split; [intros Hn; discriminate Hn|].
    intros m Hm. now inversion Hm.
Qed.


End WithLib.

(** C4 as stated does not hold: the device fails while the new text is
    being written, and the file holds the first characters of the new
    text, the text it held being gone; loading then returns the empty
    document where it returned the saved one before. *)
Lemma write_failure_truncates :
  let w' := snd (write_json_config (lib := sample_lib) doc_A_custom failing_world) in
  config_file (files failing_world) = Some "text of doc_A5"
  /\ config_file (files w') = Some "text of "
  /\ files w' <> files failing_world
  /\ read_json_config (lib := sample_lib) (files failing_world) = Ok doc_A5
  /\ read_json_config (lib := sample_lib) (files w') = Ok (VDict []).
Proof.
  vm_compute. repeat split; try reflexivity. intros Heq. discriminate Heq.
Qed.

Lemma read_json_config_never_raises_witness :
  read_json_config (lib := sample_lib) no_file = Ok (VDict [])
  /\ read_json_config (lib := sample_lib) (file_with "not JSON") = Ok (VDict []).
Proof.
  destruct (read_json_config_never_raises (lib := sample_lib) no_file)
    as (_ & Habsent & _).
  destruct (read_json_config_never_raises (lib := sample_lib)
              (file_with "not JSON")) as (_ & _ & Hbad & _).
  split.
  - apply Habsent. reflexivity.
  - apply (Hbad "not JSON" ValueError); reflexivity.
Defined.

Lemma write_failure_reported_witness :
  writing (files failing_world) <> NoFault
  /\ fst (write_json_config (lib := sample_lib) doc_A_custom failing_world) = Ok tt.
Proof.
  assert (Hfault : writing (files failing_world) <> NoFault) by (simpl; discriminate).
  split; [exact Hfault|].
  exact (proj1 (write_failure_reported (lib := sample_lib) doc_A_custom failing_world Hfault)).
Defined.


End StoreProps.

(* ===================================================================== *)
(** ** Properties of [save_config] and [has_unsaved_changes] *)
(* ===================================================================== *)

Module DiffProps.
Import Py Config Panel Samples StoreProps.

(** *** Dicts *)

Lemma dict_get_fresh (d : dict) k : k ∉ d.*1 -> dict_get d k = None.
Proof.
  induction d as [|[k' v'] d IH]; simpl; intros Hk; [reflexivity|].
  rewrite not_elem_of_cons in Hk. destruct Hk as [Hne Hk].
  rewrite bool_decide_eq_false_2 by congruence. now apply IH.
Qed.

Lemma dict_set_fresh (d : dict) k v :
  k ∉ d.*1 -> dict_set d k v = d ++ [(k, v)].
Proof.
  induction d as [|[k' v'] d IH]; simpl; intros Hk; [reflexivity|].
  rewrite not_elem_of_cons in Hk. destruct Hk as [Hne Hk].
  rewrite bool_decide_eq_false_2 by congruence. now rewrite IH.
Qed.

Lemma dict_get_last (d : dict) k v :
  k ∉ d.*1 -> dict_get (d ++ [(k, v)]) k = Some v.
Proof.
  induction d as [|[k' v'] d IH]; simpl; intros Hk.
  - now rewrite bool_decide_eq_true_2.
  - rewrite not_elem_of_cons in Hk. destruct Hk as [Hne Hk].
    rewrite bool_decide_eq_false_2 by congruence. now apply IH.
Qed.

Lemma dict_get_some_nonempty (d : dict) k v : dict_get d k = Some v -> d <> [].
Proof. destruct d; [discriminate|congruence]. Qed.

(** *** The titles of the panel *)

(** The titles [build_ui] gives the blocks are distinct, and none is the
    reserved key. *)
Lemma block_titles_distinct :
  NoDup block_titles.*1 /\ RenderRigControls ∉ block_titles.*1.
Proof.
  split.
  - apply (bool_decide_eq_true_1 (NoDup block_titles.*1)).
    vm_compute. reflexivity.
  - apply (bool_decide_eq_true_1 (RenderRigControls ∉ block_titles.*1)).
    vm_compute. reflexivity.
Qed.

(** *** The dict [current] *)

Lemma current_entries_keys bs : (Spec.current_entries bs).*1 = bs.*1.
Proof.
  unfold Spec.current_entries. induction bs as [|[k b] bs IH]; simpl; [reflexivity|].
  now f_equal.
Qed.

Section WithLib.
Context {lib : PyLib}.

Lemma fold_current_entries bs : forall acc : dict,
  NoDup (acc.*1 ++ bs.*1) ->
  fold_left
    (fun current '(title, info) =>
       if 0 <=? slider info then
         dict_set current title (VDict [("index", VInt (slider info))])
       else
         dict_set current title (VDict [("index", VInt (-1)); ("rgb", rgb info)]))
    bs acc
  = acc ++ Spec.current_entries bs.
Proof.
  induction bs as [|[k b] bs IH]; intros acc Hnd; simpl.
  - now rewrite app_nil_r.
  - simpl in Hnd. apply NoDup_app in Hnd as (Hacc & Hdisj & Hbs).
    apply NoDup_cons in Hbs as [Hk Hbs].
    assert (Hfresh : k ∉ acc.*1).
    { intros Hin. apply (Hdisj k Hin). left. }
    assert (Hstep :
      (if 0 <=? slider b
       then dict_set acc k (VDict [("index", VInt (slider b))])
       else dict_set acc k (VDict [("index", VInt (-1)); ("rgb", rgb b)]))
      = acc ++ [(k, Spec.current_value b)]).
    { unfold Spec.current_value.
      destruct (0 <=? slider b); now rewrite dict_set_fresh. }
    rewrite Hstep, IH.
    + now rewrite <- app_assoc.
    + rewrite fmap_app. simpl. rewrite <- app_assoc. simpl.
      apply NoDup_app. split; [assumption|]. split.
      * intros x Hx Hx'. apply elem_of_cons in Hx' as [->|Hx']; [tauto|].
        apply (Hdisj x Hx). now right.
      * now apply NoDup_cons.
Qed.

Lemma current_state_entries (u : ui) :
  NoDup (blocks u).*1 -> RenderRigControls ∉ (blocks u).*1 ->
  current_state u
  = Spec.current_entries (blocks u)
    ++ [(RenderRigControls,
         VDict [("curveWidth", VFloat (curve_width u));
                ("sampleRate", VInt (sample_rate u))])].
Proof.
  intros Hnd Hrrc. unfold current_state. cbv zeta.
  rewrite (fold_current_entries (blocks u) []) by exact Hnd. simpl.
  apply dict_set_fresh. now rewrite current_entries_keys.
Qed.

(** *** One turn of the loop on data of the documented form *)

Lemma normalize_readable v c :
  Spec.read_record v = Some c ->
  normalize_saved_block v
  = Ok (match Spec.rgb c with
        | Some (r, g, b) =>
            VDict [("index", VInt (Spec.index c));
                   ("rgb", VList [VFloat r; VFloat g; VFloat b])]
        | None => VDict [("index", VInt (Spec.index c))]
        end).
Proof.
  unfold Spec.read_record. intros Hread.
  destruct v as [| | | | | |d|]; try discriminate.
  destruct (dict_get d "index") as [[| |i| | | | |]|] eqn:Hidx; try discriminate.
  unfold normalize_saved_block.
  assert (Htruthy : truthy (VDict d) = true).
  { destruct d; [discriminate|reflexivity]. }
  rewrite Htruthy. simpl. rewrite Hidx. simpl.
  destruct (0 <=? i) eqn:Hge.
  - inversion Hread; subst; reflexivity.
  - destruct (i =? -1) eqn:Hcustom; [|discriminate].
    apply Z.eqb_eq in Hcustom. subst i.
    destruct (dict_get d "rgb") as [rgb|] eqn:Hrgb.
    + destruct rgb as [| | | | |l| |]; try discriminate.
      * inversion Hread; subst; reflexivity.
      * float_triple l.
        inversion Hread; subst. reflexivity.
    + inversion Hread; subst; reflexivity.
Qed.

Local Opaque Z.eqb.

Lemma compare_block_spec (saved : dict) k b cur continue :
  k <> RenderRigControls ->
  Spec.read_block b = Some cur ->
  match dict_get saved k with
  | None => true
  | Some v => Spec.is_some (Spec.read_record v)
  end = true ->
  compare_block (VDict saved) k (Spec.current_value b) continue
  = if Spec.block_changed (Spec.saved_record saved k) cur then Ok true
    else continue.
Proof.
  intros Hk Hcur Hsaved. unfold compare_block, Spec.saved_record.
  rewrite bool_decide_eq_false_2 by exact Hk. simpl.
  destruct (dict_get saved k) as [v|] eqn:Hget; simpl; [|reflexivity].
  destruct (Spec.read_record v) as [c|] eqn:Hread; [|discriminate].
  rewrite (normalize_readable v c Hread). simpl.
  unfold Spec.read_block in Hcur. unfold Spec.current_value, Spec.block_changed.
  destruct (0 <=? slider b) eqn:Hs.
  - inversion Hcur; subst cur; simpl.
    destruct (Spec.rgb c) as [[[r g] bl]|]; simpl; unfold py_ne; simpl;
      destruct (slider b =? Spec.index c), (slider b =? -1); reflexivity.
  - destruct (rgb b) as [| | | | |l| |] eqn:Hrgb; try discriminate.
    + inversion Hcur; subst cur; simpl.
      destruct (Spec.rgb c) as [[[r g] bl]|]; simpl; unfold py_ne; simpl;
        destruct (-1 =? Spec.index c); reflexivity.
    + float_triple l.
      inversion Hcur; subst cur; simpl.
      destruct (Spec.rgb c) as [[[r g] bl]|]; simpl; unfold py_ne; simpl;
        destruct (-1 =? Spec.index c); try reflexivity.
      float_cases; reflexivity.
Qed.

Local Transparent Z.eqb.

Lemma compare_blocks_spec (saved : dict) rig (bs : list (string * block)) :
  RenderRigControls ∉ bs.*1 ->
  forallb
    (fun kb =>
       Spec.is_some (Spec.read_block (snd kb))
       && match dict_get saved (fst kb) with
          | None => true
          | Some v => Spec.is_some (Spec.read_record v)
          end) bs = true ->
  compare_blocks (VDict saved) (Spec.current_entries bs ++ [(RenderRigControls, rig)])
  = Ok (existsb
          (fun kb =>
             match Spec.read_block (snd kb) with
             | Some cur => Spec.block_changed (Spec.saved_record saved (fst kb)) cur
             | None => true
             end) bs).
Proof.
  induction bs as [|[k b] bs IH]; simpl; intros Hrrc Hwf.
  - unfold compare_block. now rewrite bool_decide_eq_true_2.
  - rewrite not_elem_of_cons in Hrrc. destruct Hrrc as [Hk Hrrc].
    apply andb_prop in Hwf as [Hkb Hwf]. apply andb_prop in Hkb as [Hb Hsaved].
    destruct (Spec.read_block b) as [cur|] eqn:Hcur; [|discriminate].
    rewrite (compare_block_spec saved k b cur) by (congruence || assumption).
    rewrite IH by assumption.
    now destruct (Spec.block_changed (Spec.saved_record saved k) cur).
Qed.

Lemma saved_render_lookup (saved : dict) rs :
  Spec.read_render saved = Some rs ->
  exists rig,
    default (VDict []) (dict_get saved RenderRigControls) = VDict rig
    /\ default (VFloat 0%float) (dict_get rig "curveWidth")
       = VFloat (Spec.curveWidth rs)
    /\ default (VInt 1) (dict_get rig "sampleRate") = VInt (Spec.sampleRate rs).
Proof.
  unfold Spec.read_render, RenderRigControls. intros Hrs.
  destruct (dict_get saved "RenderRigControls") as [[| | | | | |rig|]|];
    try discriminate.
  - exists rig. split; [reflexivity|].
    destruct (dict_get rig "curveWidth") as [[| | |c| | | |]|];
      destruct (dict_get rig "sampleRate") as [[| |n| | | | |]|];
      try discriminate; inversion Hrs; subst; simpl; auto.
  - exists []. inversion Hrs; subst; simpl; auto.
Qed.

Lemma has_unsaved_changes_spec fs (saved : dict) rs (u : ui) :
  read_json_config fs = Ok (VDict saved) ->
  saved <> [] ->
  Spec.read_render saved = Some rs ->
  Spec.well_formed saved u = true ->
  has_unsaved_changes fs u = Ok (Spec.changed saved rs u).
Proof.
  intros Hfile Hne Hrs Hwf. unfold Spec.well_formed in Hwf.
  apply andb_prop in Hwf as [Htitles Hblocks].
  apply andb_prop in Htitles as [Hnd Hrrc].
  apply bool_decide_eq_true in Hnd. apply bool_decide_eq_true in Hrrc.
  destruct (saved_render_lookup saved rs Hrs) as (rig & Hrig & Hcw & Hsr).
  unfold has_unsaved_changes. rewrite Hfile. simpl.
  assert (Htruthy : match saved with [] => false | _ :: _ => true end = true)
    by (destruct saved; congruence).
  rewrite Htruthy. simpl.
  rewrite Hrig. simpl. rewrite Hcw. simpl.
  rewrite (current_state_entries u Hnd Hrrc).
  rewrite dict_get_last by (now rewrite current_entries_keys). simpl.
  rewrite Hsr. simpl.
  rewrite compare_blocks_spec by assumption.
  unfold Spec.changed, Spec.render_changed, py_ne. simpl.
  destruct (PrimFloat.eqb (Spec.curveWidth rs) (curve_width u)); simpl;
    [|reflexivity].
  destruct (Spec.sampleRate rs =? sample_rate u); reflexivity.
Qed.

(** *** The verdict *)

Lemma has_unsaved_changes_empty fs (u : ui) saved_config :
  read_json_config fs = Ok saved_config -> truthy saved_config = false ->
  has_unsaved_changes fs u = Ok true.
Proof.
  intros Hread Hfalsy. unfold has_unsaved_changes. rewrite Hread. simpl.
  now rewrite Hfalsy.
Qed.

(** C2.  [has_unsaved_changes] returns true whenever the persisted
    document is missing or empty, whatever the panel shows: the file is
    absent, or its text does not parse, or it holds the empty document.
    No hypothesis bears on the blocks or the render fields. *)
Theorem unsaved_when_document_empty fs (u : ui) :
  config_file fs = None
  \/ (exists text e, config_file fs = Some text /\ json_loads text = Raise e)
  \/ read_json_config fs = Ok (VDict []) ->
  has_unsaved_changes fs u = Ok true.
Proof.
  intros [Habsent|[(text & e & Hfile & Hload)|Hempty]];
    apply (has_unsaved_changes_empty fs u (VDict [])); try reflexivity.
  - now apply read_absent.
  - eapply read_unparsable; eauto.
  - exact Hempty.
Qed.

(** The loop does not see a block whose turn ends in [continue]. *)
Lemma compare_blocks_skip saved_config k v (l1 l2 : dict) :
  (forall continue, compare_block saved_config k v continue = continue) ->
  compare_blocks saved_config (l1 ++ (k, v) :: l2)
  = compare_blocks saved_config (l1 ++ l2).
Proof.
  intros Hskip. induction l1 as [|[k1 v1] l1 IH]; simpl.
  - apply Hskip.
  - now rewrite IH.
Qed.

Lemma compare_block_bare (saved d : dict) k b continue :
  k <> RenderRigControls ->
  dict_get saved k = Some (VDict d) ->
  dict_get d "index" = Some (VInt (-1)) ->
  default VNone (dict_get d "rgb") = VNone ->
  slider b = -1 -> rgb b = VNone ->
  compare_block (VDict saved) k (Spec.current_value b) continue = continue.
Proof.
  intros Hk Hget Hidx Hrgb Hs Hb.
  unfold compare_block, Spec.current_value.
  rewrite bool_decide_eq_false_2 by exact Hk. simpl. rewrite Hget. simpl.
  unfold normalize_saved_block.
  assert (Htruthy : truthy (VDict d) = true).
  { destruct d; [discriminate|reflexivity]. }
  rewrite Htruthy. simpl. rewrite Hidx. simpl. rewrite Hrgb. simpl.
  rewrite Hs, Hb. reflexivity.
Qed.


Lemma has_unsaved_changes_ext fs (u1 u2 : ui) :
  dict_get (current_state u1) RenderRigControls
  = dict_get (current_state u2) RenderRigControls ->
  (forall saved_config,
      read_json_config fs = Ok saved_config ->
      compare_blocks saved_config (current_state u1)
      = compare_blocks saved_config (current_state u2)) ->
  has_unsaved_changes fs u1 = has_unsaved_changes fs u2.
Proof.
  intros Hrig Hloop. unfold has_unsaved_changes.
  destruct (read_json_config fs) as [saved_config|e]; [|reflexivity].
  specialize (Hloop saved_config eq_refl). simpl.
  destruct (negb (truthy saved_config)); [reflexivity|].
  destruct (py_get saved_config RenderRigControls (VDict [])) as [saved_rig|e];
    [|reflexivity].
  simpl.
  destruct (py_get saved_rig "curveWidth" (VFloat 0) ≫= py_float) as [saved_cw|e];
    [|reflexivity].
  simpl. rewrite Hrig.
  destruct (dict_get (current_state u2) RenderRigControls) as [rig|]; [|reflexivity].
  simpl.
  destruct (py_key rig "curveWidth") as [cur_cw|e]; [|reflexivity].
  simpl. destruct (py_ne (VFloat saved_cw) cur_cw); [reflexivity|].
  destruct (py_get saved_rig "sampleRate" (VInt 1) ≫= py_int) as [saved_sr|e];
    [|reflexivity].
  simpl.
  destruct (py_key rig "sampleRate") as [cur_sr|e]; [|reflexivity].
  simpl. destruct (py_ne (VInt saved_sr) cur_sr); [reflexivity|].
  exact Hloop.
Qed.

(** C10.  A block whose slider is at [-1] with no rgb stored, saved as
    [{"index": -1}] with no rgb either, is passed over by the diff: the
    verdict is the one the panel would get without that block.  So when
    the other blocks and the render settings match, the verdict is
    false. *)
Theorem custom_without_rgb_is_unchanged fs (saved d : dict)
    (pre post : list (string * block)) k b cw sr :
  read_json_config fs = Ok (VDict saved) ->
  dict_get saved k = Some (VDict d) ->
  dict_get d "index" = Some (VInt (-1)) ->
  default VNone (dict_get d "rgb") = VNone ->
  slider b = -1 -> rgb b = VNone ->
  NoDup (pre ++ (k, b) :: post).*1 ->
  RenderRigControls ∉ (pre ++ (k, b) :: post).*1 ->
  has_unsaved_changes fs
    {| blocks := pre ++ (k, b) :: post; curve_width := cw; sample_rate := sr |}
  = has_unsaved_changes fs
      {| blocks := pre ++ post; curve_width := cw; sample_rate := sr |}
  /\ (has_unsaved_changes fs
        {| blocks := pre ++ post; curve_width := cw; sample_rate := sr |}
      = Ok false ->
      has_unsaved_changes fs
        {| blocks := pre ++ (k, b) :: post; curve_width := cw; sample_rate := sr |}
      = Ok false).
Proof.
  intros Hfile Hget Hidx Hrgb Hs Hb Hnd Hrrc.
  assert (Hnd' : NoDup (pre ++ post).*1).
  { rewrite fmap_app in *. simpl in Hnd.
    apply NoDup_app in Hnd as (Hpre & Hdisj & Hpost).
    apply NoDup_cons in Hpost as [_ Hpost].
    apply NoDup_app. split; [assumption|]. split; [|assumption].
    intros x Hx Hx'. apply (Hdisj x Hx). now right. }
  assert (Hk : k <> RenderRigControls).
  { intros ->. apply Hrrc. rewrite fmap_app. simpl.
    apply elem_of_app. right. left. }
  assert (Hrrc' : RenderRigControls ∉ (pre ++ post).*1).
  { intros Hin. apply Hrrc. rewrite fmap_app in *. simpl.
    apply elem_of_app in Hin as [Hin|Hin]; apply elem_of_app;
      [now left|right; now right]. }
  assert (Heq :
    has_unsaved_changes fs
      {| blocks := pre ++ (k, b) :: post; curve_width := cw; sample_rate := sr |}
    = has_unsaved_changes fs
        {| blocks := pre ++ post; curve_width := cw; sample_rate := sr |}).
  { apply has_unsaved_changes_ext.
    - rewrite !current_state_entries by assumption. simpl.
      rewrite !dict_get_last by (now rewrite current_entries_keys).
      reflexivity.
    - intros saved_config Hread. rewrite Hfile in Hread.
      injection Hread as <-.
      rewrite !current_state_entries by assumption. simpl.
      unfold Spec.current_entries. rewrite !map_app. simpl.
      rewrite <- !app_assoc. simpl.
      apply compare_blocks_skip. intros continue.
      now apply (compare_block_bare saved d). }
  split; [exact Heq|]. intros Hothers. now rewrite Heq.
Qed.

End WithLib.

Lemma unsaved_when_document_empty_witness :
  has_unsaved_changes (lib := sample_lib) no_file (ui_with (plain_block 5)) = Ok true
  /\ has_unsaved_changes (lib := sample_lib) (file_with "not JSON")
       (ui_with (custom_block 0.1 0.2 0.3)) = Ok true
  /\ has_unsaved_changes (lib := sample_lib) (file_with "{}")
       (ui_with (plain_block 5)) = Ok true.
Proof.
  split; [|split].
  - apply (unsaved_when_document_empty (lib := sample_lib)). left. reflexivity.
  - apply (unsaved_when_document_empty (lib := sample_lib)). right. left.
    exists "not JSON", ValueError. split; reflexivity.
  - apply (unsaved_when_document_empty (lib := sample_lib)). right. right.
    reflexivity.
Defined.

Lemma custom_without_rgb_is_unchanged_witness :
  has_unsaved_changes (lib := sample_lib)
    (file_with "text of doc_A_bare") (ui_with bare_custom_block) = Ok false.
Proof.
  apply (custom_without_rgb_is_unchanged (lib := sample_lib)
           (file_with "text of doc_A_bare")
           [("A", VDict [("index", VInt (-1))]); ("RenderRigControls", render_1_1)]
           [("index", VInt (-1))] [] [] "A" bare_custom_block 1%float 1);
    try reflexivity.
  - simpl. apply NoDup_singleton.
  - simpl. intros Hin. apply list_elem_of_singleton in Hin. discriminate Hin.
Defined.

End DiffProps.

(* ===================================================================== *)
(** ** What [save_config] writes *)
(* ===================================================================== *)

Module SaveProps.
Import Py Config Panel Samples StoreProps DiffProps.

Lemma dict_get_set (d : dict) k v k' :
  dict_get (dict_set d k v) k'
  = if bool_decide (k = k') then Some v else dict_get d k'.
Proof.
  induction d as [|[k0 v0] d IH]; simpl.
  - reflexivity.
  - destruct (bool_decide (k0 = k)) eqn:Hk0; simpl.
    + apply bool_decide_eq_true in Hk0. subst k0.
      now destruct (bool_decide (k = k')).
    + apply bool_decide_eq_false in Hk0.
      destruct (bool_decide (k0 = k')) eqn:Hk0'.
      * apply bool_decide_eq_true in Hk0'. subst k0.
        now rewrite bool_decide_eq_false_2 by congruence.
      * exact IH.
Qed.

Lemma find_app_or {A} (f : A -> bool) (l1 l2 : list A) :
  List.find f (l1 ++ l2)
  = match List.find f l1 with
    | Some x => Some x
    | None => List.find f l2
    end.
Proof.
  induction l1 as [|x l1 IH]; simpl; [reflexivity|].
  now destruct (f x).
Qed.

Lemma fold_saved_values bs : forall (acc : dict) k,
  dict_get
    (fold_left
       (fun data '(title, info) =>
          if 0 <=? slider info then
            dict_set data title
              (VDict [("index", VInt (slider info));
                      ("name", VStr (color_name (slider info)))])
          else
            dict_set data title (VDict [("index", VInt (-1)); ("rgb", rgb info)]))
       bs acc) k
  = match List.find (fun kb => bool_decide (fst kb = k)) (rev bs) with
    | Some kb => Some (Spec.saved_value (snd kb))
    | None => dict_get acc k
    end.
Proof.
  induction bs as [|[k0 b0] bs IH]; intros acc k; simpl; [reflexivity|].
  rewrite IH. rewrite find_app_or.
  destruct (List.find (fun kb => bool_decide (fst kb = k)) (rev bs)); [reflexivity|].
  simpl. unfold Spec.saved_value.
  destruct (0 <=? slider b0) eqn:Hs; rewrite dict_get_set;
    destruct (bool_decide (k0 = k)); simpl; rewrite ?Hs; reflexivity.
Qed.

(** C6, as amended.  What [save_config] hands to [write_json_config], and
    what a save without I/O failure leaves in the file, holds: under
    [RenderRigControls] exactly [{"curveWidth": float, "sampleRate": int}]
    with the values of the two fields, which is the documented shape;
    under every other key the value of a block of that title, which is
    [{"index": i, "name": n}] with [i] the slider's position and [n] the
    name of that palette index when [i] is not negative, and
    [{"index": -1, "rgb": r}] with [r] the rgb stored in the block
    otherwise, which is the documented shape when [r] is a triple of
    floats; and every title has an entry. *)
Theorem save_config_shapes (u : ui) :
  dict_get (save_config_data u) RenderRigControls
  = Some (VDict [("curveWidth", VFloat (curve_width u));
                 ("sampleRate", VInt (sample_rate u))])
  /\ (forall k v,
        k <> RenderRigControls ->
        dict_get (save_config_data u) k = Some v ->
        exists b,
          (k, b) ∈ blocks u
          /\ (0 <= slider b
              /\ v = VDict [("index", VInt (slider b));
                            ("name", VStr (color_name (slider b)))]
              \/ slider b < 0
                 /\ v = VDict [("index", VInt (-1)); ("rgb", rgb b)]))
  /\ (forall k b,
        (k, b) ∈ blocks u -> is_Some (dict_get (save_config_data u) k))
  /\ (forall (lib : PyLib) w,
        writing (files w) = NoFault ->
        config_file (files (snd (save_config u w)))
        = Some (json_dumps (VDict (save_config_data u))))
  /\ Spec.documented_render
       (VDict [("curveWidth", VFloat (curve_width u));
               ("sampleRate", VInt (sample_rate u))]) = true
  /\ (forall (b : block) r g bl,
        rgb b = VList [VFloat r; VFloat g; VFloat bl] ->
        Spec.documented_block (VDict [("index", VInt (-1)); ("rgb", rgb b)])
        = true).
Proof.
  unfold save_config_data. cbv zeta.
  split; [|split; [|split; [|split; [|split]]]];
    [| | | |reflexivity|intros b r g bl ->; reflexivity].
  - rewrite dict_get_set. now rewrite bool_decide_eq_true_2.
  - intros k v Hk Hget. rewrite dict_get_set in Hget.
    rewrite bool_decide_eq_false_2 in Hget by congruence.
    rewrite fold_saved_values in Hget.
    destruct (List.find (fun kb => bool_decide (fst kb = k)) (rev (blocks u)))
      as [[k0 b]|] eqn:Hfind; [|discriminate].
    apply find_some in Hfind as [Hin Hk0]. simpl in Hk0.
    apply bool_decide_eq_true in Hk0. subst k0.
    exists b. split.
    + apply list_elem_of_In. now apply in_rev.
    + injection Hget as <-. unfold Spec.saved_value. simpl.
      destruct (0 <=? slider b) eqn:Hs.
      * left. split; [now apply Z.leb_le|reflexivity].
      * right. split; [now apply Z.leb_gt|reflexivity].
  - intros k b Hin. rewrite dict_get_set.
    destruct (bool_decide (RenderRigControls = k)); [eauto|].
    rewrite fold_saved_values.
    destruct (List.find (fun kb => bool_decide (fst kb = k)) (rev (blocks u)))
      as [kb|] eqn:Hfind; [eauto|].
    exfalso. apply list_elem_of_In, in_rev in Hin.
    apply (find_none _ _ Hfind) in Hin. simpl in Hin.
    now rewrite bool_decide_eq_true_2 in Hin.
  - intros lib w Hw. unfold save_config.
    now rewrite write_ok by assumption.
Qed.

Lemma save_config_shapes_witness :
  dict_get (save_config_data (ui_with (custom_block 0.1 0.2 0.3))) "A"
  = Some (VDict [("index", VInt (-1));
                 ("rgb", VList [VFloat 0.1; VFloat 0.2; VFloat 0.3])])
  /\ config_file
       (files (snd (save_config (lib := sample_lib)
                      (ui_with (custom_block 0.1 0.2 0.3)) fresh_world)))
     = Some (json_dumps (PyLib := sample_lib)
               (VDict (save_config_data (ui_with (custom_block 0.1 0.2 0.3))))).
Proof.
  split; [reflexivity|].
  destruct (save_config_shapes (ui_with (custom_block 0.1 0.2 0.3)))
    as (_ & _ & _ & Hfile & _).
  apply (Hfile sample_lib fresh_world). reflexivity.
Defined.

(** C6 as stated does not hold: a block at palette index 5 is saved with
    its ["name"] beside its ["index"], which is not the shape
    [{"index": int}]. *)
Lemma saved_palette_block_has_name :
  dict_get (save_config_data (ui_with (plain_block 5))) "A"
  = Some (VDict [("index", VInt 5); ("name", VStr "Dark Blue")])
  /\ Spec.documented_block (VDict [("index", VInt 5); ("name", VStr "Dark Blue")])
     = false.
Proof. split; reflexivity. Qed.

(** *** Saving, then comparing *)

Lemma saved_entries_keys bs : (Spec.saved_entries bs).*1 = bs.*1.
Proof.
  unfold Spec.saved_entries. induction bs as [|[k b] bs IH]; simpl; [reflexivity|].
  now f_equal.
Qed.

Lemma fold_saved_entries bs : forall acc : dict,
  NoDup (acc.*1 ++ bs.*1) ->
  fold_left
    (fun data '(title, info) =>
       if 0 <=? slider info then
         dict_set data title
           (VDict [("index", VInt (slider info));
                   ("name", VStr (color_name (slider info)))])
       else
         dict_set data title (VDict [("index", VInt (-1)); ("rgb", rgb info)]))
    bs acc
  = acc ++ Spec.saved_entries bs.
Proof.
  induction bs as [|[k b] bs IH]; intros acc Hnd; simpl.
  - now rewrite app_nil_r.
  - simpl in Hnd. apply NoDup_app in Hnd as (Hacc & Hdisj & Hbs).
    apply NoDup_cons in Hbs as [Hk Hbs].
    assert (Hfresh : k ∉ acc.*1).
    { intros Hin. apply (Hdisj k Hin). left. }
    assert (Hstep :
      (if 0 <=? slider b
       then dict_set acc k
              (VDict [("index", VInt (slider b));
                      ("name", VStr (color_name (slider b)))])
       else dict_set acc k (VDict [("index", VInt (-1)); ("rgb", rgb b)]))
      = acc ++ [(k, Spec.saved_value b)]).
    { unfold Spec.saved_value.
      destruct (0 <=? slider b); now rewrite dict_set_fresh. }
    rewrite Hstep, IH.
    + now rewrite <- app_assoc.
    + rewrite fmap_app. simpl. rewrite <- app_assoc. simpl.
      apply NoDup_app. split; [assumption|]. split.
      * intros x Hx Hx'. apply elem_of_cons in Hx' as [->|Hx']; [tauto|].
        apply (Hdisj x Hx). now right.
      * now apply NoDup_cons.
Qed.

Lemma save_config_data_entries (u : ui) :
  NoDup (blocks u).*1 -> RenderRigControls ∉ (blocks u).*1 ->
  save_config_data u
  = Spec.saved_entries (blocks u)
    ++ [(RenderRigControls,
         VDict [("curveWidth", VFloat (curve_width u));
                ("sampleRate", VInt (sample_rate u))])].
Proof.
  intros Hnd Hrrc. unfold save_config_data. cbv zeta.
  rewrite (fold_saved_entries (blocks u) []) by exact Hnd. simpl.
  apply dict_set_fresh. now rewrite saved_entries_keys.
Qed.

Lemma dict_get_entry (bs : list (string * block)) (tail : dict) k b :
  NoDup bs.*1 -> (k, b) ∈ bs ->
  dict_get (Spec.saved_entries bs ++ tail) k = Some (Spec.saved_value b).
Proof.
  induction bs as [|[k0 b0] bs IH]; simpl; intros Hnd Hin.
  - now apply elem_of_nil in Hin.
  - apply NoDup_cons in Hnd as [Hk0 Hnd].
    apply elem_of_cons in Hin as [Heq|Hin].
    + injection Heq as -> ->. now rewrite bool_decide_eq_true_2.
    + rewrite bool_decide_eq_false_2.
      * now apply IH.
      * intros ->. apply Hk0. apply list_elem_of_fmap. exists (k, b). auto.
Qed.

Lemma read_saved_value b cur :
  Spec.read_block b = Some cur ->
  Spec.read_record (Spec.saved_value b) = Some cur.
Proof.
  unfold Spec.read_block, Spec.saved_value, Spec.read_record.
  destruct (0 <=? slider b) eqn:Hs; simpl.
  - rewrite Hs. auto.
  - destruct (rgb b) as [| | | | |l| |]; try discriminate; auto.
Qed.

(** X1.  Right after a save that met no I/O failure, [has_unsaved_changes]
    returns false: the panel is of the documented form and holds no NaN,
    and [json] reads back the text it printed for the saved document. *)
Theorem no_unsaved_changes_after_save {lib : PyLib} (u : ui) (w : world) :
  writing (files w) = NoFault ->
  may_read (files w) = true ->
  json_loads (json_dumps (VDict (save_config_data u)))
  = Ok (VDict (save_config_data u)) ->
  Spec.savable u = true ->
  has_unsaved_changes (files (snd (save_config u w))) u = Ok false.
Proof.
  intros Hw Hread Hcodec Hu. unfold Spec.savable in Hu.
  apply andb_prop in Hu as [Hu Hblocks]. apply andb_prop in Hu as [Hu Hcw].
  apply andb_prop in Hu as [Hnd Hrrc].
  apply bool_decide_eq_true in Hnd. apply bool_decide_eq_true in Hrrc.
  assert (Hfile :
    read_json_config (files (snd (save_config u w)))
    = Ok (VDict (save_config_data u))).
  { unfold save_config. rewrite write_ok by assumption. simpl.
    eapply read_parsed; simpl; eauto. }
  pose proof (save_config_data_entries u Hnd Hrrc) as Hdata.
  assert (Hne : save_config_data u <> []).
  { rewrite Hdata. destruct (Spec.saved_entries (blocks u)); discriminate. }
  assert (Hrs : Spec.read_render (save_config_data u)
                = Some {| Spec.curveWidth := curve_width u;
                          Spec.sampleRate := sample_rate u |}).
  { unfold Spec.read_render. rewrite Hdata.
    change "RenderRigControls" with RenderRigControls.
    rewrite dict_get_last by (now rewrite saved_entries_keys). reflexivity. }
  assert (Hall : forall k b,
    (k, b) ∈ blocks u ->
    exists cur, Spec.read_block b = Some cur
                /\ Spec.saved_record (save_config_data u) k = Some cur
                /\ Spec.no_nan cur = true).
  { intros k b Hin. rewrite forallb_forall in Hblocks.
    specialize (Hblocks (k, b)). simpl in Hblocks.
    destruct (Spec.read_block b) as [cur|] eqn:Hcur.
    - exists cur. split; [reflexivity|]. split.
      + unfold Spec.saved_record. rewrite Hdata.
        rewrite (dict_get_entry _ _ k b Hnd Hin). simpl.
        now apply read_saved_value.
      + apply Hblocks. now apply list_elem_of_In.
    - exfalso. assert (false = true); [|discriminate].
      apply Hblocks. now apply list_elem_of_In. }
  rewrite (has_unsaved_changes_spec _ _ _ u Hfile Hne Hrs).
  - f_equal. unfold Spec.changed, Spec.render_changed. simpl.
    rewrite Hcw, Z.eqb_refl. simpl.
    apply not_true_is_false. intros Hex.
    apply existsb_exists in Hex as ([k b] & Hin & Hch). simpl in Hch.
    apply list_elem_of_In in Hin.
    destruct (Hall k b Hin) as (cur & Hcur & Hsaved & Hnan).
    rewrite Hcur, Hsaved in Hch. unfold Spec.block_changed in Hch.
    rewrite Z.eqb_refl in Hch. unfold Spec.no_nan in Hnan. rewrite Hnan in Hch.
    simpl in Hch. now rewrite andb_false_r in Hch.
  - unfold Spec.well_formed.
    rewrite (bool_decide_eq_true_2 _ Hnd), (bool_decide_eq_true_2 _ Hrrc). simpl.
    apply forallb_forall. intros [k b] Hin. simpl.
    apply list_elem_of_In in Hin.
    destruct (Hall k b Hin) as (cur & Hcur & Hsaved & _).
    rewrite Hcur. simpl. unfold Spec.saved_record in Hsaved.
    destruct (dict_get (save_config_data u) k) as [v|]; [|reflexivity].
    simpl in Hsaved. now rewrite Hsaved.
Qed.

Lemma no_unsaved_changes_after_save_witness :
  has_unsaved_changes (lib := sample_lib)
    (files (snd (save_config (lib := sample_lib)
                   (ui_with (custom_block 0.1 0.2 0.30001)) fresh_world)))
    (ui_with (custom_block 0.1 0.2 0.30001))
  = Ok false.
Proof.
  apply (no_unsaved_changes_after_save (lib := sample_lib)); reflexivity.
Defined.

End SaveProps.

(* ===================================================================== *)
(** ** The state of a block under its handlers *)
(* ===================================================================== *)

Module BlockProps.
Import Py Config Panel Samples.

Section Blocks.
Variable colorIndex : Z -> result value.

Lemma step_sound b e : sound b -> sound (step colorIndex b e).
Proof.
  intros (Hrgb & Hlast & Hpos). destruct e as [idx|[[[r g] bl]|]|]; simpl.
  - unfold update_color_block, set_slider; simpl.
    destruct (idx =? -1) eqn:Hidx.
    + apply Z.eqb_eq in Hidx. subst idx.
      destruct (truthy (rgb b)) eqn:Ht; unfold sound; simpl;
        repeat split; intros; congruence.
    + apply Z.eqb_neq in Hidx. unfold sound; simpl.
      repeat split; intros; congruence.
  - unfold sound; simpl. repeat split; intros; congruence.
  - unfold sound. repeat split; assumption.
  - unfold sound. repeat split; assumption.
Qed.

Lemma run_sound es : forall b, sound b -> sound (run colorIndex b es).
Proof.
  induction es as [|e es IH]; intros b Hb; simpl; [exact Hb|].
  apply IH. now apply step_sound.
Qed.

Lemma step_last_index b e :
  sound b ->
  lastIndex (step colorIndex b e)
  = if slider (step colorIndex b e) =? -1 then lastIndex b
    else slider (step colorIndex b e).
Proof.
  intros (Hrgb & Hlast & Hpos). destruct e as [idx|[[[r g] bl]|]|]; simpl.
  - unfold update_color_block, set_slider; simpl.
    destruct (idx =? -1) eqn:Hidx.
    + destruct (truthy (rgb b)); simpl.
      * now rewrite Hidx.
      * apply Z.eqb_neq in Hlast. now rewrite Hlast.
    + simpl. now rewrite Hidx.
  - reflexivity.
  - destruct (slider b =? -1) eqn:Hs; [reflexivity|].
    apply Z.eqb_neq in Hs. auto.
  - destruct (slider b =? -1) eqn:Hs; [reflexivity|].
    apply Z.eqb_neq in Hs. auto.
Qed.

Lemma run_last_index es : forall b start,
  sound b ->
  lastIndex b = (if slider b =? -1 then start else slider b) ->
  lastIndex (run colorIndex b es)
  = Spec.most_recent_palette start (slider_trace colorIndex b es).
Proof.
  induction es as [|e es IH]; intros b start Hb Hstart.
  - simpl. now rewrite Hstart.
  - cbn [run fold_left slider_trace Spec.most_recent_palette].
    rewrite <- Hstart. apply IH.
    + now apply step_sound.
    + now apply step_last_index.
Qed.

Lemma step_keeps_rgb b e :
  truthy (rgb b) = true -> truthy (rgb (step colorIndex b e)) = true.
Proof.
  intros Hrgb. destruct e as [idx|[[[r g] bl]|]|]; simpl; auto.
  unfold update_color_block, set_slider; simpl.
  destruct (idx =? -1); [|exact Hrgb].
  rewrite Hrgb. exact Hrgb.
Qed.

Lemma run_keeps_rgb es : forall b,
  truthy (rgb b) = true -> truthy (rgb (run colorIndex b es)) = true.
Proof.
  induction es as [|e es IH]; intros b Hb; simpl; [exact Hb|].
  apply IH. now apply step_keeps_rgb.
Qed.

Lemma step_rgb b e :
  rgb (step colorIndex b e) = Spec.most_recent_custom (rgb b) [e].
Proof.
  destruct e as [idx|[[[r g] bl]|]|]; simpl; try reflexivity.
  unfold update_color_block, set_slider; simpl.
  destruct (idx =? -1); [|reflexivity].
  now destruct (negb (truthy (rgb b))).
Qed.

Lemma most_recent_custom_step start e es :
  Spec.most_recent_custom start (e :: es)
  = Spec.most_recent_custom (Spec.most_recent_custom start [e]) es.
Proof. destruct e as [idx|[[[r g] bl]|]|]; reflexivity. Qed.

Lemma run_rgb es : forall b,
  rgb (run colorIndex b es) = Spec.most_recent_custom (rgb b) es.
Proof.
  induction es as [|e es IH]; intros b; [reflexivity|].
  cbn [run fold_left]. fold (run colorIndex (step colorIndex b e) es).
  now rewrite IH, step_rgb, <- most_recent_custom_step.
Qed.

Lemma drag_to_custom_restores b :
  truthy (rgb b) = true ->
  step colorIndex b (Drag (-1))
  = {| slider := -1; rgb := rgb b; lastIndex := lastIndex b;
       label := "Selected: Custom RGB"; swatch := rgb b |}.
Proof.
  intros Hrgb. simpl. unfold update_color_block, set_slider. simpl.
  now rewrite Hrgb.
Qed.

Lemma drag_to_custom_reverts b :
  truthy (rgb b) = false ->
  step colorIndex b (Drag (-1))
  = {| slider := lastIndex b; rgb := rgb b; lastIndex := lastIndex b;
       label := label b; swatch := swatch b |}.
Proof.
  intros Hrgb. simpl. unfold update_color_block, set_slider. simpl.
  now rewrite Hrgb.
Qed.

(** A block as [add_color_index_block] builds it from a saved record of
    the documented form, or from none. *)
Lemma built_block default_index saved_data :
  0 <= default_index ->
  truthy saved_data = false
  \/ (exists c, Spec.read_record saved_data = Some c
                /\ (Spec.index c = -1 -> Spec.rgb c <> None)) ->
  exists b0,
    add_color_index_block colorIndex default_index saved_data = Ok b0
    /\ sound b0
    /\ lastIndex b0 = (if slider b0 =? -1 then default_index else slider b0).
Proof.
  intros Hdefault [Hnone|(c & Hread & Hcustom)]; unfold add_color_index_block.
  - rewrite Hnone. simpl.
    assert (Hd : (default_index =? -1) = false) by (apply Z.eqb_neq; lia).
    rewrite Hd. simpl. eexists. split; [reflexivity|]. simpl. rewrite Hd.
    unfold sound; simpl. repeat split; auto; lia.
  - unfold Spec.read_record in Hread.
    destruct saved_data as [| | | | | |d|]; try discriminate.
    destruct (dict_get d "index") as [[| |i| | | | |]|] eqn:Hidx; try discriminate.
    assert (Htruthy : truthy (VDict d) = true).
    { destruct d; [discriminate|reflexivity]. }
    rewrite Htruthy. simpl. rewrite Hidx. simpl.
    destruct (0 <=? i) eqn:Hge.
    + apply Z.leb_le in Hge.
      assert (Hi : (i =? -1) = false) by (apply Z.eqb_neq; lia).
      rewrite Hi. simpl. eexists. split; [reflexivity|]. simpl. rewrite Hi.
      unfold sound; simpl. repeat split; auto; lia.
    + destruct (i =? -1) eqn:Hi; [|discriminate].
      apply Z.eqb_eq in Hi. subst i.
      destruct (dict_get d "rgb") as [[| | | | |l| |]|] eqn:Hrgb; try discriminate.
      * inversion Hread; subst c. simpl in Hcustom. now destruct Hcustom.
      * float_triple l.
        simpl. eexists. split; [reflexivity|]. simpl.
        unfold sound; simpl. repeat split; auto; lia.
      * inversion Hread; subst c. simpl in Hcustom. now destruct Hcustom.
Qed.

(** C5, as amended.  For a block built by [add_color_index_block] from a
    saved record of the documented form, or from none, with a palette
    index as default, after every sequence of slider drags, custom-colour
    creations and applies: when the slider is at [-1] the block has an
    rgb; [lastIndex] is the most recent position of the slider that was
    not [-1], the default when there was none, and never [-1] itself;
    dragging to [-1] without an rgb puts the slider back on [lastIndex];
    an rgb, once set, stays set whatever the slider then selects (the
    rgb may thus be set while the index is a palette index); the rgb is
    the colour of the most recent custom colour created, or the one the
    block was built with when none was created, no drag and no apply
    changing it; and dragging to [-1] with an rgb set selects the custom
    colour again, the swatch showing that rgb. *)
Theorem block_invariant default_index saved_data :
  0 <= default_index ->
  truthy saved_data = false
  \/ (exists c, Spec.read_record saved_data = Some c
                /\ (Spec.index c = -1 -> Spec.rgb c <> None)) ->
  exists b0,
    add_color_index_block colorIndex default_index saved_data = Ok b0
    /\ forall es,
         (slider (run colorIndex b0 es) = -1 ->
          truthy (rgb (run colorIndex b0 es)) = true)
         /\ lastIndex (run colorIndex b0 es)
            = Spec.most_recent_palette default_index
                (slider_trace colorIndex b0 es)
         /\ lastIndex (run colorIndex b0 es) <> -1
         /\ (truthy (rgb (run colorIndex b0 es)) = false ->
             slider (step colorIndex (run colorIndex b0 es) (Drag (-1)))
             = lastIndex (run colorIndex b0 es))
         /\ (forall es', truthy (rgb (run colorIndex b0 es)) = true ->
             truthy (rgb (run colorIndex (run colorIndex b0 es) es')) = true)
         /\ rgb (run colorIndex b0 es) = Spec.most_recent_custom (rgb b0) es
         /\ (truthy (rgb (run colorIndex b0 es)) = true ->
             step colorIndex (run colorIndex b0 es) (Drag (-1))
             = {| slider := -1;
                  rgb := rgb (run colorIndex b0 es);
                  lastIndex := lastIndex (run colorIndex b0 es);
                  label := "Selected: Custom RGB";
                  swatch := rgb (run colorIndex b0 es) |}).
Proof.
  intros Hdefault Hsaved.
  destruct (built_block default_index saved_data Hdefault Hsaved)
    as (b0 & Hbuilt & Hsound & Hlast).
  exists b0. split; [exact Hbuilt|]. intros es.
  pose proof (run_sound es b0 Hsound) as (Hrgb & Hne & _).
  split; [exact Hrgb|].
  split; [now apply run_last_index|].
  split; [exact Hne|].
  split; [intros Hfalsy; now rewrite drag_to_custom_reverts|].
  split; [intros es' Hset; now apply run_keeps_rgb|].
  split; [apply run_rgb|apply drag_to_custom_restores].
Qed.

End Blocks.

Lemma block_invariant_witness :
  exists b0,
    add_color_index_block no_palette 17 saved_red = Ok b0
    /\ lastIndex (run no_palette b0 [Drag 5; Drag (-1)]) = 5
    /\ truthy (rgb (run no_palette b0 [Drag 5; Drag (-1)])) = true
    /\ rgb (run no_palette b0 [Drag 5])
       = VList [VFloat 1%float; VFloat 0%float; VFloat 0%float].
Proof.
  assert (Hdefault : 0 <= 17) by lia.
  assert (Hsaved :
    truthy saved_red = false
    \/ (exists c, Spec.read_record saved_red = Some c
                  /\ (Spec.index c = -1 -> Spec.rgb c <> None))).
  { right. eexists. split; [reflexivity|]. simpl. intros _. discriminate. }
  destruct (block_invariant no_palette 17 saved_red Hdefault Hsaved)
    as (b0 & Hbuilt & Hall).
  exists b0. split; [exact Hbuilt|].
  destruct (Hall [Drag 5; Drag (-1)]) as (Hrgb & Hlast & _).
  destruct (Hall [Drag 5]) as (_ & _ & _ & _ & _ & Hkept & _).
  vm_compute in Hbuilt. injection Hbuilt as <-.
  split; [rewrite Hlast; reflexivity|].
  split; [apply Hrgb; reflexivity|].
  rewrite Hkept. reflexivity.
Defined.

(** A saved record [{"index": -1}] without an rgb builds a block at [-1]
    with no rgb and with [lastIndex] at [-1]; such a record is not of the
    documented form. *)
Lemma bare_record_builds_bare_block :
  add_color_index_block no_palette 17 (VDict [("index", VInt (-1))])
  = Ok bare_custom_block.
Proof. reflexivity. Qed.

(** C5 as stated does not hold: after a custom colour was created and the
    slider dragged to palette index 5, the block still has its rgb, so
    "rgb is set" is true and "index is -1" is false. *)
Lemma rgb_outlives_custom_selection :
  exists b,
    custom_then_palette = Ok b
    /\ slider b = 5
    /\ rgb b = VList [VFloat 1%float; VFloat 0%float; VFloat 0%float]
    /\ Spec.rgb_iff_custom b = false.
Proof. eexists. repeat split. Qed.

End BlockProps.

(* ===================================================================== *)
(** ** The shading pair *)
(* ===================================================================== *)

Module SceneProps.
Import Py Scene Samples.

(** *** Nodes *)

Lemma free_name_free name sc :
  objExists name sc = false -> free_name name sc = name.
Proof. intros Hfree. unfold free_name. simpl. now rewrite Hfree. Qed.

Lemma ensure_node_nodes type name sc :
  nodes (ensure_node type name sc)
  = if objExists name sc then nodes sc
    else <[name := {| node_type := type; attributes := attributes_of type |}]>
           (nodes sc).
Proof.
  unfold ensure_node, attempt.
  destruct (objExists name sc) eqn:Hex; simpl; [reflexivity|].
  now rewrite free_name_free.
Qed.

Lemma ensure_node_connections type name sc :
  connections (ensure_node type name sc) = connections sc.
Proof.
  unfold ensure_node, attempt. now destruct (objExists name sc).
Qed.

Lemma ensure_node_noop type name sc :
  objExists name sc = true -> ensure_node type name sc = sc.
Proof. intros Hex. unfold ensure_node, attempt. now rewrite Hex. Qed.

Lemma objExists_nodes name sc sc' :
  nodes sc = nodes sc' -> objExists name sc = objExists name sc'.
Proof. intros Heq. unfold objExists. now rewrite Heq. Qed.

Lemma ensure_node_exists type name sc :
  objExists name (ensure_node type name sc) = true.
Proof.
  unfold objExists at 1. rewrite ensure_node_nodes.
  destruct (objExists name sc) eqn:Hex; [exact Hex|].
  apply bool_decide_eq_true. rewrite lookup_insert_eq. eauto.
Qed.

Lemma ensure_node_keeps type name other sc :
  objExists other sc = true -> objExists other (ensure_node type name sc) = true.
Proof.
  intros Hother. unfold objExists at 1. rewrite ensure_node_nodes.
  destruct (objExists name sc); [exact Hother|].
  apply bool_decide_eq_true. apply bool_decide_eq_true in Hother.
  destruct (decide (name = other)) as [->|Hne].
  - rewrite lookup_insert_eq. eauto.
  - now rewrite lookup_insert_ne.
Qed.

(** *** Connections *)

Lemma plug_exists_nodes sc sc' p :
  nodes sc = nodes sc' -> plug_exists sc p = plug_exists sc' p.
Proof. intros Heq. unfold plug_exists. now rewrite Heq. Qed.

Lemma ensure_connection_nodes src dst force sc :
  nodes (ensure_connection src dst force sc) = nodes sc.
Proof.
  unfold ensure_connection, attempt, isConnected, connectAttr.
  destruct (plug_exists sc src && plug_exists sc dst); simpl; [|reflexivity].
  destruct (bool_decide ((src, dst) ∈ connections sc)); simpl; [reflexivity|].
  now destruct (has_source dst sc && negb force).
Qed.

(** What [ensure_connection] does, by cases. *)
Lemma ensure_connection_cases src dst force sc :
  ensure_connection src dst force sc
  = if plug_exists sc src && plug_exists sc dst
       && negb (bool_decide ((src, dst) ∈ connections sc))
       && negb (has_source dst sc && negb force)
    then {| nodes := nodes sc;
            connections :=
              filter (fun c => c.2 <> dst) (connections sc) ∪ {[ (src, dst) ]} |}
    else sc.
Proof.
  unfold ensure_connection, attempt, isConnected, connectAttr.
  destruct (plug_exists sc src && plug_exists sc dst); simpl; [|reflexivity].
  destruct (bool_decide ((src, dst) ∈ connections sc)); simpl; [reflexivity|].
  now destruct (has_source dst sc && negb force).
Qed.

Lemma has_source_intro a dst sc :
  (a, dst) ∈ connections sc -> has_source dst sc = true.
Proof.
  intros Hin. apply bool_decide_eq_true. exists (a, dst). split; [exact Hin|reflexivity].
Qed.

Lemma has_source_elim dst sc :
  has_source dst sc = true -> exists a, (a, dst) ∈ connections sc.
Proof.
  intros Hs. apply bool_decide_eq_true in Hs as ([a d] & Hin & Hd).
  simpl in Hd. subst d. eauto.
Qed.

Lemma ensure_connection_keeps_source src dst force other sc :
  has_source other sc = true ->
  has_source other (ensure_connection src dst force sc) = true.
Proof.
  intros Hs. rewrite ensure_connection_cases.
  destruct (plug_exists sc src && plug_exists sc dst
            && negb (bool_decide ((src, dst) ∈ connections sc))
            && negb (has_source dst sc && negb force)); [|exact Hs].
  apply has_source_elim in Hs as [a Ha].
  destruct (decide (other = dst)) as [->|Hne].
  - apply (has_source_intro src). simpl. set_solver.
  - apply (has_source_intro a). simpl.
    apply elem_of_union. left. apply elem_of_filter. split; [simpl; congruence|exact Ha].
Qed.

(** A connection is settled when asking for it again changes nothing. *)
Lemma settled_without_force src dst sc :
  plug_exists sc src && plug_exists sc dst = false \/ has_source dst sc = true ->
  ensure_connection src dst false sc = sc.
Proof.
  intros Hs. rewrite ensure_connection_cases.
  destruct Hs as [Hplugs|Hsrc].
  - now rewrite Hplugs.
  - rewrite Hsrc. simpl. now rewrite !andb_false_r.
Qed.

Lemma ensure_connection_settles src dst force sc :
  plug_exists (ensure_connection src dst force sc) src
  && plug_exists (ensure_connection src dst force sc) dst = false
  \/ (src, dst) ∈ connections (ensure_connection src dst force sc)
  \/ (force = false /\ has_source dst (ensure_connection src dst force sc) = true).
Proof.
  rewrite (plug_exists_nodes _ sc src), (plug_exists_nodes _ sc dst)
    by apply ensure_connection_nodes.
  rewrite ensure_connection_cases.
  destruct (plug_exists sc src && plug_exists sc dst) eqn:Hplugs; [|now left].
  right. simpl.
  destruct (bool_decide ((src, dst) ∈ connections sc)) eqn:Hconn; simpl.
  - left. now apply bool_decide_eq_true in Hconn.
  - destruct (has_source dst sc) eqn:Hsrc; simpl.
    + destruct force; simpl.
      * left. set_solver.
      * right. split; [reflexivity|exact Hsrc].
    + left. set_solver.
Qed.

Lemma settled_connected src dst force sc :
  plug_exists sc src && plug_exists sc dst = false
  \/ (src, dst) ∈ connections sc ->
  ensure_connection src dst force sc = sc.
Proof.
  intros Hs. rewrite ensure_connection_cases.
  destruct Hs as [Hplugs|Hconn].
  - now rewrite Hplugs.
  - rewrite (bool_decide_eq_true_2 _ Hconn). simpl. now rewrite andb_false_r.
Qed.

Lemma ensure_connection_idem src dst force sc :
  ensure_connection src dst force (ensure_connection src dst force sc)
  = ensure_connection src dst force sc.
Proof.
  destruct (ensure_connection_settles src dst force sc)
    as [Hplugs|[Hconn|[-> Hsrc]]].
  - apply settled_connected. now left.
  - apply settled_connected. now right.
  - apply settled_without_force. now right.
Qed.

Lemma ensure_connection_stable src dst sc :
  stable src dst (ensure_connection src dst false sc).
Proof.
  destruct (ensure_connection_settles src dst false sc)
    as [Hplugs|[Hconn|[_ Hsrc]]].
  - now left.
  - right. now apply (has_source_intro src).
  - now right.
Qed.

Lemma stable_kept src dst src' dst' force' sc :
  stable src dst sc -> stable src dst (ensure_connection src' dst' force' sc).
Proof.
  intros [Hplugs|Hsrc].
  - left.
    rewrite (plug_exists_nodes _ sc src), (plug_exists_nodes _ sc dst);
      [exact Hplugs|apply ensure_connection_nodes..].
  - right. now apply ensure_connection_keeps_source.
Qed.

(** *** [ensure_place2d_and_ramp] *)

Lemma ensure_idempotent ramp_name texture_name curve_shader_attr sc :
  ensure_place2d_and_ramp ramp_name texture_name curve_shader_attr
    (ensure_place2d_and_ramp ramp_name texture_name curve_shader_attr sc)
  = ensure_place2d_and_ramp ramp_name texture_name curve_shader_attr sc.
Proof.
  unfold ensure_place2d_and_ramp. cbv zeta.
  set (s1 := ensure_node "ramp" ramp_name sc).
  set (s2 := ensure_node "place2dTexture" texture_name s1).
  set (s3 := ensure_connection (texture_name +:+ ".outUV")
               (ramp_name +:+ ".uv") false s2).
  set (s4 := ensure_connection (texture_name +:+ ".outUvFilterSize")
               (ramp_name +:+ ".uvFilterSize") false s3).
  set (s5 := ensure_connection (ramp_name +:+ ".outColor")
               curve_shader_attr true s4).
  assert (Hnodes : nodes s5 = nodes s2).
  { unfold s5, s4, s3. now rewrite !ensure_connection_nodes. }
  assert (Hramp : objExists ramp_name s5 = true).
  { rewrite (objExists_nodes _ s5 s2 Hnodes). unfold s2.
    apply ensure_node_keeps. apply ensure_node_exists. }
  assert (Htex : objExists texture_name s5 = true).
  { rewrite (objExists_nodes _ s5 s2 Hnodes). apply ensure_node_exists. }
  rewrite (ensure_node_noop _ ramp_name s5 Hramp).
  rewrite (ensure_node_noop _ texture_name s5 Htex).
  rewrite (settled_without_force _ _ s5).
  2:{ unfold s5, s4. do 2 apply stable_kept. apply ensure_connection_stable. }
  rewrite (settled_without_force _ _ s5).
  2:{ unfold s5. apply stable_kept. apply ensure_connection_stable. }
  apply ensure_connection_idem.
Qed.

Lemma ensure_noop ramp_name texture_name curve_shader_attr sc :
  objExists ramp_name sc = true ->
  objExists texture_name sc = true ->
  (texture_name +:+ ".outUV", ramp_name +:+ ".uv") ∈ connections sc ->
  (texture_name +:+ ".outUvFilterSize", ramp_name +:+ ".uvFilterSize")
    ∈ connections sc ->
  (ramp_name +:+ ".outColor", curve_shader_attr) ∈ connections sc ->
  ensure_place2d_and_ramp ramp_name texture_name curve_shader_attr sc = sc.
Proof.
  intros Hramp Htex Huv Hfilter Hcolor. unfold ensure_place2d_and_ramp. cbv zeta.
  rewrite (ensure_node_noop _ ramp_name sc Hramp).
  rewrite (ensure_node_noop _ texture_name sc Htex).
  rewrite (settled_connected _ _ false sc) by now right.
  rewrite (settled_connected _ _ false sc) by now right.
  apply settled_connected. now right.
Qed.

(** *** Counting the nodes of a type *)

Lemma count_type_insert type name nd (m : gmap string node) cs :
  m !! name = None ->
  count_type type {| nodes := <[name := nd]> m; connections := cs |}
  = if bool_decide (node_type nd = type)
    then S (count_type type {| nodes := m; connections := cs |})
    else count_type type {| nodes := m; connections := cs |}.
Proof.
  intros Hfree. unfold count_type. simpl.
  destruct (bool_decide (node_type nd = type)) eqn:Hty.
  - apply bool_decide_eq_true in Hty.
    rewrite map_filter_insert_True by exact Hty.
    apply map_size_insert_None. apply map_lookup_filter_None. now left.
  - apply bool_decide_eq_false in Hty.
    rewrite map_filter_insert_False by exact Hty.
    now rewrite delete_id.
Qed.

Lemma count_type_nodes type sc sc' :
  nodes sc = nodes sc' -> count_type type sc = count_type type sc'.
Proof. intros Heq. unfold count_type. now rewrite Heq. Qed.

Lemma ensure_creates_pair ramp_name texture_name curve_shader_attr sc :
  ramp_name <> texture_name ->
  objExists ramp_name sc = false ->
  objExists texture_name sc = false ->
  count_type "ramp"
    (ensure_place2d_and_ramp ramp_name texture_name curve_shader_attr sc)
  = S (count_type "ramp" sc)
  /\ count_type "place2dTexture"
       (ensure_place2d_and_ramp ramp_name texture_name curve_shader_attr sc)
     = S (count_type "place2dTexture" sc).
Proof.
  intros Hne Hramp Htex.
  assert (Hnodes :
    nodes (ensure_place2d_and_ramp ramp_name texture_name curve_shader_attr sc)
    = <[texture_name := {| node_type := "place2dTexture";
                           attributes := attributes_of "place2dTexture" |}]>
        (<[ramp_name := {| node_type := "ramp";
                           attributes := attributes_of "ramp" |}]> (nodes sc))).
  { unfold ensure_place2d_and_ramp. cbv zeta.
    rewrite !ensure_connection_nodes, !ensure_node_nodes.
    rewrite Hramp.
    assert (Htex' : objExists texture_name (ensure_node "ramp" ramp_name sc) = false).
    { unfold objExists. rewrite ensure_node_nodes, Hramp.
      apply bool_decide_eq_false. rewrite lookup_insert_ne by exact Hne.
      now apply bool_decide_eq_false in Htex. }
    now rewrite Htex'. }
  apply bool_decide_eq_false in Hramp. apply bool_decide_eq_false in Htex.
  assert (Hr : nodes sc !! ramp_name = None).
  { destruct (nodes sc !! ramp_name) eqn:H; [|reflexivity]. exfalso. eauto. }
  assert (Ht : nodes sc !! texture_name = None).
  { destruct (nodes sc !! texture_name) eqn:H; [|reflexivity]. exfalso. eauto. }
  split.
  - rewrite (count_type_nodes _ _
               {| nodes := _; connections := connections sc |} Hnodes).
    rewrite count_type_insert by (now rewrite lookup_insert_ne).
    rewrite count_type_insert by exact Hr. reflexivity.
  - rewrite (count_type_nodes _ _
               {| nodes := _; connections := connections sc |} Hnodes).
    rewrite count_type_insert by (now rewrite lookup_insert_ne).
    rewrite count_type_insert by exact Hr. reflexivity.
Qed.

Lemma local_names_distinct base :
  "ramp_" +:+ base <> "place2dTexture_" +:+ base.
Proof. simpl. discriminate. Qed.

Lemma unique_node_name_inj base u u' :
  unique_node_name base u = unique_node_name base u' ->
  String.substring 0 8 u = String.substring 0 8 u'.
Proof.
  unfold unique_node_name. intros Heq.
  apply (inj (String.app base)) in Heq.
  now apply (inj (String.app "_")) in Heq.
Qed.

(** C9, as amended.  [ensure_place2d_and_ramp] is idempotent: a second
    call with the same names leaves the scene as the first call left it,
    and a call changes nothing when the two nodes and the three
    connections exist.  For an object without a referenced shape the names
    depend on the object's name alone, so two calls in succession are one
    call, and when the two names were free they add exactly one ramp and
    one place2dTexture to the scene.  For an object with a referenced
    shape each name ends in the first eight characters of a UUID drawn for
    it, and two draws that differ there give different names; nothing
    more is checked. *)
Theorem ensure_shading_pair_idempotent :
  (forall ramp_name texture_name curve_shader_attr sc,
      ensure_place2d_and_ramp ramp_name texture_name curve_shader_attr
        (ensure_place2d_and_ramp ramp_name texture_name curve_shader_attr sc)
      = ensure_place2d_and_ramp ramp_name texture_name curve_shader_attr sc)
  /\ (forall ramp_name texture_name curve_shader_attr sc,
        objExists ramp_name sc = true ->
        objExists texture_name sc = true ->
        (texture_name +:+ ".outUV", ramp_name +:+ ".uv") ∈ connections sc ->
        (texture_name +:+ ".outUvFilterSize", ramp_name +:+ ".uvFilterSize")
          ∈ connections sc ->
        (ramp_name +:+ ".outColor", curve_shader_attr) ∈ connections sc ->
        ensure_place2d_and_ramp ramp_name texture_name curve_shader_attr sc = sc)
  /\ (forall obj uuid_ramp uuid_texture,
        shading_names obj false uuid_ramp uuid_texture
        = ("ramp_" +:+ safe_name obj, "place2dTexture_" +:+ safe_name obj))
  /\ (forall obj shape u1 u2 u3 u4 sc,
        ensure_shading_pair obj shape false u3 u4
          (ensure_shading_pair obj shape false u1 u2 sc)
        = ensure_shading_pair obj shape false u1 u2 sc
        /\ (objExists ("ramp_" +:+ safe_name obj) sc = false ->
            objExists ("place2dTexture_" +:+ safe_name obj) sc = false ->
            count_type "ramp"
              (ensure_shading_pair obj shape false u3 u4
                 (ensure_shading_pair obj shape false u1 u2 sc))
            = S (count_type "ramp" sc)
            /\ count_type "place2dTexture"
                 (ensure_shading_pair obj shape false u3 u4
                    (ensure_shading_pair obj shape false u1 u2 sc))
               = S (count_type "place2dTexture" sc)))
  /\ (forall obj uuid_ramp uuid_texture,
        shading_names obj true uuid_ramp uuid_texture
        = ("ramp_" +:+ safe_name obj +:+ "_" +:+ String.substring 0 8 uuid_ramp,
           "place2dTexture_" +:+ safe_name obj +:+ "_"
             +:+ String.substring 0 8 uuid_texture))
  /\ (forall obj u1 u2 u1' u2',
        (String.substring 0 8 u1 <> String.substring 0 8 u1' ->
         fst (shading_names obj true u1 u2) <> fst (shading_names obj true u1' u2'))
        /\ (String.substring 0 8 u2 <> String.substring 0 8 u2' ->
            snd (shading_names obj true u1 u2)
            <> snd (shading_names obj true u1' u2'))).
Proof.
  split; [exact ensure_idempotent|].
  split; [exact ensure_noop|].
  split; [reflexivity|].
  split.
  - intros obj shape u1 u2 u3 u4 sc. unfold ensure_shading_pair, shading_names.
    rewrite ensure_idempotent. split; [reflexivity|].
    intros Hramp Htex. apply ensure_creates_pair; try assumption.
    apply local_names_distinct.
  - split; [reflexivity|].
    intros obj u1 u2 u1' u2'. unfold shading_names. simpl. split.
    + intros Hne Heq. apply Hne. now apply unique_node_name_inj in Heq.
    + intros Hne Heq. apply Hne. now apply unique_node_name_inj in Heq.
Qed.

Lemma ensure_shading_pair_idempotent_witness :
  count_type "ramp"
    (ensure_shading_pair "|grp|ctl-1" "ctlShape" false "u3" "u4"
       (ensure_shading_pair "|grp|ctl-1" "ctlShape" false "u1" "u2" sample_scene))
  = 1%nat
  /\ count_type "place2dTexture"
       (ensure_shading_pair "|grp|ctl-1" "ctlShape" false "u3" "u4"
          (ensure_shading_pair "|grp|ctl-1" "ctlShape" false "u1" "u2" sample_scene))
     = 1%nat.
Proof.
  destruct ensure_shading_pair_idempotent as (_ & _ & _ & Hlocal & _).
  destruct (Hlocal "|grp|ctl-1" "ctlShape" "u1" "u2" "u3" "u4" sample_scene)
    as (_ & Hcount).
  destruct Hcount as (Hramp & Htex); [vm_compute; reflexivity..|].
  rewrite Hramp, Htex. split; vm_compute; reflexivity.
Defined.

(** C9 as stated does not hold: the names generated for a referenced
    object are not unique.  Two referenced objects of the same short name,
    with UUIDs that agree in their first eight characters, get the same
    two names, and the second shares the ramp of the first: one ramp in
    the scene for the two.  A local object whose name ends in those eight
    characters gets the ramp name of the referenced one as well. *)
Lemma generated_names_collide :
  "|refA|ctl" <> "|refB|ctl"
  /\ shading_names "|refA|ctl" true
       "1a2b3c4d-1111-4111-8111-111111111111"
       "1a2b3c4d-2222-4222-8222-222222222222"
     = shading_names "|refB|ctl" true
         "1a2b3c4d-3333-4333-8333-333333333333"
         "1a2b3c4d-4444-4444-8444-444444444444"
  /\ count_type "ramp"
       (ensure_shading_pair "|refB|ctl" "bShape" true
          "1a2b3c4d-3333-4333-8333-333333333333"
          "1a2b3c4d-4444-4444-8444-444444444444"
          (ensure_shading_pair "|refA|ctl" "aShape" true
             "1a2b3c4d-1111-4111-8111-111111111111"
             "1a2b3c4d-2222-4222-8222-222222222222" Cases.two_curves))
     = 1%nat
  /\ fst (shading_names "|refA|ctl" true
            "1a2b3c4d-1111-4111-8111-111111111111"
            "1a2b3c4d-2222-4222-8222-222222222222")
     = fst (shading_names "|grp|ctl_1a2b3c4d" false "" "").
Proof.
  split; [discriminate|]. repeat split; vm_compute; reflexivity.
Qed.

(** *** Cleaning up *)

Lemma cleanup_node_keeps name sc :
  listConnections name sc <> [] -> cleanup_node name sc = sc.
Proof.
  intros Hout. unfold cleanup_node.
  destruct (objExists name sc); [|reflexivity].
  now destruct (listConnections name sc).
Qed.

Lemma cleanup_node_deletes name sc :
  objExists name sc = true -> listConnections name sc = [] ->
  cleanup_node name sc
  = {| nodes := base.delete name (nodes sc);
       connections :=
         filter (fun c => plug_node c.1 ≠ name ∧ plug_node c.2 ≠ name)
                (connections sc) |}.
Proof.
  intros Hex Hout. unfold cleanup_node, attempt, delete.
  now rewrite Hex, Hout.
Qed.

(** X2.  [cleanup_unused_ramps_and_textures] on one pair: it leaves the
    scene as it is when the ramp and the texture each have a connection
    leaving them; and it deletes both when the ramp has none and the
    texture's connections all end on the ramp. *)
Theorem cleanup_removes_unused_pair ramp texture (sc : scene) :
  (listConnections ramp sc <> [] -> listConnections texture sc <> [] ->
   cleanup_unused_ramps_and_textures [ramp] [texture] sc = sc)
  /\ (ramp <> texture ->
      objExists ramp sc = true -> objExists texture sc = true ->
      listConnections ramp sc = [] ->
      (forall c, c ∈ connections sc -> plug_node c.1 = texture ->
                 plug_node c.2 = ramp) ->
      objExists ramp (cleanup_unused_ramps_and_textures [ramp] [texture] sc) = false
      /\ objExists texture (cleanup_unused_ramps_and_textures [ramp] [texture] sc)
         = false).
Proof.
  unfold cleanup_unused_ramps_and_textures. simpl. split.
  - intros Hramp Htex. rewrite (cleanup_node_keeps ramp) by exact Hramp.
    now apply cleanup_node_keeps.
  - intros Hne Hramp Htex Hout Hto_ramp.
    rewrite (cleanup_node_deletes ramp sc Hramp Hout).
    set (sc' := {| nodes := base.delete ramp (nodes sc); connections := _ |}).
    assert (Htex' : objExists texture sc' = true).
    { unfold objExists, sc'. simpl. apply bool_decide_eq_true.
      rewrite lookup_delete_ne by exact Hne.
      now apply bool_decide_eq_true in Htex. }
    assert (Hout' : listConnections texture sc' = []).
    { unfold listConnections, sc'. simpl. apply elements_empty_iff.
      apply set_equiv. intros c. split; [|set_solver].
      intros Hc. apply elem_of_filter in Hc as [Hsrc Hc].
      apply elem_of_filter in Hc as [[_ Hdst] Hc].
      exfalso. apply Hdst. now apply Hto_ramp. }
    rewrite (cleanup_node_deletes texture sc' Htex' Hout'). simpl.
    unfold objExists. simpl. split; apply bool_decide_eq_false.
    + rewrite lookup_delete_ne by congruence. rewrite lookup_delete_eq.
      intros [x Hx]. discriminate Hx.
    + rewrite lookup_delete_eq. intros [x Hx]. discriminate Hx.
Qed.

Lemma cleanup_removes_unused_pair_witness :
  objExists "ramp_ctl_1"
    (cleanup_unused_ramps_and_textures ["ramp_ctl_1"] ["place2dTexture_ctl_1"]
       scene_with_unused_pair) = false
  /\ objExists "place2dTexture_ctl_1"
       (cleanup_unused_ramps_and_textures ["ramp_ctl_1"] ["place2dTexture_ctl_1"]
          scene_with_unused_pair) = false.
Proof.
  apply (proj2 (cleanup_removes_unused_pair "ramp_ctl_1" "place2dTexture_ctl_1"
                  scene_with_unused_pair)).
  - discriminate.
  - vm_compute. reflexivity.
  - vm_compute. reflexivity.
  - vm_compute. reflexivity.
  - intros c Hc _. apply elem_of_elements in Hc.
    assert (Hels :
      elements (connections scene_with_unused_pair)
      = [("place2dTexture_ctl_1.outUV", "ramp_ctl_1.uv");
         ("place2dTexture_ctl_1.outUvFilterSize", "ramp_ctl_1.uvFilterSize")])
      by (vm_compute; reflexivity).
    rewrite Hels in Hc.
    repeat (apply elem_of_cons in Hc as [->|Hc]; [vm_compute; reflexivity|]).
    now apply elem_of_nil in Hc.
Defined.

End SceneProps.

(* ===================================================================== *)
(** ** Properties of [safe_name] *)
(* ===================================================================== *)

Module NameProps.
Import Py Scene Names.

Lemma sub_non_word_word s : word (sub_non_word s) = true.
Proof.
  induction s as [|c s IH]; simpl; [reflexivity|].
  rewrite IH, andb_true_r. destruct (word_char c) eqn:Hc; [exact Hc|].
  reflexivity.
Qed.

Lemma sub_non_word_id s : word s = true -> sub_non_word s = s.
Proof.
  induction s as [|c s IH]; simpl; [reflexivity|].
  intros Hw. apply andb_prop in Hw as [Hc Hs]. now rewrite Hc, IH.
Qed.

Lemma word_no_bar s : word s = true -> split_bar s = [s].
Proof.
  induction s as [|c s IH]; simpl; [reflexivity|].
  intros Hw. apply andb_prop in Hw as [Hc Hs].
  rewrite bool_decide_eq_false_2.
  - now rewrite IH.
  - intros ->. discriminate Hc.
Qed.

Lemma split_bar_nonempty s : split_bar s <> [].
Proof.
  destruct s as [|c s]; simpl; [discriminate|].
  destruct (bool_decide (c = "|"%char)); [discriminate|].
  destruct (split_bar s); discriminate.
Qed.

Lemma split_bar_path path rest :
  exists seg segs,
    split_bar (path +:+ "|" +:+ rest) = seg :: segs
    /\ segs <> []
    /\ List.last segs EmptyString = List.last (split_bar rest) EmptyString.
Proof.
  induction path as [|c path IH]; simpl.
  - exists EmptyString, (split_bar rest). split; [reflexivity|].
    split; [apply split_bar_nonempty|reflexivity].
  - destruct IH as (seg & segs & Hs & Hne & Hlast).
    change (path +:+ String "|" rest) with (path +:+ "|" +:+ rest).
    rewrite Hs.
    destruct (bool_decide (c = "|"%char)).
    + exists EmptyString, (seg :: segs). split; [reflexivity|].
      split; [discriminate|]. rewrite <- Hlast.
      destruct segs; [congruence|reflexivity].
    + exists (String c seg), segs. auto.
Qed.

Lemma word_app s t : word (s +:+ t) = word s && word t.
Proof.
  induction s as [|c s IH]; simpl; [reflexivity|].
  now rewrite IH, andb_assoc.
Qed.

Lemma split_plug_word n attr :
  word n = true -> split_plug (n +:+ "." +:+ attr) = Some (n, attr).
Proof.
  induction n as [|c n IH]; simpl; [reflexivity|].
  intros Hw. apply andb_prop in Hw as [Hc Hn].
  rewrite bool_decide_eq_false_2.
  - change (n +:+ String "." attr) with (n +:+ "." +:+ attr). now rewrite IH.
  - intros ->. discriminate Hc.
Qed.

(** X3.  [safe_name] returns a string of letters, digits and underscores,
    whatever it is given; it returns a string of that form as it is, so
    applying it twice is applying it once; it reads only what follows the
    last [|] of a path, so two objects with the same short name under
    different parents get the same name; and a plug written with a node
    name made of a prefix of that form and the safe name is read back as
    that node and that attribute. *)
Theorem safe_name_is_a_node_name (name : string) :
  word (safe_name name) = true
  /\ (word name = true -> safe_name name = name)
  /\ safe_name (safe_name name) = safe_name name
  /\ (forall path, safe_name (path +:+ "|" +:+ name) = safe_name name)
  /\ (forall prefix attr,
        word prefix = true ->
        split_plug ((prefix +:+ safe_name name) +:+ "." +:+ attr)
        = Some (prefix +:+ safe_name name, attr)).
Proof.
  assert (Hword : forall s, word (safe_name s) = true).
  { intros s. apply sub_non_word_word. }
  assert (Hid : forall s, word s = true -> safe_name s = s).
  { intros s Hs. unfold safe_name. rewrite word_no_bar by exact Hs. simpl.
    now apply sub_non_word_id. }
  split; [apply Hword|]. split; [apply Hid|].
  split; [apply Hid, Hword|]. split.
  - intros path. unfold safe_name.
    destruct (split_bar_path path name) as (seg & segs & Hs & Hne & Hlast).
    rewrite Hs, <- Hlast. destruct segs; [congruence|reflexivity].
  - intros prefix attr Hp. apply split_plug_word.
    now rewrite word_app, Hp, Hword.
Qed.
Lemma safe_name_is_a_node_name_witness :
  safe_name "|grp|ctl-1" = "ctl_1"
  /\ safe_name (safe_name "|grp|ctl-1") = safe_name "|grp|ctl-1"
  /\ safe_name ("|other|grp" +:+ "|" +:+ "ctl-1") = safe_name "ctl-1".
Proof.
  split; [reflexivity|]. split.
  - apply (safe_name_is_a_node_name "|grp|ctl-1").
  - apply (safe_name_is_a_node_name "ctl-1").
Defined.

End NameProps.

(* ===================================================================== *)
(** ** Properties of [normalize_saved_block] and the verdict on any document *)
(* ===================================================================== *)

Module NormalProps.
Import Py Config Panel Samples StoreProps DiffProps Normal.
Section WithLib.
Context {lib : PyLib}.

Lemma float_trunc_nonneg f z :
  PrimFloat.leb 0%float f = true -> float_trunc f = Some z -> 0 <= z.
Proof.
  rewrite leb_spec. unfold float_trunc.
  destruct (Prim2SF f) as [s|s| |s m e] eqn:Hf; try discriminate.
  - intros _ [= <-]. lia.
  - change (Prim2SF 0%float) with (S754_zero false).
    unfold SFleb, SFcompare. destruct s; [discriminate|].
    intros _ [= <-]. destruct (0 <=? e).
    + apply Z.shiftl_nonneg. lia.
    + apply Z.shiftr_nonneg. lia.
Qed.

Lemma py_int_nonneg idx i :
  py_ge0 idx = Ok true -> py_int idx = Ok i -> 0 <= i.
Proof.
  destruct idx as [|b|z|f|s|l|d|]; simpl; try discriminate.
  - intros _ [= <-]. destruct b; simpl; lia.
  - intros [= Hz] [= <-]. now apply Z.leb_le.
  - intros [= Hf]. destruct (float_trunc f) as [z|] eqn:Ht.
    + intros [= <-]. eapply float_trunc_nonneg; eauto.
    + destruct (is_nan f); discriminate.
Qed.

Lemma py_float_object_float v o :
  py_float_object v = Ok o -> is_float o = true.
Proof.
  unfold py_float_object.
  destruct v; try (intros [= <-]; reflexivity);
    destruct (py_float _); simpl; try discriminate; intros [= <-]; reflexivity.
Qed.

Lemma float_item_float rgb i o :
  py_item rgb i ≫= py_float_object = Ok o -> is_float o = true.
Proof.
  destruct (py_item rgb i) as [x|e]; simpl; [|discriminate].
  apply py_float_object_float.
Qed.

Lemma py_float_object_fixes o :
  is_float o = true -> py_float_object o = Ok o.
Proof. destruct o; try discriminate; reflexivity. Qed.

Lemma normalize_normal block v :
  normalize_saved_block block = Ok v -> normal_form v.
Proof.
  unfold normalize_saved_block.
  destruct (truthy block); simpl; [|intros [= <-]; constructor].
  destruct (py_get block "index" VNone) as [idx|e]; simpl; [|discriminate].
  destruct (is_none idx); [intros [= <-]; constructor|].
  destruct (py_ge0 idx) as [[|]|e] eqn:Hge; simpl; try discriminate.
  - destruct (py_int idx) as [i|e] eqn:Hi; simpl; [|discriminate].
    intros [= <-]. constructor.
    pose proof (py_int_nonneg idx i Hge Hi). lia.
  - destruct (py_get block "rgb" VNone) as [rgb|e]; simpl; [|discriminate].
    destruct (is_none rgb); [intros [= <-]; constructor; lia|].
    destruct (py_item rgb 0 ≫= py_float_object) as [r|e] eqn:Hr; simpl;
      [|discriminate].
    destruct (py_item rgb 1 ≫= py_float_object) as [g|e] eqn:Hg; simpl;
      [|discriminate].
    destruct (py_item rgb 2 ≫= py_float_object) as [b|e] eqn:Hb; simpl;
      [|discriminate].
    intros [= <-]. constructor; eapply float_item_float; eauto.
Qed.

Lemma normalize_fixes_normal v : normal_form v -> normalize_saved_block v = Ok v.
Proof.
  intros [|i Hi|r g b Hr Hg Hb].
  - reflexivity.
  - unfold normalize_saved_block. simpl.
    destruct (0 <=? i) eqn:Hge; simpl; [reflexivity|].
    apply Z.leb_gt in Hge. now replace i with (-1) by lia.
  - unfold normalize_saved_block. simpl.
    rewrite (py_float_object_fixes r Hr), (py_float_object_fixes g Hg),
      (py_float_object_fixes b Hb). reflexivity.
Qed.

(** X4.  Whatever record it is given, [normalize_saved_block] either
    raises or returns [None], [{"index": i}] with [i >= -1], or
    [{"index": -1, "rgb": [r, g, b]}] with three floats; what it returns
    it returns again when applied to it.  A record with an int index that
    is not negative is reduced to that index, whatever else it holds, and
    a record with any negative int index and no rgb is read as the custom
    index [-1]. *)
Theorem normalize_saved_block_normal_form :
  (forall block v,
     normalize_saved_block block = Ok v ->
     normal_form v /\ normalize_saved_block v = Ok v)
  /\ (forall d i,
        dict_get d "index" = Some (VInt i) -> 0 <= i ->
        normalize_saved_block (VDict d) = Ok (VDict [("index", VInt i)]))
  /\ (forall d i,
        dict_get d "index" = Some (VInt i) -> i < 0 ->
        dict_get d "rgb" = None ->
        normalize_saved_block (VDict d) = Ok (VDict [("index", VInt (-1))])).
Proof.
  split; [|split].
  - intros block v Hv. apply normalize_normal in Hv.
    split; [exact Hv|now apply normalize_fixes_normal].
  - intros d i Hidx Hi. unfold normalize_saved_block.
    assert (Ht : truthy (VDict d) = true) by (destruct d; [discriminate|reflexivity]).
    rewrite Ht. simpl. rewrite Hidx. simpl. apply Z.leb_le in Hi. now rewrite Hi.
  - intros d i Hidx Hi Hrgb. unfold normalize_saved_block.
    assert (Ht : truthy (VDict d) = true) by (destruct d; [discriminate|reflexivity]).
    rewrite Ht. simpl. rewrite Hidx. simpl.
    apply Z.leb_gt in Hi. rewrite Hi. simpl. now rewrite Hrgb.
Qed.

(** *** The verdict "unchanged" on any document *)

Local Opaque Z.eqb.

Lemma compare_block_unchanged saved_config k b continue :
  k <> RenderRigControls ->
  compare_block saved_config k (Spec.current_value b) continue = Ok false ->
  continue = Ok false
  /\ exists saved rec nd,
       saved_config = VDict saved
       /\ dict_get saved k = Some rec
       /\ normalize_saved_block rec = Ok (VDict nd)
       /\ dict_get nd "index" = Some (VInt (current_index b))
       /\ (slider b < 0 ->
           py_eq (default VNone (dict_get nd "rgb")) (rgb b) = true).
Proof.
  intros Hk. unfold compare_block.
  rewrite bool_decide_eq_false_2 by exact Hk.
  destruct saved_config as [| | | | | |saved|]; try discriminate.
  simpl.
  destruct (dict_get saved k) as [rec|] eqn:Hrec; simpl; [|discriminate].
  destruct (normalize_saved_block rec) as [n|e] eqn:Hn; simpl; [|discriminate].
  pose proof (normalize_normal rec n Hn) as Hnf.
  destruct Hnf as [|i Hi|r g bl]; simpl; [discriminate| |].
  - unfold Spec.current_value, current_index.
    destruct (0 <=? slider b) eqn:Hs; simpl; unfold py_ne; simpl.
    + destruct (slider b =? i) eqn:Heq; simpl; [|discriminate].
      apply Z.eqb_eq in Heq. subst i.
      apply Z.leb_le in Hs.
      destruct (slider b =? -1) eqn:Hc; [apply Z.eqb_eq in Hc; lia|].
      intros Hcont. split; [exact Hcont|].
      exists saved, rec, [("index", VInt (slider b))].
      repeat split; auto. lia.
    + destruct (-1 =? i) eqn:Heq; simpl; [|discriminate].
      apply Z.eqb_eq in Heq. subst i.
      rewrite Z.eqb_refl.
      destruct (rgb b) eqn:Hrgb; simpl; try discriminate.
      intros Hcont. split; [exact Hcont|].
      exists saved, rec, [("index", VInt (-1))].
      repeat split; auto.
  - unfold Spec.current_value, current_index.
    destruct (0 <=? slider b) eqn:Hs; simpl; unfold py_ne; simpl.
    + destruct (slider b =? -1) eqn:Heq; simpl; [|discriminate].
      apply Z.eqb_eq in Heq. apply Z.leb_le in Hs. lia.
    + rewrite Z.eqb_refl. simpl.
      destruct (is_none (rgb b)) eqn:Hnone; simpl.
      * destruct (rgb b); discriminate.
      * match goal with
        | |- context [negb ?c] => destruct c eqn:Heq
        end; simpl; [|discriminate].
        intros Hcont. split; [exact Hcont|].
        exists saved, rec, [("index", VInt (-1)); ("rgb", VList [r; g; bl])].
        repeat split; auto.
Qed.

Local Transparent Z.eqb.

Lemma compare_blocks_unchanged saved_config rig (bs : list (string * block)) :
  RenderRigControls ∉ bs.*1 ->
  compare_blocks saved_config (Spec.current_entries bs ++ [(RenderRigControls, rig)])
  = Ok false ->
  forall k b, (k, b) ∈ bs ->
    exists saved rec nd,
      saved_config = VDict saved
      /\ dict_get saved k = Some rec
      /\ normalize_saved_block rec = Ok (VDict nd)
      /\ dict_get nd "index" = Some (VInt (current_index b))
      /\ (slider b < 0 ->
          py_eq (default VNone (dict_get nd "rgb")) (rgb b) = true).
Proof.
  induction bs as [|[k0 b0] bs IH]; simpl; intros Hrrc Hcmp k b Hin.
  - now apply elem_of_nil in Hin.
  - rewrite not_elem_of_cons in Hrrc. destruct Hrrc as [Hk0 Hrrc].
    apply compare_block_unchanged in Hcmp as [Hrest Hhere]; [|congruence].
    apply elem_of_cons in Hin as [[= -> ->]|Hin]; [exact Hhere|].
    now apply IH.
Qed.

(** X5.  On any file, when the titles of the panel are distinct and none
    is [RenderRigControls]: if [has_unsaved_changes] answers false, then
    the file holds a document that is a dict and is not empty, the saved
    curve width (0.0 when absent) and sample rate (1 when absent) equal
    the fields, and every block of the panel has a record under its title
    that normalizes to the block's index, with an rgb equal to the
    block's when the block is custom.  A block without a record, or with
    one that does not agree, is never reported as unchanged. *)
Theorem unchanged_verdict_is_sound fs (u : ui) :
  NoDup (blocks u).*1 ->
  RenderRigControls ∉ (blocks u).*1 ->
  has_unsaved_changes fs u = Ok false ->
  exists saved,
    read_json_config fs = Ok (VDict saved)
    /\ saved <> []
    /\ (exists rig cw sr,
          py_get (VDict saved) RenderRigControls (VDict []) = Ok rig
          /\ py_get rig "curveWidth" (VFloat 0%float) ≫= py_float = Ok cw
          /\ PrimFloat.eqb cw (curve_width u) = true
          /\ py_get rig "sampleRate" (VInt 1) ≫= py_int = Ok sr
          /\ sr = sample_rate u)
    /\ forall k b, (k, b) ∈ blocks u ->
         exists rec nd,
           dict_get saved k = Some rec
           /\ normalize_saved_block rec = Ok (VDict nd)
           /\ dict_get nd "index" = Some (VInt (current_index b))
           /\ (slider b < 0 ->
               py_eq (default VNone (dict_get nd "rgb")) (rgb b) = true).
Proof.
  intros Hnd Hrrc. unfold has_unsaved_changes.
  destruct (read_json_config fs) as [saved_config|e] eqn:Hread; simpl;
    [|discriminate].
  destruct (truthy saved_config) eqn:Ht; simpl; [|discriminate].
  destruct (py_get saved_config RenderRigControls (VDict [])) as [rig|e] eqn:Hrig;
    simpl; [|discriminate].
  destruct (py_get rig "curveWidth" (VFloat 0%float) ≫= py_float) as [cw|e] eqn:Hcw;
    simpl; [|discriminate].
  rewrite (current_state_entries u Hnd Hrrc).
  rewrite dict_get_last by (now rewrite current_entries_keys). simpl.
  unfold py_ne at 1. simpl.
  destruct (PrimFloat.eqb cw (curve_width u)) eqn:Hcweq; simpl; [|discriminate].
  destruct (py_get rig "sampleRate" (VInt 1) ≫= py_int) as [sr|e] eqn:Hsr;
    simpl; [|discriminate].
  unfold py_ne. simpl.
  destruct (sr =? sample_rate u) eqn:Hsreq; simpl; [|discriminate].
  apply Z.eqb_eq in Hsreq.
  intros Hcmp.
  pose proof (compare_blocks_unchanged _ _ _ Hrrc Hcmp) as Hall.
  destruct saved_config as [| | | | | |saved|]; try discriminate.
  exists saved. split; [reflexivity|].
  split; [destruct saved; [discriminate|congruence]|].
  split.
  - exists rig, cw, sr. auto.
  - intros k b Hin. destruct (Hall k b Hin) as (saved' & rec & nd & Heq & H).
    injection Heq as <-. eauto.
Qed.

End WithLib.

Lemma normalize_saved_block_normal_form_witness :
  normalize_saved_block (lib := sample_lib)
    (VDict [("index", VInt (-7)); ("name", VStr "Green 1")])
  = Ok (VDict [("index", VInt (-1))]).
Proof.
  apply (proj2 (proj2 (normalize_saved_block_normal_form (lib := sample_lib)))
           _ (-7)).
  - reflexivity.
  - lia.
  - reflexivity.
Defined.

Lemma unchanged_verdict_is_sound_witness :
  exists saved,
    read_json_config (lib := sample_lib) (file_with "text of doc_A5")
    = Ok (VDict saved)
    /\ saved <> [].
Proof.
  destruct (unchanged_verdict_is_sound (lib := sample_lib)
              (file_with "text of doc_A5") (ui_with (plain_block 5)))
    as (saved & Hread & Hne & _).
  - apply (bool_decide_eq_true_1 (NoDup (blocks (ui_with (plain_block 5))).*1)).
    vm_compute. reflexivity.
  - apply (bool_decide_eq_true_1
             (RenderRigControls ∉ (blocks (ui_with (plain_block 5))).*1)).
    vm_compute. reflexivity.
  - vm_compute. reflexivity.
  - exists saved. split; assumption.
Defined.

End NormalProps.

(* ===================================================================== *)
(** ** The verdict of [has_unsaved_changes] on any saved document *)
(* ===================================================================== *)

Module VerdictProps.
Import Py Config Panel Samples Normal Reading Cases StoreProps DiffProps NormalProps.

Section WithLib.
Context {lib : PyLib}.

Lemma components_float rgb r g b :
  components rgb = Some (r, g, b) ->
  is_float r = true /\ is_float g = true /\ is_float b = true.
Proof.
  unfold components.
  destruct (py_item rgb 0 ≫= py_float_object) as [r'|e] eqn:Hr; [|discriminate].
  destruct (py_item rgb 1 ≫= py_float_object) as [g'|e] eqn:Hg; [|discriminate].
  destruct (py_item rgb 2 ≫= py_float_object) as [b'|e] eqn:Hb; [|discriminate].
  intros [= <- <- <-].
  repeat split; eapply float_item_float; eauto.
Qed.

(** What [normalize] reads is what [normalize_saved_block] returns. *)
Lemma normalize_encode rec rd :
  normalize rec = Some rd -> normalize_saved_block rec = Ok (encode rd).
Proof.
  unfold normalize, normalize_saved_block.
  destruct rec as [|b|z|f|s|l|d|];
    try (destruct (truthy _); [discriminate|intros [= <-]; reflexivity]).
  destruct d as [|kv d]; [intros [= <-]; reflexivity|].
  set (d' := kv :: d). cbv zeta.
  change (truthy (VDict d')) with true.
  cbn [negb py_get]. unfold mbind, result_bind. cbn [bind].
  destruct (is_none (default VNone (dict_get d' "index"))); [intros [= <-]; reflexivity|].
  destruct (py_ge0 (default VNone (dict_get d' "index"))) as [[|]|e]; cbn [bind];
    [| |discriminate].
  - destruct (py_int _) as [i|e]; cbn [bind]; [|discriminate].
    intros [= <-]. reflexivity.
  - destruct (is_none (default VNone (dict_get d' "rgb"))); [intros [= <-]; reflexivity|].
    unfold components, mbind, result_bind.
    destruct (bind (py_item _ 0) py_float_object) as [r|e]; cbn [bind]; [|discriminate].
    destruct (bind (py_item _ 1) py_float_object) as [g|e]; cbn [bind]; [|discriminate].
    destruct (bind (py_item _ 2) py_float_object) as [bl|e]; cbn [bind]; [|discriminate].
    intros [= <-]. reflexivity.
Qed.

Lemma normalize_palette rec i : normalize rec = Some (Palette i) -> 0 <= i.
Proof.
  unfold normalize.
  destruct rec as [|b|z|f|s|l|d|];
    try (destruct (truthy _); discriminate).
  cbv zeta.
  destruct (is_none (default VNone (dict_get d "index"))); [discriminate|].
  destruct (py_ge0 (default VNone (dict_get d "index"))) as [[|]|e] eqn:Hge;
    [| |discriminate].
  - destruct (py_int _) as [j|e] eqn:Hj; [|discriminate].
    intros [= <-]. eapply py_int_nonneg; eauto.
  - destruct (is_none _); [discriminate|]. destruct (components _); discriminate.
Qed.

Lemma normalize_custom rec r g b :
  normalize rec = Some (Custom (Some (r, g, b))) ->
  is_float r = true /\ is_float g = true /\ is_float b = true.
Proof.
  unfold normalize.
  destruct rec as [|b'|z|f|s|l|d|];
    try (destruct (truthy _); discriminate).
  cbv zeta.
  destruct (is_none (default VNone (dict_get d "index"))); [discriminate|].
  destruct (py_ge0 (default VNone (dict_get d "index"))) as [[|]|e] eqn:Hge;
    [| |discriminate].
  - destruct (py_int _); discriminate.
  - destruct (is_none _); [discriminate|].
    destruct (components _) as [[[r' g'] b'']|] eqn:Hc; [|discriminate].
    intros [= <- <- <-]. now apply components_float in Hc.
Qed.

(** The comparison of the normalized rgb, a list of three floats, with
    any value is the comparison element by element. *)
Lemma py_eq_float r x : is_float r = true -> py_eq r x = equal_numbers r x.
Proof. destruct r; try discriminate; intros _; destruct x; reflexivity. Qed.

Lemma py_eq_triple r g b cur :
  is_float r = true -> is_float g = true -> is_float b = true ->
  py_eq (VList [r; g; b]) cur = same_rgb (Some (r, g, b)) cur.
Proof.
  intros Hr Hg Hb. unfold same_rgb, same_component.
  destruct cur as [| | | | |m| |]; try reflexivity.
  destruct m as [|x [|y [|z [|w m]]]]; cbn [py_eq];
    rewrite ?andb_true_r, ?andb_false_r; try reflexivity.
  rewrite <- (py_eq_float r), <- (py_eq_float g), <- (py_eq_float b) by assumption.
  now rewrite andb_assoc.
Qed.

Lemma py_eq_ints a b : py_eq (VInt a) (VInt b) = (a =? b).
Proof. reflexivity. Qed.

Lemma py_eq_none x : py_eq VNone x = is_none x.
Proof. now destruct x. Qed.

Local Opaque Z.eqb py_eq.

Lemma compare_block_reading (saved : dict) k b rd continue :
  k <> RenderRigControls ->
  saved_record saved k = Some rd ->
  compare_block (VDict saved) k (Spec.current_value b) continue
  = if block_changed rd b then Ok true else continue.
Proof.
  intros Hk Hrd. unfold compare_block, saved_record in *.
  rewrite bool_decide_eq_false_2 by exact Hk.
  cbn [py_get]. unfold mbind, result_bind. cbn [bind].
  rewrite (normalize_encode _ rd Hrd). cbn [bind].
  unfold Spec.current_value, block_changed, current_index, py_ne.
  destruct rd as [|i|[[[r g] bl]|]]; cbn [encode is_none].
  - reflexivity.
  - pose proof (normalize_palette _ i Hrd) as Hi.
    destruct (0 <=? slider b) eqn:Hs; simpl.
    + rewrite (py_eq_ints _ i), (py_eq_ints _ (-1)).
      destruct (slider b =? i) eqn:Heq; simpl; [|reflexivity].
      apply Z.eqb_eq in Heq.
      destruct (slider b =? -1) eqn:Hc; [apply Z.eqb_eq in Hc; lia|reflexivity].
    + rewrite (py_eq_ints _ i).
      destruct (-1 =? i) eqn:Heq; simpl; [|reflexivity].
      apply Z.eqb_eq in Heq. lia.
  - apply normalize_custom in Hrd as (Hr & Hg & Hbl).
    destruct (0 <=? slider b) eqn:Hs; simpl; rewrite (py_eq_ints _ (-1)).
    + destruct (slider b =? -1) eqn:Hc; simpl; [|reflexivity].
      apply Z.eqb_eq in Hc. apply Z.leb_le in Hs. lia.
    + rewrite Z.eqb_refl. simpl. now rewrite py_eq_triple.
  - destruct (0 <=? slider b) eqn:Hs; simpl; rewrite (py_eq_ints _ (-1)).
    + destruct (slider b =? -1) eqn:Hc; simpl; [|reflexivity].
      apply Z.eqb_eq in Hc. apply Z.leb_le in Hs. lia.
    + rewrite Z.eqb_refl. simpl. rewrite (py_eq_none (rgb b)).
      now destruct (rgb b).
Qed.

Local Transparent Z.eqb py_eq.

Lemma compare_blocks_reading (saved : dict) rig (bs : list (string * block)) :
  RenderRigControls ∉ bs.*1 ->
  (forall k b, (k, b) ∈ bs -> is_Some (saved_record saved k)) ->
  compare_blocks (VDict saved) (Spec.current_entries bs ++ [(RenderRigControls, rig)])
  = Ok (existsb
          (fun kb =>
             match saved_record saved kb.1 with
             | Some rd => block_changed rd kb.2
             | None => true
             end) bs).
Proof.
  induction bs as [|[k b] bs IH]; simpl; intros Hrrc Hread.
  - unfold compare_block. now rewrite bool_decide_eq_true_2.
  - rewrite not_elem_of_cons in Hrrc. destruct Hrrc as [Hk Hrrc].
    destruct (Hread k b) as [rd Hrd]; [left|].
    rewrite (compare_block_reading saved k b rd) by (congruence || assumption).
    rewrite Hrd. rewrite IH; [|assumption|].
    + now destruct (block_changed rd b).
    + intros k' b' Hin. apply (Hread k' b'). now right.
Qed.

Lemma saved_render_conversions (saved : dict) rs :
  saved_render saved = Some rs ->
  exists rig,
    default (VDict []) (dict_get saved RenderRigControls) = VDict rig
    /\ py_float (default (VFloat 0%float) (dict_get rig "curveWidth"))
       = Ok (Spec.curveWidth rs)
    /\ py_int (default (VInt 1) (dict_get rig "sampleRate"))
       = Ok (Spec.sampleRate rs).
Proof.
  unfold saved_render.
  destruct (default (VDict []) (dict_get saved RenderRigControls))
    as [| | | | | |rig|]; try discriminate.
  destruct (py_float _) as [c|e] eqn:Hc; [|discriminate].
  destruct (py_int _) as [n|e] eqn:Hn; [|discriminate].
  intros [= <-]. exists rig. auto.
Qed.

Lemma has_unsaved_changes_reading fs (saved : dict) rs (u : ui) :
  read_json_config fs = Ok (VDict saved) ->
  saved <> [] ->
  NoDup (blocks u).*1 ->
  RenderRigControls ∉ (blocks u).*1 ->
  saved_render saved = Some rs ->
  (forall k b, (k, b) ∈ blocks u -> is_Some (saved_record saved k)) ->
  has_unsaved_changes fs u
  = Ok (Spec.render_changed rs (curve_width u) (sample_rate u)
        || existsb
             (fun kb =>
                match saved_record saved kb.1 with
                | Some rd => block_changed rd kb.2
                | None => true
                end)
             (blocks u)).
Proof.
  intros Hfile Hne Hnd Hrrc Hrs Hread.
  destruct (saved_render_conversions saved rs Hrs) as (rig & Hrig & Hcw & Hsr).
  unfold has_unsaved_changes. rewrite Hfile. simpl.
  assert (Htruthy : match saved with [] => false | _ :: _ => true end = true)
    by (destruct saved; congruence).
  rewrite Htruthy. simpl.
  rewrite Hrig. simpl. rewrite Hcw. simpl.
  rewrite (current_state_entries u Hnd Hrrc).
  rewrite dict_get_last by (now rewrite current_entries_keys). simpl.
  rewrite Hsr. simpl.
  rewrite compare_blocks_reading by assumption.
  unfold Spec.render_changed, py_ne. simpl.
  destruct (PrimFloat.eqb (Spec.curveWidth rs) (curve_width u)); simpl;
    [|reflexivity].
  destruct (Spec.sampleRate rs =? sample_rate u); reflexivity.
Qed.

(** What [normalize_saved_block] returns is what [normalize] reads. *)
Lemma normalize_decode rec v :
  normalize_saved_block rec = Ok v ->
  exists rd, normalize rec = Some rd /\ v = encode rd.
Proof.
  unfold normalize, normalize_saved_block.
  destruct rec as [|b|z|f|s|l|d|];
    try (destruct (truthy _); simpl;
         [discriminate|intros [= <-]; exists Unusable; split; reflexivity]).
  destruct d as [|kv d]; [intros [= <-]; exists Unusable; split; reflexivity|].
  set (d' := kv :: d). cbv zeta.
  change (truthy (VDict d')) with true.
  cbn [negb py_get]. unfold mbind, result_bind. cbn [bind].
  destruct (is_none (default VNone (dict_get d' "index")));
    [intros [= <-]; exists Unusable; split; reflexivity|].
  destruct (py_ge0 (default VNone (dict_get d' "index"))) as [[|]|e]; cbn [bind];
    [| |discriminate].
  - destruct (py_int _) as [i|e]; cbn [bind]; [|discriminate].
    intros [= <-]. exists (Palette i). split; reflexivity.
  - destruct (is_none (default VNone (dict_get d' "rgb")));
      [intros [= <-]; exists (Custom None); split; reflexivity|].
    unfold components, mbind, result_bind.
    destruct (bind (py_item _ 0) py_float_object) as [r|e]; cbn [bind]; [|discriminate].
    destruct (bind (py_item _ 1) py_float_object) as [g|e]; cbn [bind]; [|discriminate].
    destruct (bind (py_item _ 2) py_float_object) as [bl|e]; cbn [bind]; [|discriminate].
    intros [= <-]. exists (Custom (Some (r, g, bl))). split; reflexivity.
Qed.

(** What a verdict of false tells of the file and of the render
    settings. *)
Lemma unchanged_render fs (u : ui) :
  NoDup (blocks u).*1 ->
  RenderRigControls ∉ (blocks u).*1 ->
  has_unsaved_changes fs u = Ok false ->
  exists saved rs rig,
    read_json_config fs = Ok (VDict saved)
    /\ saved_render saved = Some rs
    /\ PrimFloat.eqb (Spec.curveWidth rs) (curve_width u) = true
    /\ Spec.sampleRate rs = sample_rate u
    /\ compare_blocks (VDict saved)
         (Spec.current_entries (blocks u) ++ [(RenderRigControls, rig)])
       = Ok false.
Proof.
  intros Hnd Hrrc. unfold has_unsaved_changes.
  destruct (read_json_config fs) as [saved_config|e] eqn:Hread; simpl;
    [|discriminate].
  destruct (truthy saved_config) eqn:Ht; simpl; [|discriminate].
  destruct (py_get saved_config RenderRigControls (VDict [])) as [rig|e] eqn:Hrig;
    simpl; [|discriminate].
  destruct (py_get rig "curveWidth" (VFloat 0%float) ≫= py_float) as [cw|e] eqn:Hcw;
    simpl; [|discriminate].
  rewrite (current_state_entries u Hnd Hrrc).
  rewrite dict_get_last by (now rewrite current_entries_keys). simpl.
  unfold py_ne at 1. simpl.
  destruct (PrimFloat.eqb cw (curve_width u)) eqn:Hcweq; simpl; [|discriminate].
  destruct (py_get rig "sampleRate" (VInt 1) ≫= py_int) as [sr|e] eqn:Hsr;
    simpl; [|discriminate].
  unfold py_ne. simpl.
  destruct (sr =? sample_rate u) eqn:Hsreq; simpl; [|discriminate].
  apply Z.eqb_eq in Hsreq.
  intros Hcmp.
  destruct saved_config as [| | | | | |saved|]; try discriminate.
  exists saved, {| Spec.curveWidth := cw; Spec.sampleRate := sr |}.
  eexists. split; [reflexivity|].
  split; [|split; [exact Hcweq|split; [exact Hsreq|exact Hcmp]]].
  unfold saved_render. simpl in Hrig. injection Hrig as ->.
  destruct rig as [| | | | | |rigd|]; try discriminate.
  simpl in Hcw, Hsr. now rewrite Hcw, Hsr.
Qed.

End WithLib.

(** C1.  On a saved document that is not empty, [has_unsaved_changes]
    answers true exactly when the render settings differ or some block
    has changed, and false otherwise.  A block has changed
    ([Reading.block_changed]) when the saved record under its title,
    normalized ([Reading.normalize]), is unusable (the title is absent,
    or the record has no index), when its index is not the index of the
    normalized record, and, both being [-1], when the rgb differs in some
    element.  Normalizing reads an index that is not negative as an int
    and drops the rgb, and reads a negative index as [-1] with the rgb as
    three floats, or with none.  The titles of the panel are distinct and
    none is the reserved key; the saved numbers are ones that [float] and
    [int] convert.  In particular the verdict is false for current
    [{"A": {"index": 5}}] against saved [{"A": {"index": 5}}] with the
    same render settings. *)
Theorem has_unsaved_changes_compares_blocks :
  (forall (lib : PyLib) fs (saved : dict) rs (u : ui),
      read_json_config fs = Ok (VDict saved) ->
      saved <> [] ->
      NoDup (blocks u).*1 ->
      RenderRigControls ∉ (blocks u).*1 ->
      saved_render saved = Some rs ->
      (forall k b, (k, b) ∈ blocks u -> is_Some (saved_record saved k)) ->
      has_unsaved_changes fs u
      = Ok (Spec.render_changed rs (curve_width u) (sample_rate u)
            || existsb
                 (fun kb =>
                    match saved_record saved kb.1 with
                    | Some rd => block_changed rd kb.2
                    | None => true
                    end)
                 (blocks u)))
  /\ (forall (lib : PyLib) (saved : dict) k,
        dict_get saved k = None -> saved_record saved k = Some Unusable)
  /\ (forall (lib : PyLib) record i,
        normalize record = Some (Palette i) -> 0 <= i)
  /\ (forall (lib : PyLib) record r g b,
        normalize record = Some (Custom (Some (r, g, b))) ->
        is_float r = true /\ is_float g = true /\ is_float b = true)
  /\ has_unsaved_changes (lib := sample_lib)
       (file_with "text of doc_A5") (ui_with (plain_block 5)) = Ok false.
Proof.
  split; [|split; [|split; [|split]]].
  - intros lib fs saved rs u Hfile Hne Hnd Hrrc Hrs Hread.
    now apply has_unsaved_changes_reading.
  - intros lib saved k Hk. unfold saved_record. now rewrite Hk.
  - intros lib. apply normalize_palette.
  - intros lib. apply normalize_custom.
  - vm_compute. reflexivity.
Qed.

Lemma has_unsaved_changes_compares_blocks_witness :
  has_unsaved_changes (lib := odd_lib)
    (file_with "text of doc_float_index") (ui_with (plain_block 5)) = Ok false
  /\ has_unsaved_changes (lib := odd_lib)
       (file_with "text of doc_float_index") (ui_with (plain_block 6)) = Ok true.
Proof.
  assert (Hnd : NoDup [("A", plain_block 5)].*1) by apply NoDup_singleton.
  assert (Hrrc : forall b : block, RenderRigControls ∉ [("A", b)].*1).
  { intros b Hin. apply list_elem_of_singleton in Hin. discriminate Hin. }
  assert (Hread : forall (b0 : block) k (b : block),
    (k, b) ∈ [("A", b0)] ->
    is_Some (saved_record (lib := odd_lib)
               [("A", VDict [("index", VFloat 5.7%float); ("name", VStr "Dark Blue")]);
                ("RenderRigControls", render_1_1)] k)).
  { intros b0 k b Hin. apply list_elem_of_singleton in Hin. injection Hin as -> ->.
    vm_compute. eauto. }
  split.
  - exact (proj1 has_unsaved_changes_compares_blocks odd_lib
             (file_with "text of doc_float_index") _
             {| Spec.curveWidth := 1; Spec.sampleRate := 1 |}
             (ui_with (plain_block 5))
             eq_refl ltac:(discriminate) Hnd (Hrrc _) eq_refl (Hread _)).
  - exact (proj1 has_unsaved_changes_compares_blocks odd_lib
             (file_with "text of doc_float_index") _
             {| Spec.curveWidth := 1; Spec.sampleRate := 1 |}
             (ui_with (plain_block 6))
             eq_refl ltac:(discriminate) Hnd (Hrrc _) eq_refl (Hread _)).
Defined.

Section Exact.
Context {lib : PyLib}.

Lemma unchanged_components fs (u : ui) :
  NoDup (blocks u).*1 ->
  RenderRigControls ∉ (blocks u).*1 ->
  has_unsaved_changes fs u = Ok false ->
  exists saved rs,
    read_json_config fs = Ok (VDict saved)
    /\ saved_render saved = Some rs
    /\ PrimFloat.eqb (Spec.curveWidth rs) (curve_width u) = true
    /\ Spec.sampleRate rs = sample_rate u
    /\ forall k b x y z,
         (k, b) ∈ blocks u -> slider b < 0 -> rgb b = VList [x; y; z] ->
         exists r g bl,
           saved_record saved k = Some (Custom (Some (r, g, bl)))
           /\ same_component r x = true
           /\ same_component g y = true
           /\ same_component bl z = true.
Proof.
  intros Hnd Hrrc Hsame.
  destruct (unchanged_render fs u Hnd Hrrc Hsame)
    as (saved & rs & rig & Hfile & Hrs & Hcw & Hsr & Hcmp).
  exists saved, rs. repeat (split; [assumption|]).
  intros k b x y z Hin Hneg Hrgb.
  destruct (compare_blocks_unchanged _ _ _ Hrrc Hcmp k b Hin)
    as (saved' & rec & nd & Heq & Hrec & Hnorm & Hidx & Heqrgb).
  injection Heq as <-.
  destruct (normalize_decode rec (VDict nd) Hnorm) as (rd & Hrd & Hnd').
  specialize (Heqrgb Hneg). rewrite Hrgb in Heqrgb.
  unfold saved_record. rewrite Hrec. simpl.
  destruct rd as [|i|[[[r g] bl]|]]; simpl in Hnd'; try discriminate;
    injection Hnd' as ->; simpl in Heqrgb.
  - discriminate.
  - exists r, g, bl. split; [exact Hrd|].
    apply normalize_custom in Hrd as (Hr & Hg & Hbl).
    change (py_eq (VList [r; g; bl]) (VList [x; y; z]) = true) in Heqrgb.
    rewrite py_eq_triple in Heqrgb by assumption. simpl in Heqrgb.
    apply andb_prop in Heqrgb as [Heqrgb Hz].
    apply andb_prop in Heqrgb as [Hx Hy]. auto.
  - discriminate.
Qed.

End Exact.

(** C3, as amended.  The numbers are compared without tolerance, each
    saved number as [float] or [int] converts it.  A verdict of false
    forces the saved [curveWidth], as a float, to equal the field's value
    as floats do, the saved [sampleRate], as an int, to be the field's
    int, and every component of a custom block's rgb to agree with the
    saved component, as a float, at its place: the two are equal numbers,
    or they are one object, [json]'s NaN.  Two floats agree when they are
    equal as floats and in no other case.  So [0.1, 0.2, 0.3] against
    saved [0.1, 0.2, 0.30001] is a change, the same triple is none, and a
    [curveWidth] one unit in the last place above the field's value is a
    change. *)
Theorem numeric_comparison_is_exact :
  (forall (lib : PyLib) fs (u : ui),
      NoDup (blocks u).*1 ->
      RenderRigControls ∉ (blocks u).*1 ->
      has_unsaved_changes fs u = Ok false ->
      exists saved rs,
        read_json_config fs = Ok (VDict saved)
        /\ saved_render saved = Some rs
        /\ PrimFloat.eqb (Spec.curveWidth rs) (curve_width u) = true
        /\ Spec.sampleRate rs = sample_rate u
        /\ forall k b x y z,
             (k, b) ∈ blocks u -> slider b < 0 -> rgb b = VList [x; y; z] ->
             exists r g bl,
               saved_record saved k = Some (Custom (Some (r, g, bl)))
               /\ same_component r x = true
               /\ same_component g y = true
               /\ same_component bl z = true)
  /\ (forall f g, same_component (VFloat f) (VFloat g) = PrimFloat.eqb f g)
  /\ has_unsaved_changes (lib := sample_lib)
       (file_with "text of doc_A_custom") (ui_with (custom_block 0.1 0.2 0.3))
     = Ok true
  /\ has_unsaved_changes (lib := sample_lib)
       (file_with "text of doc_A_custom") (ui_with (custom_block 0.1 0.2 0.30001))
     = Ok false
  /\ has_unsaved_changes (lib := sample_lib)
       (file_with "text of doc_A5_wider") (ui_with (plain_block 5))
     = Ok true.
Proof.
  split; [|split; [reflexivity|repeat split; vm_compute; reflexivity]].
  intros lib fs u Hnd Hrrc Hsame. now apply unchanged_components.
Qed.

Lemma numeric_comparison_is_exact_witness :
  has_unsaved_changes (lib := sample_lib)
    (file_with "text of doc_A_custom") (ui_with (custom_block 0.1 0.2 0.30001))
  = Ok false
  /\ exists saved rs,
       read_json_config (lib := sample_lib) (file_with "text of doc_A_custom")
       = Ok (VDict saved)
       /\ saved_render (lib := sample_lib) saved = Some rs
       /\ PrimFloat.eqb (Spec.curveWidth rs) 1 = true
       /\ Spec.sampleRate rs = 1.
Proof.
  split; [reflexivity|].
  destruct (proj1 numeric_comparison_is_exact sample_lib
              (file_with "text of doc_A_custom")
              (ui_with (custom_block 0.1 0.2 0.30001)))
    as (saved & rs & Hfile & Hrs & Hcw & Hsr & _).
  - apply NoDup_singleton.
  - intros Hin. apply list_elem_of_singleton in Hin. discriminate Hin.
  - reflexivity.
  - exists saved, rs. auto.
Defined.

(** C3 as stated does not hold.  The file holds the sample rate [1.9] and
    the field holds [1]: the two numbers are not equal, and the verdict is
    "unchanged", for [1.9] is compared as the int [1].  And the file holds
    a custom colour whose first component is a NaN, which equals no
    number, itself included: for the block built from that very record
    the verdict is "unchanged", the NaN of the record and the NaN of the
    block being one object; for a block that holds a NaN of its own at
    that place it is "changed". *)
Lemma stored_numbers_are_converted :
  has_unsaved_changes (lib := odd_lib)
    (file_with "text of doc_rate_1_9") (ui_with (plain_block 5)) = Ok false
  /\ equal_numbers (VFloat 1.9%float) (VInt 1) = false
  /\ (exists b,
        add_color_index_block no_palette 17 nan_record = Ok b
        /\ rgb b = VList [VNaN; VFloat 0%float; VFloat 0%float]
        /\ has_unsaved_changes (lib := odd_lib)
             (file_with "text of doc_nan") (ui_with b) = Ok false)
  /\ equal_numbers VNaN VNaN = false
  /\ has_unsaved_changes (lib := odd_lib)
       (file_with "text of doc_nan") (ui_with (custom_block PrimFloat.nan 0 0))
     = Ok true.
Proof.
  split; [vm_compute; reflexivity|].
  split; [vm_compute; reflexivity|].
  split; [eexists; repeat split; vm_compute; reflexivity|].
  split; vm_compute; reflexivity.
Qed.

End VerdictProps.

(* ===================================================================== *)
(** ** The widgets of a block under its handlers *)
(* ===================================================================== *)

Module DisplayProps.
Import Py Config Panel Samples Display BlockProps.
Section Blocks.
Variable colorIndex : Z -> result value.

Lemma step_consistent b e :
  in_range e = true -> consistent colorIndex b -> consistent colorIndex (step colorIndex b e).
Proof.
  intros He (Hsound & Hlast & Hslider & Hlabel & Hswatch).
  split; [now apply step_sound|].
  destruct Hsound as (Hrgb & Hne & Hpos).
  destruct e as [idx|[[[r g] bl]|]|]; simpl in *.
  - apply andb_prop in He as [Hlo Hhi]. apply Z.leb_le in Hlo.
    unfold update_color_block, set_slider, shows_selection; simpl.
    destruct (idx =? -1) eqn:Hidx.
    + destruct (truthy (rgb b)) eqn:Ht; simpl.
      * rewrite Hidx. repeat split; auto; lia.
      * assert (Hs : slider b <> -1) by (intros Hs; specialize (Hrgb Hs); congruence).
        rewrite Hlabel, Hswatch.
        apply Z.eqb_neq in Hs. rewrite Hs. apply Z.eqb_neq in Hs.
        rewrite (Hpos Hs). rewrite (proj2 (Z.eqb_neq _ _) Hs).
        repeat split; auto; lia.
    + simpl. rewrite Hidx. apply Z.eqb_neq in Hidx. repeat split; auto; lia.
  - unfold shows_selection; simpl. repeat split; auto; lia.
  - repeat split; auto.
  - repeat split; auto.
Qed.

Lemma run_consistent es : forall b,
  forallb in_range es = true -> consistent colorIndex b -> consistent colorIndex (run colorIndex b es).
Proof.
  induction es as [|e es IH]; intros b Hes Hb; simpl; [exact Hb|].
  simpl in Hes. apply andb_prop in Hes as [He Hes].
  apply IH; [exact Hes|]. now apply step_consistent.
Qed.

Lemma built_consistent default_index saved_data :
  0 <= default_index ->
  truthy saved_data = false
  \/ (exists c, Spec.read_record saved_data = Some c
                /\ (Spec.index c = -1 -> Spec.rgb c <> None)) ->
  exists b0,
    add_color_index_block colorIndex default_index saved_data = Ok b0
    /\ consistent colorIndex b0.
Proof.
  intros Hdefault [Hnone|(c & Hread & Hcustom)]; unfold add_color_index_block.
  - rewrite Hnone. simpl.
    assert (Hd : (default_index =? -1) = false) by (apply Z.eqb_neq; lia).
    rewrite Hd. simpl. eexists. split; [reflexivity|].
    unfold consistent, sound, shows_selection; simpl. rewrite Hd.
    repeat split; auto; lia.
  - unfold Spec.read_record in Hread.
    destruct saved_data as [| | | | | |d|]; try discriminate.
    destruct (dict_get d "index") as [[| |i| | | | |]|] eqn:Hidx; try discriminate.
    assert (Htruthy : truthy (VDict d) = true).
    { destruct d; [discriminate|reflexivity]. }
    rewrite Htruthy. simpl. rewrite Hidx. simpl.
    destruct (0 <=? i) eqn:Hge.
    + apply Z.leb_le in Hge.
      assert (Hi : (i =? -1) = false) by (apply Z.eqb_neq; lia).
      rewrite Hi. simpl. eexists. split; [reflexivity|].
      unfold consistent, sound, shows_selection; simpl. rewrite Hi.
      repeat split; auto; lia.
    + destruct (i =? -1) eqn:Hi; [|discriminate].
      apply Z.eqb_eq in Hi. subst i.
      destruct (dict_get d "rgb") as [[| | | | |l| |]|] eqn:Hrgb; try discriminate.
      * inversion Hread; subst c. simpl in Hcustom. now destruct Hcustom.
      * float_triple l.
        simpl. eexists. split; [reflexivity|].
        unfold consistent, sound, shows_selection; simpl.
        repeat split; auto; lia.
      * inversion Hread; subst c. simpl in Hcustom. now destruct Hcustom.
Qed.

(** X6.  For a block built by [add_color_index_block] from a saved
    record of the documented form, or from none, with a palette index as
    default, after every sequence of custom-colour creations, applies and
    drags within the slider's range [-1..31]: the slider is at [-1] or
    above; the label names the selection and the swatch shows its colour
    (the block's rgb at [-1], the palette colour elsewhere); and
    [apply_color_button], which reads the swatch and not the block's rgb,
    asks for the palette index when there is one and for the block's own
    rgb otherwise. *)
Theorem display_follows_selection default_index saved_data :
  0 <= default_index ->
  truthy saved_data = false
  \/ (exists c, Spec.read_record saved_data = Some c
                /\ (Spec.index c = -1 -> Spec.rgb c <> None)) ->
  exists b0,
    add_color_index_block colorIndex default_index saved_data = Ok b0
    /\ forall es, forallb in_range es = true ->
         let b := run colorIndex b0 es in
         -1 <= slider b
         /\ shows_selection colorIndex b
         /\ apply_color_button b
            = (if 0 <=? slider b then ChangeColorByIndex (slider b)
               else ChangeColorByRgb (rgb b)).
Proof.
  intros Hdefault Hsaved.
  destruct (built_consistent default_index saved_data Hdefault Hsaved)
    as (b0 & Hbuilt & Hb0).
  exists b0. split; [exact Hbuilt|]. intros es Hes b.
  destruct (run_consistent es b0 Hes Hb0) as (_ & _ & Hslider & Hshows).
  fold b in Hslider, Hshows.
  split; [exact Hslider|]. split; [exact Hshows|].
  unfold apply_color_button. destruct (0 <=? slider b) eqn:Hge; [reflexivity|].
  apply Z.leb_gt in Hge. destruct Hshows as [_ Hswatch].
  rewrite Hswatch. replace (slider b) with (-1) by lia. reflexivity.
Qed.

End Blocks.

Lemma display_follows_selection_witness :
  exists b0,
    add_color_index_block no_palette 17 saved_red = Ok b0
    /\ apply_color_button (run no_palette b0 [Drag 5; Drag (-1)])
       = ChangeColorByRgb (VList [VFloat 1%float; VFloat 0%float; VFloat 0%float]).
Proof.
  assert (Hdefault : 0 <= 17) by lia.
  assert (Hsaved :
    truthy saved_red = false
    \/ (exists c, Spec.read_record saved_red = Some c
                  /\ (Spec.index c = -1 -> Spec.rgb c <> None))).
  { right. eexists. split; [reflexivity|]. simpl. intros _. discriminate. }
  destruct (display_follows_selection no_palette 17 saved_red Hdefault Hsaved)
    as (b0 & Hbuilt & Hall).
  exists b0. split; [exact Hbuilt|].
  assert (Hes : forallb in_range [Drag 5; Drag (-1)] = true) by reflexivity.
  destruct (Hall [Drag 5; Drag (-1)] Hes) as (_ & _ & Happly).
  rewrite Happly. vm_compute in Hbuilt. injection Hbuilt as <-. reflexivity.
Defined.
End DisplayProps.

(* ===================================================================== *)
(** ** Properties of [build_ui] and [close_panel] *)
(* ===================================================================== *)

Module SessionProps.
Import Py Config Panel Samples StoreProps DiffProps SaveProps Normal Session Cases.

Section WithLib.
Context {lib : PyLib}.
Variable colorIndex : Z -> result value.

Local Opaque Z.eqb.

(** The blocks built for any titles from a document that holds, under
    the title of each block of a panel, what [save_config] stores for
    it. *)
Lemma build_from_saved (saved : dict) : forall (ts : list (string * Z)) bs,
  bs.*1 = ts.*1 ->
  (forall k b, (k, b) ∈ bs -> dict_get saved k = Some (Spec.saved_value b)) ->
  exists bs',
    mapM (fun '(block_title, default_index) =>
            saved_data ← py_get (VDict saved) block_title (VDict []);
            b ← add_color_index_block colorIndex default_index saved_data;
            Ok (block_title, b)) ts
    = Ok bs'
    /\ Forall2 (fun kb kb' =>
                  kb'.1 = kb.1
                  /\ slider kb'.2 = current_index kb.2
                  /\ rgb kb'.2 = (if 0 <=? slider kb.2 then VNone else rgb kb.2))
               bs bs'.
Proof.
  induction ts as [|[t d] ts IH]; intros bs Hkeys Hsaved.
  - destruct bs; [|discriminate]. exists []. split; [reflexivity|constructor].
  - destruct bs as [|[k b] bs]; [discriminate|]. simpl in Hkeys.
    injection Hkeys as -> Hkeys.
    destruct (IH bs Hkeys) as (bs' & Hbs' & Hall).
    { intros k b' Hin. apply Hsaved. now right. }
    cbn [mapM]. rewrite Hbs'. simpl.
    rewrite (Hsaved t b) by left. simpl.
    unfold Spec.saved_value, add_color_index_block, current_index.
    destruct (0 <=? slider b) eqn:Hs; simpl.
    + assert (Hc : (slider b =? -1) = false).
      { apply Z.eqb_neq. apply Z.leb_le in Hs. lia. }
      eexists. split; [rewrite Hc; simpl; reflexivity|].
      constructor; [|exact Hall]. simpl. rewrite Hs. auto.
    + destruct (truthy (rgb b)); simpl; eexists; (split; [reflexivity|]);
        (constructor; [|exact Hall]); simpl; rewrite Hs; auto.
Qed.

Local Transparent Z.eqb.

Lemma read_after_save (u : ui) (w : world) :
  writing (files w) = NoFault ->
  may_read (files w) = true ->
  json_loads (json_dumps (VDict (save_config_data u)))
  = Ok (VDict (save_config_data u)) ->
  read_json_config (files (snd (save_config u w)))
  = Ok (VDict (save_config_data u)).
Proof.
  intros Hw Hread Hcodec. unfold save_config. rewrite write_ok by assumption.
  simpl. eapply read_parsed; simpl; eauto.
Qed.

(** X7.  A panel whose blocks carry the titles [build_ui] gives them is
    saved without an I/O failure, and [json] reads back the text it
    printed.  Then [build_ui] builds a panel from the file, and each of
    its blocks has the title of the saved one and the index it was saved
    with ([-1] for a slider below zero); a block saved on [-1] gets its
    rgb back, and a block saved on a palette index has no rgb: a custom
    colour that was not selected when the panel was saved is not
    restored. *)
Theorem reopen_restores_selection (u : ui) (w : world) :
  writing (files w) = NoFault ->
  may_read (files w) = true ->
  json_loads (json_dumps (VDict (save_config_data u)))
  = Ok (VDict (save_config_data u)) ->
  (blocks u).*1 = block_titles.*1 ->
  exists u',
    build_ui colorIndex (files (snd (save_config u w))) = Ok u'
    /\ Forall2 (fun kb kb' =>
                  kb'.1 = kb.1
                  /\ slider kb'.2 = current_index kb.2
                  /\ rgb kb'.2 = (if 0 <=? slider kb.2 then VNone else rgb kb.2))
               (blocks u) (blocks u').
Proof.
  intros Hw Hread Hcodec Htitles.
  destruct block_titles_distinct as [Hnd Hrrc]. rewrite <- Htitles in Hnd, Hrrc.
  pose proof (save_config_data_entries u Hnd Hrrc) as Hdata.
  destruct (build_from_saved (save_config_data u) block_titles (blocks u) Htitles)
    as (bs' & Hbs' & Hall).
  { intros k b Hin. rewrite Hdata. now apply dict_get_entry. }
  unfold build_ui. rewrite (read_after_save u w Hw Hread Hcodec). simpl.
  unfold build_blocks. rewrite Hbs'. simpl.
  assert (Hrig : dict_get (save_config_data u) RenderRigControls
                 = Some (VDict [("curveWidth", VFloat (curve_width u));
                                ("sampleRate", VInt (sample_rate u))])).
  { rewrite Hdata. apply dict_get_last. now rewrite saved_entries_keys. }
  eexists. split; [rewrite Hrig; reflexivity|]. exact Hall.
Qed.

(** X8.  [build_ui] and the document it finds.  When the config file is
    absent, does not parse or holds the empty document, it builds the
    panel of the defaults: the seven blocks of [BLOCK_GROUPS], each on its
    default index without an rgb, curve width [1.0] and sample rate [1].
    When the file parses to a value that is not a dict (a list, a number,
    a string, [null]), it raises [AttributeError]: [read_json_config]
    hands the value on, and the first [saved_config.get] fails. *)
Theorem build_ui_by_document fs :
  (read_json_config fs = Ok (VDict []) ->
   build_ui colorIndex fs
   = Ok {| blocks := List.map (fun td => (td.1, default_block colorIndex td.2))
                       block_titles;
           curve_width := 1%float;
           sample_rate := 1 |})
  /\ (forall v,
        read_json_config fs = Ok v -> (forall d, v <> VDict d) ->
        build_ui colorIndex fs = Raise AttributeError).
Proof.
  split.
  - intros Hread. unfold build_ui. rewrite Hread. reflexivity.
  - intros v Hread Hv. unfold build_ui. rewrite Hread. simpl.
    destruct v; try reflexivity. now destruct (Hv d).
Qed.

(** X9.  [build_ui] shows curve width [1.0] when the saved document has
    no curve width, and [has_unsaved_changes] reads the missing curve
    width as [0.0]: on a saved document that is not empty and has no
    [RenderRigControls] entry, or one without a curve width, the panel
    [build_ui] has just built is reported as changed. *)
Theorem fresh_panel_without_curve_width_is_changed fs (saved rig : dict) (u : ui) :
  read_json_config fs = Ok (VDict saved) ->
  saved <> [] ->
  default (VDict []) (dict_get saved RenderRigControls) = VDict rig ->
  dict_get rig "curveWidth" = None ->
  build_ui colorIndex fs = Ok u ->
  has_unsaved_changes fs u = Ok true.
Proof.
  intros Hread Hne Hrig Hcw. unfold build_ui, has_unsaved_changes.
  rewrite Hread. simpl.
  destruct (build_blocks colorIndex (VDict saved)) as [bs|e]; simpl; [|discriminate].
  rewrite Hrig. simpl. rewrite Hcw. simpl.
  destruct (int_field_value (default (VInt 1) (dict_get rig "sampleRate")))
    as [sr|e]; simpl; [|discriminate].
  intros [= <-].
  assert (Ht : match saved with [] => false | _ :: _ => true end = true)
    by (destruct saved; congruence).
  rewrite Ht. simpl. unfold current_state. cbv zeta.
  rewrite dict_get_set. reflexivity.
Qed.

(** The verdict on a panel of the documented form, without a NaN, and
    the document [save_config] builds for it. *)
Lemma saved_document_compares_equal fs (u : ui) :
  read_json_config fs = Ok (VDict (save_config_data u)) ->
  Spec.savable u = true ->
  has_unsaved_changes fs u = Ok false.
Proof.
  intros Hfile Hu. unfold Spec.savable in Hu.
  apply andb_prop in Hu as [Hu Hblocks]. apply andb_prop in Hu as [Hu Hcw].
  apply andb_prop in Hu as [Hnd Hrrc].
  apply bool_decide_eq_true in Hnd. apply bool_decide_eq_true in Hrrc.
  pose proof (save_config_data_entries u Hnd Hrrc) as Hdata.
  assert (Hne : save_config_data u <> []).
  { rewrite Hdata. destruct (Spec.saved_entries (blocks u)); discriminate. }
  assert (Hrs : Spec.read_render (save_config_data u)
                = Some {| Spec.curveWidth := curve_width u;
                          Spec.sampleRate := sample_rate u |}).
  { unfold Spec.read_render. rewrite Hdata.
    change "RenderRigControls" with RenderRigControls.
    rewrite dict_get_last by (now rewrite saved_entries_keys). reflexivity. }
  assert (Hall : forall k b,
    (k, b) ∈ blocks u ->
    exists cur, Spec.read_block b = Some cur
                /\ Spec.saved_record (save_config_data u) k = Some cur
                /\ Spec.no_nan cur = true).
  { intros k b Hin. rewrite forallb_forall in Hblocks.
    specialize (Hblocks (k, b)). simpl in Hblocks.
    destruct (Spec.read_block b) as [cur|] eqn:Hcur.
    - exists cur. split; [reflexivity|]. split.
      + unfold Spec.saved_record. rewrite Hdata.
        rewrite (dict_get_entry _ _ k b Hnd Hin). simpl.
        now apply read_saved_value.
      + apply Hblocks. now apply list_elem_of_In.
    - exfalso. assert (false = true); [|discriminate].
      apply Hblocks. now apply list_elem_of_In. }
  rewrite (has_unsaved_changes_spec _ _ _ u Hfile Hne Hrs).
  - f_equal. unfold Spec.changed, Spec.render_changed. simpl.
    rewrite Hcw, Z.eqb_refl. simpl.
    apply not_true_is_false. intros Hex.
    apply existsb_exists in Hex as ([k b] & Hin & Hch). simpl in Hch.
    apply list_elem_of_In in Hin.
    destruct (Hall k b Hin) as (cur & Hcur & Hsaved & Hnan).
    rewrite Hcur, Hsaved in Hch. unfold Spec.block_changed in Hch.
    rewrite Z.eqb_refl in Hch. unfold Spec.no_nan in Hnan. rewrite Hnan in Hch.
    simpl in Hch. now rewrite andb_false_r in Hch.
  - unfold Spec.well_formed.
    rewrite (bool_decide_eq_true_2 _ Hnd), (bool_decide_eq_true_2 _ Hrrc). simpl.
    apply forallb_forall. intros [k b] Hin. simpl.
    apply list_elem_of_In in Hin.
    destruct (Hall k b Hin) as (cur & Hcur & Hsaved & _).
    rewrite Hcur. simpl. unfold Spec.saved_record in Hsaved.
    destruct (dict_get (save_config_data u) k) as [v|]; [|reflexivity].
    simpl in Hsaved. now rewrite Hsaved.
Qed.

(** X10.  Close right after a save that met no I/O failure: the user is
    not asked, and the workspace control is deleted when the host can
    delete it.  The panel is of the documented form and holds no NaN, and
    [json] reads back the text it printed. *)
Theorem close_after_save_does_not_ask (u : ui) (w : world) answer exists_ deletes :
  writing (files w) = NoFault ->
  may_read (files w) = true ->
  json_loads (json_dumps (VDict (save_config_data u)))
  = Ok (VDict (save_config_data u)) ->
  Spec.savable u = true ->
  close_panel (files (snd (save_config u w))) u answer exists_ deletes
  = Ok {| asked := false; control := exists_ && negb deletes |}.
Proof.
  intros Hw Hread Hcodec Hu. unfold close_panel.
  rewrite (saved_document_compares_equal _ u
             (read_after_save u w Hw Hread Hcodec) Hu).
  reflexivity.
Qed.

(** X11.  Close while the config file is absent, does not parse or holds
    an empty document: the user is asked whatever the panel shows, and the
    workspace control stays unless the answer is [Yes]. *)
Theorem close_asks_when_nothing_is_saved fs (u : ui) saved_config answer exists_ deletes :
  read_json_config fs = Ok saved_config ->
  truthy saved_config = false ->
  close_panel fs u answer exists_ deletes
  = Ok {| asked := true;
          control := if bool_decide (answer = "Yes")
                     then exists_ && negb deletes else exists_ |}.
Proof.
  intros Hread Hfalsy. unfold close_panel.
  rewrite (has_unsaved_changes_empty fs u saved_config Hread Hfalsy). simpl.
  now destruct (bool_decide (answer = "Yes")).
Qed.

End WithLib.

Lemma reopen_restores_selection_witness :
  exists u',
    build_ui (lib := panel_lib) red_palette
      (files (snd (save_config (lib := panel_lib) sample_panel fresh_world)))
    = Ok u'
    /\ Forall2 (fun kb kb' =>
                  kb'.1 = kb.1
                  /\ slider kb'.2 = current_index kb.2
                  /\ rgb kb'.2 = (if 0 <=? slider kb.2 then VNone else rgb kb.2))
               (blocks sample_panel) (blocks u').
Proof.
  apply (reopen_restores_selection (lib := panel_lib) red_palette
           sample_panel fresh_world).
  - reflexivity.
  - reflexivity.
  - vm_compute. reflexivity.
  - vm_compute. reflexivity.
Defined.

Lemma build_ui_by_document_witness :
  build_ui (lib := panel_lib) red_palette no_file
  = Ok {| blocks := List.map (fun td => (td.1, default_block red_palette td.2))
                      block_titles;
          curve_width := 1%float;
          sample_rate := 1 |}
  /\ build_ui (lib := panel_lib) red_palette (file_with "text of a list")
     = Raise AttributeError.
Proof.
  split.
  - apply (build_ui_by_document (lib := panel_lib) red_palette no_file).
    reflexivity.
  - apply (proj2 (build_ui_by_document (lib := panel_lib) red_palette
                    (file_with "text of a list"))
             (VList [VInt 1])).
    + vm_compute. reflexivity.
    + discriminate.
Defined.

Lemma fresh_panel_without_curve_width_is_changed_witness :
  exists u,
    build_ui (lib := panel_lib) red_palette (file_with "text of doc_presets")
    = Ok u
    /\ has_unsaved_changes (lib := panel_lib) (file_with "text of doc_presets") u
       = Ok true.
Proof.
  eexists. split; [vm_compute; reflexivity|].
  apply (fresh_panel_without_curve_width_is_changed (lib := panel_lib)
           red_palette (file_with "text of doc_presets")
           [("MAIN CONTROLS 1", VDict [("index", VInt 5)])] []).
  - vm_compute. reflexivity.
  - discriminate.
  - reflexivity.
  - reflexivity.
  - vm_compute. reflexivity.
Defined.

Lemma close_after_save_does_not_ask_witness :
  close_panel (lib := sample_lib)
    (files (snd (save_config (lib := sample_lib)
                   (ui_with (custom_block 0.1 0.2 0.30001)) fresh_world)))
    (ui_with (custom_block 0.1 0.2 0.30001)) "No" true true
  = Ok {| asked := false; control := false |}.
Proof.
  apply (close_after_save_does_not_ask (lib := sample_lib)
           (ui_with (custom_block 0.1 0.2 0.30001)) fresh_world "No" true true);
    reflexivity.
Defined.

Lemma close_asks_when_nothing_is_saved_witness :
  close_panel (lib := sample_lib) no_file (ui_with (plain_block 5)) "No" true true
  = Ok {| asked := true; control := true |}.
Proof.
  apply (close_asks_when_nothing_is_saved (lib := sample_lib) no_file
           (ui_with (plain_block 5)) (VDict []) "No" true true);
    reflexivity.
Defined.

End SessionProps.

(* ===================================================================== *)
(** ** Properties of the colour operations *)
(* ===================================================================== *)

Module ShapeProps.
Import Py Samples Shapes Cases.

(** *** Plug names *)

Lemma last_char_app s a : a <> EmptyString -> last_char (s +:+ a) = last_char a.
Proof.
  intros Ha. induction s as [|c s IH]; simpl; [reflexivity|].
  rewrite IH. destruct a as [|c' a]; [congruence|]. simpl.
  now destruct (last_char a).
Qed.

(** Two plugs of different attributes are different plugs when the names
    of the attributes end differently. *)
Lemma plug_attr_differs s s' a b :
  a <> EmptyString -> b <> EmptyString -> last_char a <> last_char b ->
  s +:+ a <> s' +:+ b.
Proof.
  intros Ha Hb Hne Heq. apply Hne.
  rewrite <- (last_char_app s a Ha), <- (last_char_app s' b Hb). now rewrite Heq.
Qed.

(** *** A sequence of [setAttr] in one [try] *)



Lemma same_frame_refl d : same_frame d d.
Proof. repeat split. Qed.

Lemma same_frame_trans d1 d2 d3 :
  same_frame d1 d2 -> same_frame d2 d3 -> same_frame d1 d3.
Proof.
  intros (H1 & H2 & H3) (H1' & H2' & H3').
  split; [congruence|]. split; [congruence|].
  intros q. now rewrite H3', H3.
Qed.

Lemma setAttr_ok p v d :
  settable p d = true ->
  setAttr p v d
  = Ok {| shapes_of := shapes_of d; plugs := <[p := v]> (plugs d);
          locked := locked d |}.
Proof. intros Hs. unfold setAttr. now rewrite Hs. Qed.

Lemma setAttr_raises p v d :
  settable p d = false -> setAttr p v d = Raise RuntimeError.
Proof. intros Hs. unfold setAttr. now rewrite Hs. Qed.

Lemma setAttr_frame p v d d' : setAttr p v d = Ok d' -> same_frame d d'.
Proof.
  unfold setAttr. destruct (settable p d) eqn:Hs; [|discriminate].
  intros [= <-]. repeat split. intros q. unfold settable. simpl.
  f_equal. apply bool_decide_ext.
  destruct (decide (q = p)) as [->|Hne].
  - rewrite lookup_insert_eq. apply andb_prop in Hs as [Hs _].
    apply bool_decide_eq_true in Hs. split; eauto.
  - now rewrite lookup_insert_ne.
Qed.

Lemma writes_frame ws : forall d, same_frame d (writes ws d).
Proof.
  unfold writes. induction ws as [|[p v] ws IH]; intros d; simpl.
  - apply same_frame_refl.
  - destruct (setAttr p v d) as [d'|e] eqn:Hset; [|apply same_frame_refl].
    eapply same_frame_trans; [eapply setAttr_frame; eauto|apply IH].
Qed.

Lemma writes_lookup ws : forall d p,
  plugs (writes ws d) !! p = plugs d !! p
  \/ exists v, (p, v) ∈ ws /\ plugs (writes ws d) !! p = Some v.
Proof.
  unfold writes. induction ws as [|[p0 v0] ws IH]; intros d p; simpl.
  - now left.
  - destruct (settable p0 d) eqn:Hs;
      [rewrite (setAttr_ok _ _ _ Hs)|rewrite (setAttr_raises _ _ _ Hs); now left].
    match goal with |- context [attempt_all _ ?d1] => destruct (IH d1 p) as [Hsame|(v & Hin & Hv)] end.
    + simpl in Hsame. destruct (decide (p = p0)) as [->|Hne].
      * right. exists v0. split; [left|]. rewrite Hsame. apply lookup_insert_eq.
      * left. rewrite Hsame. now apply lookup_insert_ne.
    + right. exists v. split; [now right|exact Hv].
Qed.

Lemma writes_all ws : forall d,
  (forall p v, (p, v) ∈ ws -> settable p d = true) ->
  (forall p v v', (p, v) ∈ ws -> (p, v') ∈ ws -> v = v') ->
  forall p v, (p, v) ∈ ws -> plugs (writes ws d) !! p = Some v.
Proof.
  induction ws as [|[p0 v0] ws IH]; intros d Hset Hfun p v Hin.
  - now apply elem_of_nil in Hin.
  - unfold writes. simpl. rewrite setAttr_ok by (apply (Hset p0 v0); left).
    fold (writes ws).
    set (d1 := {| shapes_of := shapes_of d; plugs := <[p0 := v0]> (plugs d);
                  locked := locked d |}).
    assert (Hframe : same_frame d d1).
    { apply (setAttr_frame p0 v0). apply setAttr_ok. apply (Hset p0 v0). left. }
    apply elem_of_cons in Hin as [[= -> ->]|Hin].
    + destruct (writes_lookup ws d1 p0) as [Hsame|(v & Hin' & Hv)].
      * rewrite Hsame. apply lookup_insert_eq.
      * rewrite Hv. f_equal. apply (Hfun p0); [now right|left].
    + apply IH; auto.
      * intros q w Hq. destruct Hframe as (_ & _ & Hs). rewrite Hs.
        apply (Hset q w). now right.
      * intros q w w' Hq Hq'. apply (Hfun q); now right.
Qed.

(** *** The loops *)

Section Loops.
Variable ws : string -> list (string * value).
Hypothesis ws_functional : forall s s' p v v',
  (p, v) ∈ ws s -> (p, v') ∈ ws s' -> v = v'.


Lemma each_frame shapes : forall d, same_frame d (each ws shapes d).
Proof.
  unfold each. induction shapes as [|s shapes IH]; intros d; simpl.
  - apply same_frame_refl.
  - eapply same_frame_trans; [apply writes_frame|apply IH].
Qed.

Lemma each_lookup shapes : forall d p,
  plugs (each ws shapes d) !! p = plugs d !! p
  \/ exists s v, s ∈ shapes /\ (p, v) ∈ ws s
                 /\ plugs (each ws shapes d) !! p = Some v.
Proof.
  unfold each. induction shapes as [|s shapes IH]; intros d p; simpl.
  - now left.
  - destruct (IH (writes (ws s) d) p) as [Hsame|(s' & v & Hs' & Hin & Hv)].
    + destruct (writes_lookup (ws s) d p) as [Hsame'|(v & Hin & Hv)].
      * left. congruence.
      * right. exists s, v. split; [left|]. split; [exact Hin|congruence].
    + right. exists s', v. split; [now right|auto].
Qed.

Lemma each_all shapes : forall d s,
  s ∈ shapes ->
  (forall p v, (p, v) ∈ ws s -> settable p d = true) ->
  forall p v, (p, v) ∈ ws s -> plugs (each ws shapes d) !! p = Some v.
Proof.
  induction shapes as [|s0 shapes IH]; intros d s Hs Hset p v Hin.
  - now apply elem_of_nil in Hs.
  - change (each ws (s0 :: shapes) d) with (each ws shapes (writes (ws s0) d)).
    destruct (decide (s = s0)) as [->|Hne].
    + destruct (each_lookup shapes (writes (ws s0) d) p)
        as [Hsame|(s' & v' & _ & Hin' & Hv)].
      * rewrite Hsame. apply writes_all; auto.
        intros q w w'. apply ws_functional.
      * rewrite Hv. f_equal. eapply ws_functional; eauto.
    + apply elem_of_cons in Hs as [->|Hs]; [congruence|].
      eapply IH; eauto. intros q w Hq.
      destruct (writes_frame (ws s0) d) as (_ & _ & Hframe). rewrite Hframe.
      eauto.
Qed.


Lemma for_each_shape_each sel : forall d,
  (forall ctl, ctl ∈ sel -> is_Some (shapes_of d !! ctl)) ->
  for_each_shape (fun s => writes (ws s)) sel d
  = (Ok tt, each ws (visited sel d) d).
Proof.
  induction sel as [|ctl sel IH]; intros d Hres; [reflexivity|].
  destruct (Hres ctl) as [shapes Hshapes]; [left|].
  simpl. unfold listRelatives, visited. simpl. rewrite Hshapes. simpl.
  fold (each ws shapes d).
  destruct (each_frame shapes d) as (Hsame & _).
  rewrite IH.
  - unfold visited. rewrite Hsame. unfold each. simpl.
    now rewrite fold_left_app.
  - intros c Hc. rewrite Hsame. apply Hres. now right.
Qed.

Lemma elem_of_visited s sel d :
  s ∈ visited sel d <->
  exists ctl shapes, ctl ∈ sel /\ shapes_of d !! ctl = Some shapes /\ s ∈ shapes.
Proof.
  unfold visited. induction sel as [|ctl sel IH]; simpl.
  - split; [intros H; now apply elem_of_nil in H|].
    intros (c & ? & Hc & _). now apply elem_of_nil in Hc.
  - rewrite elem_of_app, IH. split.
    + intros [Hs|(c & shapes & Hc & Hl & Hs)].
      * destruct (shapes_of d !! ctl) as [shapes|] eqn:Hl; simpl in Hs.
        -- exists ctl, shapes. split; [left|auto].
        -- now apply elem_of_nil in Hs.
      * exists c, shapes. split; [now right|auto].
    + intros (c & shapes & Hc & Hl & Hs).
      apply elem_of_cons in Hc as [->|Hc].
      * left. now rewrite Hl.
      * right. eauto.
Qed.

End Loops.

Ltac plug_cases :=
  repeat match goal with
         | H : _ ∈ _ :: _ |- _ => apply elem_of_cons in H as [H|H]
         | H : _ ∈ [] |- _ => now apply elem_of_nil in H
         | H : (_, _) = (_, _) |- _ => injection H as ? ?
         end;
  subst;
  try reflexivity;
  try match goal with
      | H : ?s +:+ ?a = ?s' +:+ ?b |- _ =>
          exfalso; revert H; apply plug_attr_differs; discriminate
      end.


Lemma index_writes_functional index s s' p v v' :
  (p, v) ∈ index_writes index s -> (p, v') ∈ index_writes index s' -> v = v'.
Proof. unfold index_writes. intros H H'. plug_cases. Qed.

(** X12.  [change_color_by_index] on a selection whose names all
    resolve: it returns without an error; every shape of a selected
    object whose three override plugs exist and are not locked ends with
    the override enabled, in palette mode and on the index, whatever
    happens on the other shapes (a shape with a missing or locked plug
    does not stop the loop); and no plug changes but those three plugs of
    the shapes of the selection. *)
Theorem change_color_by_index_is_best_effort sel index d :
  (forall ctl, ctl ∈ sel -> is_Some (shapes_of d !! ctl)) ->
  (change_color_by_index sel index d).1 = Ok tt
  /\ shapes_of (change_color_by_index sel index d).2 = shapes_of d
  /\ locked (change_color_by_index sel index d).2 = locked d
  /\ (forall ctl shapes s,
        ctl ∈ sel -> shapes_of d !! ctl = Some shapes -> s ∈ shapes ->
        settable (s +:+ ".overrideEnabled") d = true ->
        settable (s +:+ ".overrideRGBColors") d = true ->
        settable (s +:+ ".overrideColor") d = true ->
        plugs (change_color_by_index sel index d).2 !! (s +:+ ".overrideEnabled")
        = Some (VInt 1)
        /\ plugs (change_color_by_index sel index d).2 !! (s +:+ ".overrideRGBColors")
           = Some (VInt 0)
        /\ plugs (change_color_by_index sel index d).2 !! (s +:+ ".overrideColor")
           = Some (VInt index))
  /\ (forall p,
        plugs (change_color_by_index sel index d).2 !! p = plugs d !! p
        \/ exists ctl shapes s,
             ctl ∈ sel /\ shapes_of d !! ctl = Some shapes /\ s ∈ shapes
             /\ p ∈ [s +:+ ".overrideEnabled"; s +:+ ".overrideRGBColors";
                     s +:+ ".overrideColor"]).
Proof.
  intros Hres.
  assert (Heq : change_color_by_index sel index d
                = (Ok tt, each (index_writes index) (visited sel d) d)).
  { apply (for_each_shape_each (index_writes index)), Hres. }
  rewrite Heq. simpl.
  destruct (each_frame (index_writes index) (visited sel d) d) as (Hshapes & Hlocked & _).
  split; [reflexivity|]. split; [exact Hshapes|]. split; [exact Hlocked|]. split.
  - intros ctl shapes s Hctl Hl Hs Hen Hmode Hcol.
    assert (Hvisited : s ∈ visited sel d) by (apply elem_of_visited; eauto).
    assert (Hset : forall p v, (p, v) ∈ index_writes index s -> settable p d = true).
    { intros p v Hin. unfold index_writes in Hin. plug_cases; assumption. }
    pose proof (each_all (index_writes index) (index_writes_functional index)
                  (visited sel d) d s Hvisited Hset) as Hall.
    repeat split; apply Hall; unfold index_writes.
    + left.
    + right; left.
    + right; right; left.
  - intros p.
    destruct (each_lookup (index_writes index) (visited sel d) d p)
      as [Hsame|(s & v & Hs & Hin & _)]; [now left|right].
    apply elem_of_visited in Hs as (ctl & shapes & Hctl & Hl & Hs).
    exists ctl, shapes, s. repeat split; auto.
    unfold index_writes in Hin. apply (list_elem_of_fmap_2 fst) in Hin. exact Hin.
Qed.


Lemma for_each_shape_ext body body' sel :
  (forall s d, body s d = body' s d) ->
  forall d, for_each_shape body sel d = for_each_shape body' sel d.
Proof.
  intros Hext. induction sel as [|ctl sel IH]; intros d; simpl; [reflexivity|].
  destruct (listRelatives ctl d) as [shapes|e]; [|reflexivity].
  rewrite IH. f_equal. clear IH. revert d.
  induction shapes as [|s shapes IHs]; intros d; simpl; [reflexivity|].
  now rewrite Hext, IHs.
Qed.

Section Host.
Context {lib : PyLib}.
Variable stored : float -> float.
Variable colorIndex : Z -> result value.


Lemma rgb_writes_functional r g b s s' p v v' :
  (p, v) ∈ rgb_writes stored r g b s -> (p, v') ∈ rgb_writes stored r g b s' -> v = v'.
Proof. unfold rgb_writes. intros H H'. plug_cases. Qed.

(** X13.  [change_color_by_rgb] with three numbers, on a selection whose
    names all resolve, then [get_current_color_of_shape]: it returns
    without an error, and every shape of a selected object whose three
    override plugs exist and are not locked reads back as that colour, as
    the host's attribute holds it. *)
Theorem rgb_override_reads_back sel x y z r g b d :
  as_float x = Some r -> as_float y = Some g -> as_float z = Some b ->
  (forall ctl, ctl ∈ sel -> is_Some (shapes_of d !! ctl)) ->
  (change_color_by_rgb stored sel (VList [x; y; z]) d).1 = Ok tt
  /\ forall ctl shapes s,
       ctl ∈ sel -> shapes_of d !! ctl = Some shapes -> s ∈ shapes ->
       settable (s +:+ ".overrideEnabled") d = true ->
       settable (s +:+ ".overrideRGBColors") d = true ->
       settable (s +:+ ".overrideColorRGB") d = true ->
       get_current_color_of_shape colorIndex s
         (change_color_by_rgb stored sel (VList [x; y; z]) d).2
       = Ok (VList [VFloat (stored r); VFloat (stored g); VFloat (stored b)]).
Proof.
  intros Hx Hy Hz Hres.
  assert (Heq : change_color_by_rgb stored sel (VList [x; y; z]) d
                = (Ok tt, each (rgb_writes stored r g b) (visited sel d) d)).
  { rewrite <- (for_each_shape_each (rgb_writes stored r g b)) by exact Hres.
    apply for_each_shape_ext. intros s d0. unfold writes, rgb_writes. simpl.
    unfold setAttr_color. simpl. now rewrite Hx, Hy, Hz. }
  rewrite Heq. simpl. split; [reflexivity|].
  intros ctl shapes s Hctl Hl Hs Hen Hmode Hcol.
  assert (Hvisited : s ∈ visited sel d) by (apply elem_of_visited; eauto).
  assert (Hset : forall p v, (p, v) ∈ rgb_writes stored r g b s -> settable p d = true).
  { intros p v Hin. unfold rgb_writes in Hin. plug_cases; assumption. }
  pose proof (each_all (rgb_writes stored r g b) (rgb_writes_functional r g b)
                (visited sel d) d s Hvisited Hset) as Hall.
  unfold get_current_color_of_shape, getAttr.
  rewrite (Hall (s +:+ ".overrideEnabled") (VInt 1))
    by (unfold rgb_writes; left).
  simpl.
  rewrite (Hall (s +:+ ".overrideRGBColors") (VInt 1))
    by (unfold rgb_writes; right; left).
  simpl.
  rewrite (Hall (s +:+ ".overrideColorRGB") _
             ltac:(unfold rgb_writes; right; right; left)).
  reflexivity.
Qed.

(** X14.  [change_color_by_index], on a selection whose names all
    resolve, then [get_current_color_of_shape]: every shape of a selected
    object whose three override plugs exist and are not locked reads back
    as the palette colour of the index, when the palette has one. *)
Theorem index_override_reads_back sel index d l fs :
  colorIndex index = Ok (VList l) -> l <> [] -> mapM py_float l = Ok fs ->
  (forall ctl, ctl ∈ sel -> is_Some (shapes_of d !! ctl)) ->
  forall ctl shapes s,
    ctl ∈ sel -> shapes_of d !! ctl = Some shapes -> s ∈ shapes ->
    settable (s +:+ ".overrideEnabled") d = true ->
    settable (s +:+ ".overrideRGBColors") d = true ->
    settable (s +:+ ".overrideColor") d = true ->
    get_current_color_of_shape colorIndex s (change_color_by_index sel index d).2
    = Ok (VList (VFloat <$> fs)).
Proof.
  intros Hpalette Hl Hfs Hres ctl shapes s Hctl Hsh Hs Hen Hmode Hcol.
  assert (Heq : change_color_by_index sel index d
                = (Ok tt, each (index_writes index) (visited sel d) d)).
  { apply (for_each_shape_each (index_writes index)), Hres. }
  rewrite Heq. simpl.
  assert (Hvisited : s ∈ visited sel d) by (apply elem_of_visited; eauto).
  assert (Hset : forall p v, (p, v) ∈ index_writes index s -> settable p d = true).
  { intros p v Hin. unfold index_writes in Hin. plug_cases; assumption. }
  pose proof (each_all (index_writes index) (index_writes_functional index)
                (visited sel d) d s Hvisited Hset) as Hall.
  unfold get_current_color_of_shape, getAttr.
  rewrite (Hall (s +:+ ".overrideEnabled") (VInt 1))
    by (unfold index_writes; left).
  simpl.
  rewrite (Hall (s +:+ ".overrideRGBColors") (VInt 0))
    by (unfold index_writes; right; left).
  simpl.
  rewrite (Hall (s +:+ ".overrideColor") (VInt index))
    by (unfold index_writes; right; right; left).
  simpl. rewrite Hpalette. simpl.
  destruct l as [|x l']; [congruence|]. simpl. unfold floats. simpl.
  simpl in Hfs. now rewrite Hfs.
Qed.

(** X15.  [get_current_color_of_shape] returns a colour for every shape
    name and every state of the scene, and never raises: white when the
    override plug is missing or off, and white when the colour mode, the
    colour or the palette cannot be read. *)
Theorem get_current_color_never_raises shape d :
  (exists rgb, get_current_color_of_shape colorIndex shape d = Ok rgb)
  /\ (plugs d !! (shape +:+ ".overrideEnabled") = None ->
      get_current_color_of_shape colorIndex shape d = Ok white)
  /\ (forall v, plugs d !! (shape +:+ ".overrideEnabled") = Some v ->
      truthy v = false ->
      get_current_color_of_shape colorIndex shape d = Ok white)
  /\ (plugs d !! (shape +:+ ".overrideRGBColors") = None ->
      get_current_color_of_shape colorIndex shape d = Ok white).
Proof.
  unfold get_current_color_of_shape, getAttr.
  split; [|split; [|split]].
  - destruct (plugs d !! (shape +:+ ".overrideEnabled")) as [en|]; simpl; [|eauto].
    destruct (truthy en); simpl; [|eauto].
    match goal with
    | |- exists rgb, try_except ?body _ = Ok rgb =>
        destruct body as [rgb|e]; simpl; eauto
    end.
  - intros ->. reflexivity.
  - intros v -> Hv. simpl. now rewrite Hv.
  - intros ->. destruct (plugs d !! (shape +:+ ".overrideEnabled")) as [en|];
      simpl; [|reflexivity].
    destruct (truthy en); reflexivity.
Qed.

End Host.

Lemma sample_selection_resolves ctl :
  ctl ∈ ["ctl"] -> is_Some (shapes_of sample_dag !! ctl).
Proof.
  intros Hin. apply list_elem_of_singleton in Hin. subst ctl.
  vm_compute. eauto.
Qed.

Lemma change_color_by_index_is_best_effort_witness :
  plugs (change_color_by_index ["ctl"] 13 sample_dag).2 !! "ctlShape.overrideEnabled"
  = Some (VInt 1)
  /\ plugs (change_color_by_index ["ctl"] 13 sample_dag).2
       !! "ctlShape.overrideRGBColors"
     = Some (VInt 0)
  /\ plugs (change_color_by_index ["ctl"] 13 sample_dag).2 !! "ctlShape.overrideColor"
     = Some (VInt 13).
Proof.
  destruct (change_color_by_index_is_best_effort ["ctl"] 13 sample_dag
              sample_selection_resolves) as (_ & _ & _ & Hshapes & _).
  apply (Hshapes "ctl" ["ctlShape"; "lockedShape"] "ctlShape").
  - left.
  - vm_compute. reflexivity.
  - left.
  - vm_compute. reflexivity.
  - vm_compute. reflexivity.
  - vm_compute. reflexivity.
Defined.

Lemma rgb_override_reads_back_witness :
  get_current_color_of_shape (lib := sample_lib) red_palette "ctlShape"
    (change_color_by_rgb exactly ["ctl"]
       (VList [VFloat 0.25%float; VInt 1; VFloat 0%float]) sample_dag).2
  = Ok (VList [VFloat 0.25%float; VFloat 1%float; VFloat 0%float]).
Proof.
  destruct (rgb_override_reads_back (lib := sample_lib) exactly red_palette
              ["ctl"] (VFloat 0.25%float) (VInt 1) (VFloat 0%float)
              0.25%float 1%float 0%float sample_dag)
    as (_ & Hshapes).
  - reflexivity.
  - vm_compute. reflexivity.
  - reflexivity.
  - exact sample_selection_resolves.
  - apply (Hshapes "ctl" ["ctlShape"; "lockedShape"] "ctlShape").
    + left.
    + vm_compute. reflexivity.
    + left.
    + vm_compute. reflexivity.
    + vm_compute. reflexivity.
    + vm_compute. reflexivity.
Defined.

Lemma index_override_reads_back_witness :
  get_current_color_of_shape (lib := sample_lib) red_palette "ctlShape"
    (change_color_by_index ["ctl"] 13 sample_dag).2
  = Ok (VList [VFloat 1%float; VFloat 0%float; VFloat 0%float]).
Proof.
  apply (index_override_reads_back (lib := sample_lib) red_palette ["ctl"] 13
           sample_dag [VFloat 1%float; VFloat 0%float; VFloat 0%float]
           [1%float; 0%float; 0%float]
           eq_refl ltac:(discriminate) eq_refl sample_selection_resolves
           "ctl" ["ctlShape"; "lockedShape"] "ctlShape").
  - left.
  - vm_compute. reflexivity.
  - left.
  - vm_compute. reflexivity.
  - vm_compute. reflexivity.
  - vm_compute. reflexivity.
Defined.

End ShapeProps.

(* ===================================================================== *)
(** ** The pair of a selected object, made and cleaned up *)
(* ===================================================================== *)

Module WiringProps.
Import Py Scene Samples Cases Names Wiring SceneProps NameProps.

Lemma split_plug_no_dot n a :
  no_dot n = true -> split_plug (n +:+ "." +:+ a) = Some (n, a).
Proof.
  induction n as [|c n IH]; simpl; [reflexivity|].
  intros Hn. apply andb_prop in Hn as [Hc Hn].
  apply negb_true_iff in Hc. rewrite Hc.
  change (n +:+ String "." a) with (n +:+ "." +:+ a). now rewrite IH.
Qed.

Lemma plug_node_no_dot n a : no_dot n = true -> plug_node (n +:+ "." +:+ a) = n.
Proof. intros Hn. unfold plug_node. now rewrite split_plug_no_dot. Qed.

Lemma plug_node_of n a p :
  no_dot n = true -> p = n +:+ "." +:+ a -> plug_node p = n.
Proof. intros Hn ->. now apply plug_node_no_dot. Qed.

Lemma plug_exists_node sc p :
  plug_exists sc p = true -> is_Some (nodes sc !! plug_node p).
Proof.
  unfold plug_exists, plug_node. destruct (split_plug p) as [[n a]|]; [|discriminate].
  destruct (nodes sc !! n); [eauto|discriminate].
Qed.

Lemma plug_exists_at sc n a nd :
  no_dot n = true -> nodes sc !! n = Some nd ->
  plug_exists sc (n +:+ "." +:+ a) = bool_decide (a ∈ attributes nd).
Proof.
  intros Hn Hnd. unfold plug_exists. now rewrite split_plug_no_dot, Hnd.
Qed.

Lemma plug_exists_none sc n a :
  no_dot n = true -> nodes sc !! n = None ->
  plug_exists sc (n +:+ "." +:+ a) = false.
Proof.
  intros Hn Hnd. unfold plug_exists. now rewrite split_plug_no_dot, Hnd.
Qed.

(** A plug that exists in a scene exists in the scene with one node more,
    and a plug on no new node exists there only if it existed. *)
Lemma plug_exists_insert sc name nd cs p :
  nodes sc !! name = None ->
  plug_node p <> name \/ plug_exists sc p = true ->
  plug_exists {| nodes := <[name := nd]> (nodes sc); connections := cs |} p
  = plug_exists sc p.
Proof.
  intros Hfree Hp. unfold plug_exists, plug_node in *. simpl.
  destruct (split_plug p) as [[n a]|]; [|reflexivity].
  destruct (decide (n = name)) as [->|Hne].
  - destruct Hp as [Hp|Hp]; [congruence|]. rewrite Hfree in Hp. discriminate.
  - now rewrite lookup_insert_ne.
Qed.

Lemma wired_sources sc c name :
  wired sc -> c ∈ connections sc -> nodes sc !! name = None ->
  plug_node c.1 <> name /\ plug_node c.2 <> name.
Proof.
  intros Hw Hc Hfree. destruct (Hw c Hc) as [H1 H2].
  apply plug_exists_node in H1 as [x1 H1]. apply plug_exists_node in H2 as [x2 H2].
  split; intros Heq; congruence.
Qed.


Lemma ensure_connection_new src dst force sc :
  plug_exists sc src = true -> plug_exists sc dst = true ->
  (src, dst) ∉ connections sc ->
  force = true \/ has_source dst sc = false ->
  ensure_connection src dst force sc
  = {| nodes := nodes sc;
       connections :=
         filter (fun c => c.2 <> dst) (connections sc) ∪ {[ (src, dst) ]} |}.
Proof.
  intros Hsrc Hdst Hnew Hfree. rewrite ensure_connection_cases.
  rewrite Hsrc, Hdst, (bool_decide_eq_false_2 _ Hnew). simpl.
  destruct Hfree as [Hf|Hf]; rewrite Hf; simpl; [|reflexivity].
  now rewrite andb_false_r.
Qed.

Lemma ensure_connection_missing src dst force sc :
  plug_exists sc src && plug_exists sc dst = false ->
  ensure_connection src dst force sc = sc.
Proof. intros Hp. rewrite ensure_connection_cases. now rewrite Hp. Qed.

Lemma no_source_on_missing sc n a :
  wired sc -> no_dot n = true -> nodes sc !! n = None ->
  forall c, c ∈ connections sc -> c.2 <> n +:+ "." +:+ a.
Proof.
  intros Hw Hn Hfree c Hc Heq.
  destruct (wired_sources sc c n Hw Hc Hfree) as [_ Hdst].
  apply Hdst. rewrite Heq. now apply plug_node_no_dot.
Qed.

Section Pair.
Variables (ramp texture shape : string) (sc : scene).
Hypothesis Hwired : wired sc.
Hypothesis Hramp : no_dot ramp = true.
Hypothesis Htexture : no_dot texture = true.
Hypothesis Hshape : no_dot shape = true.
Hypothesis Hne : ramp <> texture.
Hypothesis Hramp_free : nodes sc !! ramp = None.
Hypothesis Htexture_free : nodes sc !! texture = None.

Let attr := shape +:+ ".aiCurveShader".
Let uv := (texture +:+ ".outUV", ramp +:+ ".uv").
Let fs := (texture +:+ ".outUvFilterSize", ramp +:+ ".uvFilterSize").
Let oc := (ramp +:+ ".outColor", attr).
Let ramp_node := {| node_type := "ramp"; attributes := attributes_of "ramp" |}.
Let texture_node :=
  {| node_type := "place2dTexture"; attributes := attributes_of "place2dTexture" |}.
Let created := <[texture := texture_node]> (<[ramp := ramp_node]> (nodes sc)).

Lemma pair_nodes : nodes (ensure_place2d_and_ramp ramp texture attr sc) = created.
Proof.
  unfold ensure_place2d_and_ramp. cbv zeta.
  rewrite !ensure_connection_nodes, !ensure_node_nodes.
  assert (Hr : objExists ramp sc = false).
  { apply bool_decide_eq_false. rewrite Hramp_free. intros [x Hx]. discriminate. }
  rewrite Hr.
  assert (Ht : objExists texture (ensure_node "ramp" ramp sc) = false).
  { unfold objExists. rewrite ensure_node_nodes, Hr.
    apply bool_decide_eq_false. rewrite lookup_insert_ne by exact Hne.
    rewrite Htexture_free. intros [x Hx]. discriminate. }
  now rewrite Ht.
Qed.

Lemma created_ramp : created !! ramp = Some ramp_node.
Proof.
  unfold created. rewrite lookup_insert_ne by congruence. apply lookup_insert_eq.
Qed.

Lemma created_texture : created !! texture = Some texture_node.
Proof. unfold created. apply lookup_insert_eq. Qed.

(** The shader plug exists with the pair in the scene exactly when it
    existed before: the two new nodes have no such attribute. *)
Lemma attr_exists cs :
  plug_exists {| nodes := created; connections := cs |} attr = plug_exists sc attr.
Proof.
  unfold attr. unfold plug_exists. simpl.
  change (shape +:+ ".aiCurveShader") with (shape +:+ "." +:+ "aiCurveShader").
  rewrite split_plug_no_dot by exact Hshape.
  destruct (decide (shape = texture)) as [->|Ht].
  - rewrite created_texture, Htexture_free. reflexivity.
  - destruct (decide (shape = ramp)) as [->|Hr].
    + rewrite created_ramp, Hramp_free. reflexivity.
    + unfold created. now rewrite !lookup_insert_ne by congruence.
Qed.

Lemma plug_attr_inj n a n' a' :
  no_dot n = true -> no_dot n' = true ->
  n +:+ "." +:+ a = n' +:+ "." +:+ a' -> n = n' /\ a = a'.
Proof.
  intros Hn Hn' Heq.
  pose proof (split_plug_no_dot n a Hn) as H1.
  rewrite Heq, (split_plug_no_dot n' a' Hn') in H1.
  injection H1 as -> ->. auto.
Qed.

Lemma scene_eq sc1 sc2 :
  nodes sc1 = nodes sc2 -> connections sc1 = connections sc2 -> sc1 = sc2.
Proof. destruct sc1, sc2. simpl. now intros -> ->. Qed.

Lemma has_source_false dst sc0 :
  (forall c, c ∈ connections sc0 -> c.2 <> dst) -> has_source dst sc0 = false.
Proof.
  intros Hno. apply bool_decide_eq_false. intros (c & Hc & Hdst).
  now apply (Hno c Hc).
Qed.

Lemma pair_created :
  ensure_node "place2dTexture" texture (ensure_node "ramp" ramp sc)
  = {| nodes := created; connections := connections sc |}.
Proof.
  apply scene_eq; simpl.
  - rewrite !ensure_node_nodes.
    assert (Hr : objExists ramp sc = false).
    { apply bool_decide_eq_false. rewrite Hramp_free. intros [x Hx]. discriminate. }
    rewrite Hr.
    assert (Ht : objExists texture (ensure_node "ramp" ramp sc) = false).
    { unfold objExists. rewrite ensure_node_nodes, Hr.
      apply bool_decide_eq_false. rewrite lookup_insert_ne by exact Hne.
      rewrite Htexture_free. intros [x Hx]. discriminate. }
    now rewrite Ht.
  - now rewrite !ensure_node_connections.
Qed.

Lemma created_plug cs n nd a :
  no_dot n = true -> created !! n = Some nd ->
  bool_decide (a ∈ attributes nd) = true ->
  plug_exists {| nodes := created; connections := cs |} (n +:+ "." +:+ a) = true.
Proof.
  intros Hn Hnd Ha.
  now rewrite (plug_exists_at {| nodes := created; connections := cs |} n a nd Hn Hnd).
Qed.

Lemma old_not_on_ramp c a :
  c ∈ connections sc -> c.2 <> ramp +:+ "." +:+ a.
Proof. intros Hc. now apply (no_source_on_missing sc ramp a). Qed.

Lemma old_not_from_ramp c a :
  c ∈ connections sc -> c.1 <> ramp +:+ "." +:+ a.
Proof.
  intros Hc Heq. destruct (wired_sources sc c ramp Hwired Hc Hramp_free) as [Hsrc _].
  apply Hsrc. rewrite Heq. now apply plug_node_no_dot.
Qed.

Lemma pair_connections :
  connections (ensure_place2d_and_ramp ramp texture attr sc)
  = if plug_exists sc attr
    then filter (fun c => c.2 <> attr) (connections sc) ∪ {[ uv ]} ∪ {[ fs ]}
         ∪ {[ oc ]}
    else connections sc ∪ {[ uv ]} ∪ {[ fs ]}.
Proof.
  unfold ensure_place2d_and_ramp. cbv zeta. rewrite pair_created.
  (* the first connection *)
  rewrite (ensure_connection_new (texture +:+ ".outUV") (ramp +:+ ".uv")).
  2:{ apply (created_plug _ texture texture_node "outUV");
        [exact Htexture|apply created_texture|reflexivity]. }
  2:{ apply (created_plug _ ramp ramp_node "uv");
        [exact Hramp|apply created_ramp|reflexivity]. }
  2:{ simpl. intros Hc. now apply (old_not_on_ramp _ "uv") in Hc. }
  2:{ right. apply has_source_false. simpl. intros c Hc.
      now apply (old_not_on_ramp c "uv"). }
  simpl.
  assert (H1 : filter (fun c : string * string => c.2 <> ramp +:+ ".uv") (connections sc)
               = connections sc).
  { apply set_eq. intros c. rewrite elem_of_filter. split; [now intros [_ Hc]|].
    intros Hc. split; [now apply (old_not_on_ramp c "uv")|exact Hc]. }
  rewrite H1.
  (* the second connection *)
  rewrite (ensure_connection_new (texture +:+ ".outUvFilterSize")
             (ramp +:+ ".uvFilterSize")).
  2:{ apply (created_plug _ texture texture_node "outUvFilterSize");
        [exact Htexture|apply created_texture|reflexivity]. }
  2:{ apply (created_plug _ ramp ramp_node "uvFilterSize");
        [exact Hramp|apply created_ramp|reflexivity]. }
  2:{ simpl. intros Hc. apply elem_of_union in Hc as [Hc|Hc].
      - now apply (old_not_on_ramp _ "uvFilterSize") in Hc.
      - apply elem_of_singleton in Hc. injection Hc as _ Hc.
        apply (plug_attr_inj ramp "uvFilterSize" ramp "uv") in Hc as [_ Hc];
          [discriminate|assumption..]. }
  2:{ right. apply has_source_false. simpl. intros c Hc.
      apply elem_of_union in Hc as [Hc|Hc].
      - now apply (old_not_on_ramp c "uvFilterSize").
      - apply elem_of_singleton in Hc. subst c. simpl. intros Hc.
        apply (plug_attr_inj ramp "uv" ramp "uvFilterSize") in Hc as [_ Hc];
          [discriminate|assumption..]. }
  simpl.
  assert (H2 : filter (fun c : string * string => c.2 <> ramp +:+ ".uvFilterSize")
                 (connections sc ∪ {[ (texture +:+ ".outUV", ramp +:+ ".uv") ]})
               = connections sc ∪ {[ uv ]}).
  { apply set_eq. intros c. rewrite elem_of_filter. split; [now intros [_ Hc]|].
    intros Hc. split; [|exact Hc].
    apply elem_of_union in Hc as [Hc|Hc].
    - now apply (old_not_on_ramp c "uvFilterSize").
    - apply elem_of_singleton in Hc. subst c. simpl. intros Hc.
      apply (plug_attr_inj ramp "uv" ramp "uvFilterSize") in Hc as [_ Hc];
        [discriminate|assumption..]. }
  rewrite H2.
  (* the connection to the shader plug *)
  destruct (plug_exists sc attr) eqn:Hattr.
  - rewrite (ensure_connection_new (ramp +:+ ".outColor") attr).
    2:{ apply (created_plug _ ramp ramp_node "outColor");
          [exact Hramp|apply created_ramp|reflexivity]. }
    2:{ now rewrite attr_exists. }
    2:{ simpl. intros Hc. apply elem_of_union in Hc as [Hc|Hc].
        - apply elem_of_union in Hc as [Hc|Hc].
          + now apply (old_not_from_ramp _ "outColor") in Hc.
          + apply elem_of_singleton in Hc. injection Hc as Hc _.
            apply (plug_attr_inj ramp "outColor" texture "outUV") in Hc as [Hc _];
              [congruence|assumption..].
        - apply elem_of_singleton in Hc. injection Hc as Hc _.
          apply (plug_attr_inj ramp "outColor" texture "outUvFilterSize")
            in Hc as [Hc _]; [congruence|assumption..]. }
    2:{ now left. }
    simpl. apply set_eq. intros c.
    rewrite !elem_of_union, !elem_of_filter, !elem_of_union, !elem_of_singleton.
    assert (Huv : uv.2 <> attr).
    { unfold uv, attr. simpl. intros Hc.
      apply (plug_attr_inj ramp "uv" shape "aiCurveShader") in Hc as [_ Hc];
        [discriminate|assumption..]. }
    assert (Hfs : fs.2 <> attr).
    { unfold fs, attr. simpl. intros Hc.
      apply (plug_attr_inj ramp "uvFilterSize" shape "aiCurveShader") in Hc as [_ Hc];
        [discriminate|assumption..]. }
    split.
    + intros [[Hdst [[Hc|Hc]|Hc]]|Hc].
      * left; left; left. split; assumption.
      * left; left; right. exact Hc.
      * left; right. exact Hc.
      * right. exact Hc.
    + intros [[[[Hdst Hc]|Hc]|Hc]|Hc].
      * left. split; [exact Hdst|]. left; left. exact Hc.
      * left. split; [rewrite Hc; exact Huv|]. left; right. exact Hc.
      * left. split; [rewrite Hc; exact Hfs|]. right. exact Hc.
      * right. exact Hc.
  - rewrite ensure_connection_missing; [reflexivity|].
    rewrite attr_exists, Hattr. apply andb_false_r.
Qed.

Lemma pair_ramp_exists cs :
  objExists ramp {| nodes := created; connections := cs |} = true.
Proof. apply bool_decide_eq_true. simpl. rewrite created_ramp. eauto. Qed.

Lemma elements_nil (X : gset (string * string)) :
  (forall c, c ∉ X) -> elements X = [].
Proof.
  intros Hno. apply elements_empty_iff. apply set_equiv. intros c.
  split; [intros Hc; now apply Hno in Hc|intros Hc; now apply elem_of_empty in Hc].
Qed.

Lemma elements_not_nil (X : gset (string * string)) c :
  c ∈ X -> elements X <> [].
Proof.
  intros Hc Hnil. apply elements_empty_iff in Hnil.
  apply (elem_of_empty (C := gset (string * string)) c). now rewrite <- Hnil.
Qed.

Lemma pair_unused :
  plug_exists sc attr = false ->
  cleanup_unused_ramps_and_textures [ramp] [texture]
    (ensure_place2d_and_ramp ramp texture attr sc)
  = sc.
Proof.
  intros Hattr.
  assert (Hs : ensure_place2d_and_ramp ramp texture attr sc
               = {| nodes := created;
                    connections := connections sc ∪ {[ uv ]} ∪ {[ fs ]} |}).
  { apply scene_eq; simpl; [apply pair_nodes|].
    rewrite pair_connections. now rewrite Hattr. }
  rewrite Hs. unfold cleanup_unused_ramps_and_textures. simpl.
  rewrite (cleanup_node_deletes ramp).
  2:{ apply pair_ramp_exists. }
  2:{ unfold listConnections. simpl. apply elements_nil. intros c Hc.
      apply elem_of_filter in Hc as [Hsrc Hc].
      apply elem_of_union in Hc as [Hc|Hc]; [apply elem_of_union in Hc as [Hc|Hc]|].
      - now destruct (wired_sources sc c ramp Hwired Hc Hramp_free).
      - apply elem_of_singleton in Hc. subst c. unfold uv in Hsrc. simpl in Hsrc.
        rewrite (plug_node_of texture "outUV" (texture +:+ ".outUV") Htexture eq_refl) in Hsrc. congruence.
      - apply elem_of_singleton in Hc. subst c. unfold fs in Hsrc. simpl in Hsrc.
        rewrite (plug_node_of texture "outUvFilterSize" (texture +:+ ".outUvFilterSize") Htexture eq_refl) in Hsrc.
        congruence. }
  simpl.
  assert (Hconns :
    filter (fun c : string * string => plug_node c.1 <> ramp /\ plug_node c.2 <> ramp)
      (connections sc ∪ {[ uv ]} ∪ {[ fs ]})
    = connections sc).
  { apply set_eq. intros c. rewrite elem_of_filter. split.
    - intros [[_ Hdst] Hc].
      apply elem_of_union in Hc as [Hc|Hc]; [apply elem_of_union in Hc as [Hc|Hc]|].
      + exact Hc.
      + apply elem_of_singleton in Hc. subst c. unfold uv in Hdst. simpl in Hdst.
        now rewrite (plug_node_of ramp "uv" (ramp +:+ ".uv") Hramp eq_refl) in Hdst.
      + apply elem_of_singleton in Hc. subst c. unfold fs in Hdst. simpl in Hdst.
        now rewrite (plug_node_of ramp "uvFilterSize" (ramp +:+ ".uvFilterSize") Hramp eq_refl) in Hdst.
    - intros Hc. split; [now apply (wired_sources sc c ramp)|].
      apply elem_of_union. left. apply elem_of_union. now left. }
  rewrite Hconns.
  rewrite (cleanup_node_deletes texture).
  2:{ apply bool_decide_eq_true. simpl. rewrite lookup_delete_ne by exact Hne.
      rewrite created_texture. eauto. }
  2:{ unfold listConnections. simpl. apply elements_nil. intros c Hc.
      apply elem_of_filter in Hc as [Hsrc Hc].
      now destruct (wired_sources sc c texture Hwired Hc Htexture_free). }
  simpl. apply scene_eq; simpl.
  - apply map_eq. intros k. destruct (decide (k = texture)) as [->|Hk1].
    + rewrite lookup_delete_eq. now rewrite Htexture_free.
    + rewrite lookup_delete_ne by congruence.
      destruct (decide (k = ramp)) as [->|Hk2].
      * rewrite lookup_delete_eq. now rewrite Hramp_free.
      * rewrite lookup_delete_ne by congruence. unfold created.
        now rewrite !lookup_insert_ne by congruence.
  - apply set_eq. intros c. rewrite elem_of_filter. split; [now intros [_ Hc]|].
    intros Hc. split; [now apply (wired_sources sc c texture)|exact Hc].
Qed.

Lemma pair_used :
  plug_exists sc attr = true ->
  cleanup_unused_ramps_and_textures [ramp] [texture]
    (ensure_place2d_and_ramp ramp texture attr sc)
  = ensure_place2d_and_ramp ramp texture attr sc
  /\ (forall src,
        (src, attr) ∈ connections (ensure_place2d_and_ramp ramp texture attr sc)
        <-> src = ramp +:+ ".outColor")
  /\ (forall c,
        c ∈ connections sc -> c.2 <> attr ->
        c ∈ connections (ensure_place2d_and_ramp ramp texture attr sc))
  /\ (forall old,
        is_Some (nodes sc !! old) ->
        (forall c, c ∈ connections sc -> plug_node c.1 = old -> c.2 = attr) ->
        objExists old (ensure_place2d_and_ramp ramp texture attr sc) = true
        /\ listConnections old (ensure_place2d_and_ramp ramp texture attr sc) = []).
Proof.
  intros Hattr.
  pose proof pair_connections as Hconns. rewrite Hattr in Hconns.
  assert (Huv : uv.2 <> attr).
  { unfold uv, attr. simpl. intros Hc.
    apply (plug_attr_inj ramp "uv" shape "aiCurveShader") in Hc as [_ Hc];
      [discriminate|assumption..]. }
  split; [|split; [|split]].
  - unfold cleanup_unused_ramps_and_textures. simpl.
    rewrite (cleanup_node_keeps ramp).
    + apply cleanup_node_keeps. unfold listConnections.
      apply (elements_not_nil _ uv). apply elem_of_filter. split.
      * unfold uv. simpl.
        apply (plug_node_of texture "outUV" (texture +:+ ".outUV") Htexture eq_refl).
      * rewrite Hconns. apply elem_of_union. left. apply elem_of_union. left.
        apply elem_of_union. right. now apply elem_of_singleton.
    + unfold listConnections. apply (elements_not_nil _ oc). apply elem_of_filter.
      split.
      * unfold oc. simpl.
        apply (plug_node_of ramp "outColor" (ramp +:+ ".outColor") Hramp eq_refl).
      * rewrite Hconns. apply elem_of_union. right. now apply elem_of_singleton.
  - intros src. rewrite Hconns.
    rewrite !elem_of_union, elem_of_filter, !elem_of_singleton. split.
    + intros [[[[Hdst _]|Hc]|Hc]|Hc].
      * now destruct Hdst.
      * injection Hc as _ Hc. exfalso. apply Huv. symmetry. exact Hc.
      * injection Hc as _ Hc. exfalso.
        apply (plug_attr_inj shape "aiCurveShader" ramp "uvFilterSize") in Hc as [_ Hc];
          [discriminate|assumption..].
      * now injection Hc as ->.
    + intros ->. now right.
  - intros c Hc Hdst. rewrite Hconns. apply elem_of_union. left.
    apply elem_of_union. left. apply elem_of_union. left.
    apply elem_of_filter. split; assumption.
  - intros old Hold Honly.
    assert (Hr : old <> ramp) by (intros ->; rewrite Hramp_free in Hold; now destruct Hold).
    assert (Ht : old <> texture)
      by (intros ->; rewrite Htexture_free in Hold; now destruct Hold).
    split.
    + apply bool_decide_eq_true. rewrite pair_nodes. unfold created.
      now rewrite !lookup_insert_ne by congruence.
    + unfold listConnections. apply elements_nil. intros c Hc.
      apply elem_of_filter in Hc as [Hsrc Hc]. rewrite Hconns in Hc.
      rewrite !elem_of_union, elem_of_filter, !elem_of_singleton in Hc.
      destruct Hc as [[[[Hdst Hc]|Hc]|Hc]|Hc].
      * apply Hdst. now apply Honly.
      * subst c. unfold uv in Hsrc. simpl in Hsrc.
        rewrite (plug_node_of texture "outUV" (texture +:+ ".outUV") Htexture eq_refl)
          in Hsrc. congruence.
      * subst c. unfold fs in Hsrc. simpl in Hsrc.
        rewrite (plug_node_of texture "outUvFilterSize"
                   (texture +:+ ".outUvFilterSize") Htexture eq_refl) in Hsrc.
        congruence.
      * subst c. unfold oc in Hsrc. simpl in Hsrc.
        rewrite (plug_node_of ramp "outColor" (ramp +:+ ".outColor") Hramp eq_refl)
          in Hsrc. congruence.
Qed.

End Pair.

Lemma not_exists_lookup name sc : objExists name sc = false -> nodes sc !! name = None.
Proof.
  intros Hex. apply bool_decide_eq_false in Hex.
  destruct (nodes sc !! name) eqn:Hl; [|reflexivity]. exfalso. eauto.
Qed.

(** X16.  In a scene whose connections join plugs that exist, for a ramp
    and a texture name that are free and a shape without the shader
    attribute: [ensure_place2d_and_ramp] followed by
    [cleanup_unused_ramps_and_textures] on the two names leaves the scene
    exactly as it was.  The pair is created and wired together, the
    connection to the shader plug fails, and the cleanup deletes both
    nodes with their connections. *)
Theorem unused_pair_leaves_no_trace ramp texture shape sc :
  wired sc ->
  no_dot ramp = true -> no_dot texture = true -> no_dot shape = true ->
  ramp <> texture ->
  objExists ramp sc = false -> objExists texture sc = false ->
  plug_exists sc (shape +:+ ".aiCurveShader") = false ->
  cleanup_unused_ramps_and_textures [ramp] [texture]
    (ensure_place2d_and_ramp ramp texture (shape +:+ ".aiCurveShader") sc)
  = sc.
Proof.
  intros Hwired Hramp Htexture Hshape Hne Hr Ht Hattr.
  apply pair_unused; auto using not_exists_lookup.
Qed.

(** X17.  In a scene whose connections join plugs that exist, for a ramp
    and a texture name that are free and a shape with the shader
    attribute: after [ensure_place2d_and_ramp] the only source of the
    shader plug is the new ramp, every connection of the scene to another
    plug is kept, and [cleanup_unused_ramps_and_textures] on the two names
    deletes nothing.  A node whose connections all went to the shader plug,
    as the ramp of an earlier pair does, is still in the scene and drives
    nothing: the forced connection took its place, and no name of the new
    pair makes the cleanup look at it. *)
Theorem forced_connection_orphans_old_ramp ramp texture shape sc :
  wired sc ->
  no_dot ramp = true -> no_dot texture = true -> no_dot shape = true ->
  ramp <> texture ->
  objExists ramp sc = false -> objExists texture sc = false ->
  plug_exists sc (shape +:+ ".aiCurveShader") = true ->
  cleanup_unused_ramps_and_textures [ramp] [texture]
    (ensure_place2d_and_ramp ramp texture (shape +:+ ".aiCurveShader") sc)
  = ensure_place2d_and_ramp ramp texture (shape +:+ ".aiCurveShader") sc
  /\ (forall src,
        (src, shape +:+ ".aiCurveShader")
          ∈ connections (ensure_place2d_and_ramp ramp texture
                           (shape +:+ ".aiCurveShader") sc)
        <-> src = ramp +:+ ".outColor")
  /\ (forall c,
        c ∈ connections sc -> c.2 <> shape +:+ ".aiCurveShader" ->
        c ∈ connections (ensure_place2d_and_ramp ramp texture
                           (shape +:+ ".aiCurveShader") sc))
  /\ (forall old,
        objExists old sc = true ->
        (forall c, c ∈ connections sc -> plug_node c.1 = old ->
                   c.2 = shape +:+ ".aiCurveShader") ->
        objExists old (ensure_place2d_and_ramp ramp texture
                         (shape +:+ ".aiCurveShader") sc) = true
        /\ listConnections old (ensure_place2d_and_ramp ramp texture
                                  (shape +:+ ".aiCurveShader") sc) = []).
Proof.
  intros Hwired Hramp Htexture Hshape Hne Hr Ht Hattr.
  destruct (pair_used ramp texture shape sc Hwired Hramp Htexture Hshape Hne
              (not_exists_lookup _ _ Hr) (not_exists_lookup _ _ Ht) Hattr)
    as (Hclean & Hsource & Hkept & Hold).
  split; [exact Hclean|]. split; [exact Hsource|]. split; [exact Hkept|].
  intros old Hex. apply Hold. now apply bool_decide_eq_true in Hex.
Qed.

Lemma sample_scene_wired : wired sample_scene.
Proof. intros c Hc. now apply elem_of_empty in Hc. Qed.

Lemma unused_pair_leaves_no_trace_witness :
  cleanup_unused_ramps_and_textures ["ramp_ctl_1"] ["place2dTexture_ctl_1"]
    (ensure_place2d_and_ramp "ramp_ctl_1" "place2dTexture_ctl_1"
       ("otherShape" +:+ ".aiCurveShader") sample_scene)
  = sample_scene.
Proof.
  apply (unused_pair_leaves_no_trace "ramp_ctl_1" "place2dTexture_ctl_1"
           "otherShape" sample_scene sample_scene_wired);
    try reflexivity.
  discriminate.
Defined.

Lemma scene_with_first_pair_wired : wired scene_with_first_pair.
Proof.
  intros c Hc. apply elem_of_elements in Hc.
  assert (Hels :
    elements (connections scene_with_first_pair)
    = [("ramp_ctl_1a2b3c4d.outColor", "ctlShape.aiCurveShader");
       ("place2dTexture_ctl_1a2b3c4d.outUV", "ramp_ctl_1a2b3c4d.uv");
       ("place2dTexture_ctl_1a2b3c4d.outUvFilterSize",
        "ramp_ctl_1a2b3c4d.uvFilterSize")]).
  { vm_compute. reflexivity. }
  rewrite Hels in Hc.
  repeat (apply elem_of_cons in Hc as [->|Hc]; [split; vm_compute; reflexivity|]).
  now apply elem_of_nil in Hc.
Qed.

Lemma first_ramp_drives_the_shape c :
  c ∈ connections scene_with_first_pair ->
  plug_node c.1 = "ramp_ctl_1a2b3c4d" ->
  c.2 = "ctlShape" +:+ ".aiCurveShader".
Proof.
  intros Hc. apply elem_of_elements in Hc.
  assert (Hels :
    elements (connections scene_with_first_pair)
    = [("ramp_ctl_1a2b3c4d.outColor", "ctlShape.aiCurveShader");
       ("place2dTexture_ctl_1a2b3c4d.outUV", "ramp_ctl_1a2b3c4d.uv");
       ("place2dTexture_ctl_1a2b3c4d.outUvFilterSize",
        "ramp_ctl_1a2b3c4d.uvFilterSize")]).
  { vm_compute. reflexivity. }
  rewrite Hels in Hc.
  repeat (apply elem_of_cons in Hc as [->|Hc];
          [vm_compute; intros; (reflexivity || discriminate)|]).
  now apply elem_of_nil in Hc.
Qed.

Lemma forced_connection_orphans_old_ramp_witness :
  objExists "ramp_ctl_1a2b3c4d"
    (ensure_place2d_and_ramp "ramp_ctl_9f8e7d6c" "place2dTexture_ctl_9f8e7d6c"
       ("ctlShape" +:+ ".aiCurveShader") scene_with_first_pair) = true
  /\ listConnections "ramp_ctl_1a2b3c4d"
       (ensure_place2d_and_ramp "ramp_ctl_9f8e7d6c" "place2dTexture_ctl_9f8e7d6c"
          ("ctlShape" +:+ ".aiCurveShader") scene_with_first_pair) = [].
Proof.
  destruct (forced_connection_orphans_old_ramp "ramp_ctl_9f8e7d6c"
              "place2dTexture_ctl_9f8e7d6c" "ctlShape" scene_with_first_pair
              scene_with_first_pair_wired)
    as (_ & _ & _ & Hold); try (vm_compute; reflexivity).
  - discriminate.
  - apply (Hold "ramp_ctl_1a2b3c4d").
    + vm_compute. reflexivity.
    + exact first_ramp_drives_the_shape.
Defined.

(** *** Names that meet *)

Lemma word_no_dot s : word s = true -> no_dot s = true.
Proof.
  induction s as [|c s IH]; simpl; [reflexivity|].
  intros Hw. apply andb_prop in Hw as [Hc Hs]. rewrite IH by exact Hs.
  rewrite andb_true_r. apply negb_true_iff. apply bool_decide_eq_false.
  intros ->. discriminate Hc.
Qed.

Lemma safe_name_word name : word (safe_name name) = true.
Proof. apply sub_non_word_word. Qed.

Lemma safe_name_of_path path name :
  safe_name (path +:+ "|" +:+ name) = safe_name name.
Proof.
  unfold safe_name.
  destruct (split_bar_path path name) as (seg & segs & Hs & Hne & Hlast).
  rewrite Hs, <- Hlast. destruct segs; [congruence|reflexivity].
Qed.


Lemma plug_exists_on sc n a p nd :
  no_dot n = true -> p = n +:+ "." +:+ a -> nodes sc !! n = Some nd ->
  plug_exists sc p = bool_decide (a ∈ attributes nd).
Proof. intros Hn -> Hnd. now apply plug_exists_at. Qed.

Lemma ensure_connection_sources src dst force sc c :
  c ∈ connections (ensure_connection src dst force sc) ->
  c ∈ connections sc \/ (c = (src, dst) /\ plug_exists sc src = true).
Proof.
  rewrite ensure_connection_cases.
  destruct (plug_exists sc src) eqn:Hsrc; simpl; [|now left].
  match goal with |- context [if ?b then _ else _] => destruct b end; [|now left].
  simpl. intros Hc. apply elem_of_union in Hc as [Hc|Hc].
  - left. now apply elem_of_filter in Hc as [_ Hc].
  - right. apply elem_of_singleton in Hc. auto.
Qed.

Lemma ensure_connection_adds src dst force sc c :
  c ∈ connections sc -> c.2 <> dst ->
  c ∈ connections (ensure_connection src dst force sc).
Proof.
  intros Hc Hdst. rewrite ensure_connection_cases.
  match goal with |- context [if ?b then _ else _] => destruct b end; [|exact Hc].
  simpl. apply elem_of_union. left. now apply elem_of_filter.
Qed.

(** X18.  Two objects without a referenced shape whose paths end in the
    same name get the same ramp and the same texture.  In a scene whose
    connections join plugs that exist, with the two names free and the
    shader plugs of the two shapes in the scene: the call of
    [ensure_place2d_and_ramp] for the second object creates no node, and
    afterwards the one ramp drives the shader plugs of both shapes. *)
Theorem same_short_name_shares_the_pair path1 path2 name shape1 shape2
    u1 u2 u3 u4 sc :
  wired sc ->
  no_dot shape1 = true -> no_dot shape2 = true -> shape1 <> shape2 ->
  objExists ("ramp_" +:+ safe_name name) sc = false ->
  objExists ("place2dTexture_" +:+ safe_name name) sc = false ->
  plug_exists sc (shape1 +:+ ".aiCurveShader") = true ->
  plug_exists sc (shape2 +:+ ".aiCurveShader") = true ->
  let sc1 := ensure_shading_pair (path1 +:+ "|" +:+ name) shape1 false u1 u2 sc in
  let sc2 := ensure_shading_pair (path2 +:+ "|" +:+ name) shape2 false u3 u4 sc1 in
  nodes sc2 = nodes sc1
  /\ (("ramp_" +:+ safe_name name) +:+ ".outColor", shape1 +:+ ".aiCurveShader")
       ∈ connections sc2
  /\ (("ramp_" +:+ safe_name name) +:+ ".outColor", shape2 +:+ ".aiCurveShader")
       ∈ connections sc2.
Proof.
  intros Hwired Hs1 Hs2 Hne Hr Ht Hp1 Hp2 sc1 sc2.
  unfold sc2, sc1, ensure_shading_pair, shading_names.
  rewrite !safe_name_of_path.
  set (ramp := "ramp_" +:+ safe_name name).
  set (texture := "place2dTexture_" +:+ safe_name name).
  assert (Hramp : no_dot ramp = true).
  { apply word_no_dot. unfold ramp. rewrite word_app, safe_name_word. reflexivity. }
  assert (Htexture : no_dot texture = true).
  { apply word_no_dot. unfold texture. rewrite word_app, safe_name_word. reflexivity. }
  assert (Hdiff : ramp <> texture) by apply local_names_distinct.
  apply not_exists_lookup in Hr, Ht.
  set (s1 := ensure_place2d_and_ramp ramp texture (shape1 +:+ ".aiCurveShader") sc).
  pose proof (pair_nodes ramp texture shape1 sc Hdiff Hr Ht) as Hnodes.
  pose proof (pair_connections ramp texture shape1 sc Hwired Hramp Htexture Hs1
                Hdiff Hr Ht) as Hconns.
  rewrite Hp1 in Hconns. fold s1 in Hnodes, Hconns.
  assert (Hrex : objExists ramp s1 = true).
  { apply bool_decide_eq_true. rewrite Hnodes.
    rewrite lookup_insert_ne by congruence. rewrite lookup_insert_eq. eauto. }
  assert (Htex : objExists texture s1 = true).
  { apply bool_decide_eq_true. rewrite Hnodes. rewrite lookup_insert_eq. eauto. }
  assert (Huv : (texture +:+ ".outUV", ramp +:+ ".uv") ∈ connections s1).
  { rewrite Hconns. apply elem_of_union. left. apply elem_of_union. left.
    apply elem_of_union. right. now apply elem_of_singleton. }
  assert (Hfs : (texture +:+ ".outUvFilterSize", ramp +:+ ".uvFilterSize")
                  ∈ connections s1).
  { rewrite Hconns. apply elem_of_union. left. apply elem_of_union. right.
    now apply elem_of_singleton. }
  assert (Hoc : (ramp +:+ ".outColor", shape1 +:+ ".aiCurveShader") ∈ connections s1).
  { rewrite Hconns. apply elem_of_union. right. now apply elem_of_singleton. }
  assert (Hsecond :
    ensure_place2d_and_ramp ramp texture (shape2 +:+ ".aiCurveShader") s1
    = ensure_connection (ramp +:+ ".outColor") (shape2 +:+ ".aiCurveShader") true s1).
  { unfold ensure_place2d_and_ramp. cbv zeta.
    rewrite (ensure_node_noop _ ramp s1 Hrex), (ensure_node_noop _ texture s1 Htex).
    rewrite (settled_connected _ _ false s1) by (right; exact Huv).
    now rewrite (settled_connected _ _ false s1) by (right; exact Hfs). }
  rewrite Hsecond.
  split; [apply ensure_connection_nodes|]. split.
  - apply ensure_connection_adds.
    + exact Hoc.
    + simpl. intros Heq.
      apply (plug_attr_inj shape1 "aiCurveShader" shape2 "aiCurveShader") in Heq
        as [Heq _]; [congruence|assumption..].
  - destruct (ensure_connection_settles (ramp +:+ ".outColor")
                (shape2 +:+ ".aiCurveShader") true s1) as [Hplugs|[Hin|[Hf _]]];
      [|exact Hin|discriminate].
    exfalso.
    rewrite (plug_exists_nodes _ s1 (ramp +:+ ".outColor")),
            (plug_exists_nodes _ s1 (shape2 +:+ ".aiCurveShader")) in Hplugs
      by apply ensure_connection_nodes.
    assert (H1 : plug_exists s1 (ramp +:+ ".outColor") = true).
    { rewrite (plug_exists_on s1 ramp "outColor" (ramp +:+ ".outColor")
                 {| node_type := "ramp"; attributes := attributes_of "ramp" |}
                 Hramp eq_refl).
      - reflexivity.
      - rewrite Hnodes. rewrite lookup_insert_ne by congruence.
        apply lookup_insert_eq. }
    assert (H2 : plug_exists s1 (shape2 +:+ ".aiCurveShader") = true).
    { revert Hp2. unfold plug_exists. rewrite Hnodes.
      change (shape2 +:+ ".aiCurveShader") with (shape2 +:+ "." +:+ "aiCurveShader").
      rewrite split_plug_no_dot by exact Hs2.
      destruct (nodes sc !! shape2) as [nd|] eqn:Hl; [|discriminate].
      intros Ha.
      assert (Hn1 : texture <> shape2).
      { intros Heq. rewrite <- Heq in Hl. unfold texture in Hl. congruence. }
      assert (Hn2 : ramp <> shape2).
      { intros Heq. rewrite <- Heq in Hl. unfold ramp in Hl. congruence. }
      rewrite !lookup_insert_ne by assumption. now rewrite Hl. }
    rewrite H1, H2 in Hplugs. discriminate.
Qed.

(** X19.  [cleanup_unused_ramps_and_textures] looks at names, not at what
    the call created: a node that was in the scene under the ramp's name
    before [ensure_place2d_and_ramp], that has no [outColor] attribute and
    drives nothing, is deleted by the cleanup that follows. *)
Theorem cleanup_deletes_an_unused_namesake ramp texture attr nd sc :
  no_dot ramp = true -> no_dot texture = true -> ramp <> texture ->
  nodes sc !! ramp = Some nd ->
  "outColor" ∉ attributes nd ->
  listConnections ramp sc = [] ->
  objExists ramp
    (cleanup_unused_ramps_and_textures [ramp] [texture]
       (ensure_place2d_and_ramp ramp texture attr sc))
  = false.
Proof.
  intros Hramp Htexture Hne Hnd Hattr Hout.
  set (s := ensure_place2d_and_ramp ramp texture attr sc).
  assert (Hnodes : nodes s !! ramp = Some nd).
  { unfold s, ensure_place2d_and_ramp. cbv zeta.
    rewrite !ensure_connection_nodes, !ensure_node_nodes.
    assert (Hex : objExists ramp sc = true).
    { apply bool_decide_eq_true. rewrite Hnd. eauto. }
    rewrite Hex.
    destruct (objExists texture (ensure_node "ramp" ramp sc)); [exact Hnd|].
    now rewrite lookup_insert_ne by congruence. }
  assert (Hfree : forall c, c ∈ connections s -> plug_node c.1 <> ramp).
  { intros c Hc. unfold s, ensure_place2d_and_ramp in Hc. cbv zeta in Hc.
    apply ensure_connection_sources in Hc as [Hc|[-> Hplug]].
    - apply ensure_connection_sources in Hc as [Hc|[-> _]].
      + apply ensure_connection_sources in Hc as [Hc|[-> _]].
        * rewrite !ensure_node_connections in Hc. intros Hsrc.
          assert (Hin : c ∈ filter (fun c => plug_node c.1 = ramp) (connections sc)).
          { now apply elem_of_filter. }
          apply elem_of_elements in Hin. unfold listConnections in Hout.
          rewrite Hout in Hin. now apply elem_of_nil in Hin.
        * simpl.
          rewrite (plug_node_of texture "outUV" (texture +:+ ".outUV") Htexture eq_refl).
          congruence.
      + simpl.
        rewrite (plug_node_of texture "outUvFilterSize"
                   (texture +:+ ".outUvFilterSize") Htexture eq_refl).
        congruence.
    - exfalso. revert Hplug.
      match goal with
      | |- plug_exists ?s4 _ = true -> _ =>
          assert (Hn4 : nodes s4 = nodes s)
            by (unfold s, ensure_place2d_and_ramp; cbv zeta;
                now rewrite !ensure_connection_nodes);
          rewrite (plug_exists_on s4 ramp "outColor" (ramp +:+ ".outColor") nd
                     Hramp eq_refl)
            by (now rewrite Hn4)
      end.
      intros Hin. apply bool_decide_eq_true in Hin. now apply Hattr. }
  unfold cleanup_unused_ramps_and_textures. simpl. fold s.
  rewrite (cleanup_node_deletes ramp s).
  2:{ apply bool_decide_eq_true. rewrite Hnodes. eauto. }
  2:{ unfold listConnections. apply elements_nil. intros c Hc.
      apply elem_of_filter in Hc as [Hsrc Hc]. now apply (Hfree c). }
  match goal with |- objExists ramp (cleanup_node texture ?s') = false =>
    assert (Hgone : nodes s' !! ramp = None) by (simpl; apply lookup_delete_eq);
    generalize dependent s'
  end.
  intros s1 Hgone.
  apply bool_decide_eq_false. intros [x Hx].
  unfold cleanup_node in Hx.
  destruct (objExists texture s1); [|congruence].
  destruct (listConnections texture s1); [|congruence].
  unfold attempt, delete in Hx.
  destruct (objExists texture s1); [|congruence].
  simpl in Hx. rewrite lookup_delete_ne in Hx by congruence. congruence.
Qed.

Lemma two_curves_wired : wired two_curves.
Proof. intros c Hc. now apply elem_of_empty in Hc. Qed.

Lemma same_short_name_shares_the_pair_witness :
  nodes (ensure_shading_pair "|right|ctl" "bShape" false "" ""
           (ensure_shading_pair "|left|ctl" "aShape" false "" "" two_curves))
  = nodes (ensure_shading_pair "|left|ctl" "aShape" false "" "" two_curves)
  /\ ("ramp_ctl.outColor", "aShape.aiCurveShader")
       ∈ connections
           (ensure_shading_pair "|right|ctl" "bShape" false "" ""
              (ensure_shading_pair "|left|ctl" "aShape" false "" "" two_curves))
  /\ ("ramp_ctl.outColor", "bShape.aiCurveShader")
       ∈ connections
           (ensure_shading_pair "|right|ctl" "bShape" false "" ""
              (ensure_shading_pair "|left|ctl" "aShape" false "" "" two_curves)).
Proof.
  apply (same_short_name_shares_the_pair "|left" "|right" "ctl" "aShape" "bShape"
           "" "" "" "" two_curves two_curves_wired);
    try reflexivity.
  discriminate.
Defined.

Lemma cleanup_deletes_an_unused_namesake_witness :
  objExists "ramp_ctl"
    (cleanup_unused_ramps_and_textures ["ramp_ctl"] ["place2dTexture_ctl"]
       (ensure_place2d_and_ramp "ramp_ctl" "place2dTexture_ctl"
          "ctlShape.aiCurveShader" scene_with_namesake))
  = false.
Proof.
  apply (cleanup_deletes_an_unused_namesake "ramp_ctl" "place2dTexture_ctl"
           "ctlShape.aiCurveShader"
           {| node_type := "transform"; attributes := [] |} scene_with_namesake).
  - reflexivity.
  - reflexivity.
  - discriminate.
  - reflexivity.
  - apply not_elem_of_nil.
  - vm_compute. reflexivity.
Defined.

End WiringProps.

(* ===================================================================== *)
(** ** Properties of [set_ramp_color] *)
(* ===================================================================== *)

Module RampProps.
Import Py Samples Shapes Ramp Cases.

Section Host.
Variable strict : bool.
Variable stored : float -> float.
Variable ramp_name : string.

(** *** What a step keeps *)

(** The ramp is still there, with the entry at [i] as it was. *)
Definition keeps (i : nat) (rs rs' : gmap string ramp) : Prop :=
  forall rm, rs !! ramp_name = Some rm ->
    exists rm', rs' !! ramp_name = Some rm' /\ entries rm' !! i = entries rm !! i.

Lemma keeps_refl i rs : keeps i rs rs.
Proof. intros rm Hrm. eauto. Qed.

Lemma keeps_trans i rs1 rs2 rs3 : keeps i rs1 rs2 -> keeps i rs2 rs3 -> keeps i rs1 rs3.
Proof.
  intros H12 H23 rm Hrm. destruct (H12 rm Hrm) as (rm2 & Hrm2 & He2).
  destruct (H23 rm2 Hrm2) as (rm3 & Hrm3 & He3). exists rm3. split; congruence.
Qed.

Lemma set_type_keeps i v rs : keeps i rs (attempt (set_type ramp_name v) rs).
Proof.
  intros rm Hrm. unfold attempt, set_type. rewrite Hrm.
  eexists. split; [apply lookup_insert_eq|reflexivity].
Qed.

Lemma set_type_done v rs rm :
  rs !! ramp_name = Some rm ->
  attempt (set_type ramp_name v) rs
  = <[ramp_name := {| ramp_type := v; entries := entries rm |}]> rs.
Proof. intros Hrm. unfold attempt, set_type. now rewrite Hrm. Qed.

Lemma remove_keeps i j rs rs' :
  i <> j -> removeMultiInstance strict ramp_name j rs = Ok rs' -> keeps i rs rs'.
Proof.
  intros Hne Hrem rm Hrm. unfold removeMultiInstance in Hrem. rewrite Hrm in Hrem.
  destruct (bool_decide (is_Some (entries rm !! j))).
  - injection Hrem as <-. eexists. split; [apply lookup_insert_eq|].
    simpl. now apply lookup_delete_ne.
  - destruct strict; [discriminate|]. injection Hrem as <-. eauto.
Qed.

Lemma remove_each_keeps i indices : forall rs,
  i ∉ indices -> keeps i rs (remove_each strict ramp_name indices rs).
Proof.
  induction indices as [|j indices IH]; intros rs Hi; simpl; [apply keeps_refl|].
  apply not_elem_of_cons in Hi as [Hne Hi].
  destruct (removeMultiInstance strict ramp_name j rs) as [rs'|e] eqn:Hrem;
    [|apply keeps_refl].
  eapply keeps_trans; [eapply remove_keeps; eauto|now apply IH].
Qed.

Lemma set_entry_color_keeps i j r g b rs rs' :
  i <> j -> set_entry_color stored ramp_name j r g b rs = Ok rs' -> keeps i rs rs'.
Proof.
  intros Hne Hset rm Hrm. unfold set_entry_color in Hset. rewrite Hrm in Hset.
  destruct (as_float r), (as_float g), (as_float b); try discriminate.
  injection Hset as <-. eexists. split; [apply lookup_insert_eq|].
  simpl. now apply lookup_insert_ne.
Qed.

Lemma set_entry_position_keeps i j p rs rs' :
  i <> j -> set_entry_position ramp_name j p rs = Ok rs' -> keeps i rs rs'.
Proof.
  intros Hne Hset rm Hrm. unfold set_entry_position in Hset. rewrite Hrm in Hset.
  injection Hset as <-. eexists. split; [apply lookup_insert_eq|].
  simpl. now apply lookup_insert_ne.
Qed.

Lemma attempt_steps_keeps i steps : forall rs,
  Forall (fun step => forall rs rs', step rs = Ok rs' -> keeps i rs rs') steps ->
  keeps i rs (attempt_steps steps rs).
Proof.
  induction steps as [|step steps IH]; intros rs Hsteps; simpl; [apply keeps_refl|].
  apply Forall_cons in Hsteps as [Hstep Hsteps].
  destruct (step rs) as [rs'|e] eqn:Hs; [|apply keeps_refl].
  eapply keeps_trans; [apply Hstep; exact Hs|now apply IH].
Qed.

(** X21.  [set_ramp_color] removes the indices below the number of
    entries, not the indices of the entries: an entry of the ramp whose
    index is at least that number, and is not [0] or [1], is still there
    with its colour and position after the call, whatever the colour
    given and whether or not the host raises on an element that does not
    exist. *)
Theorem set_ramp_color_keeps_sparse_entry rgb rs rm i e :
  rs !! ramp_name = Some rm ->
  entries rm !! i = Some e ->
  (size (entries rm) <= i)%nat ->
  (2 <= i)%nat ->
  exists rm',
    set_ramp_color strict stored ramp_name rgb rs !! ramp_name = Some rm'
    /\ entries rm' !! i = Some e.
Proof.
  intros Hrm He Hsize Hi.
  assert (Hkeeps : keeps i rs (set_ramp_color strict stored ramp_name rgb rs)).
  { unfold set_ramp_color. cbv zeta.
    apply (keeps_trans i rs (attempt (set_type ramp_name (VInt 0)) rs));
      [apply set_type_keeps|].
    rewrite (set_type_done (VInt 0) rs rm Hrm).
    unfold entry_count. rewrite lookup_insert_eq. cbn [entries].
    match goal with
    | |- keeps _ _ (attempt_steps _ ?mid) => apply (keeps_trans i _ mid)
    end.
    - apply remove_each_keeps. rewrite elem_of_reverse, elem_of_seq. lia.
    - apply attempt_steps_keeps. repeat constructor.
      + intros rs1 rs2.
        destruct (py_item rgb 0) as [r|]; simpl; [|discriminate].
        destruct (py_item rgb 1) as [g|]; simpl; [|discriminate].
        destruct (py_item rgb 2) as [b|]; simpl; [|discriminate].
        apply set_entry_color_keeps. lia.
      + intros rs1 rs2. apply set_entry_position_keeps. lia.
      + intros rs1 rs2.
        destruct (py_item rgb 0) as [r|]; simpl; [|discriminate].
        destruct (py_item rgb 1) as [g|]; simpl; [|discriminate].
        destruct (py_item rgb 2) as [b|]; simpl; [|discriminate].
        apply set_entry_color_keeps. lia.
      + intros rs1 rs2. apply set_entry_position_keeps. lia. }
  destruct (Hkeeps rm Hrm) as (rm' & Hrm' & He'). exists rm'. split; congruence.
Qed.


(** *** A ramp whose entries are dense *)

Lemma with_entries_same rm : with_entries rm (entries rm) = rm.
Proof. now destruct rm. Qed.

Lemma lookup_remove_each (indices : list nat) : forall (es : gmap nat entry) k,
  foldl (fun m j => delete j m) es indices !! k
  = if bool_decide (k ∈ indices) then None else es !! k.
Proof.
  induction indices as [|j indices IH]; intros es k; simpl; [reflexivity|].
  rewrite IH. destruct (decide (k = j)) as [->|Hne].
  - rewrite (bool_decide_eq_true_2 (j ∈ j :: indices)) by left.
    rewrite lookup_delete_eq. now destruct (bool_decide (j ∈ indices)).
  - rewrite lookup_delete_ne by congruence.
    destruct (bool_decide (k ∈ indices)) eqn:Hk.
    + apply bool_decide_eq_true in Hk.
      now rewrite (bool_decide_eq_true_2 (k ∈ j :: indices)) by now right.
    + apply bool_decide_eq_false in Hk.
      rewrite (bool_decide_eq_false_2 (k ∈ j :: indices)); [reflexivity|].
      intros Hin. apply elem_of_cons in Hin as [Heq|Hin]; congruence.
Qed.

Lemma remove_each_present indices : forall rs rm,
  rs !! ramp_name = Some rm ->
  NoDup indices ->
  (forall j, j ∈ indices -> is_Some (entries rm !! j)) ->
  remove_each strict ramp_name indices rs
  = <[ramp_name :=
        with_entries rm (foldl (fun m j => delete j m) (entries rm) indices)]> rs.
Proof.
  induction indices as [|j indices IH]; intros rs rm Hrm Hnd Hall; simpl.
  - rewrite with_entries_same. symmetry. now apply insert_id.
  - apply NoDup_cons in Hnd as [Hj Hnd].
    unfold removeMultiInstance. rewrite Hrm.
    rewrite bool_decide_eq_true_2 by (apply Hall; left).
    rewrite (IH _ (with_entries rm (delete j (entries rm)))).
    + simpl. now rewrite insert_insert_eq.
    + apply lookup_insert_eq.
    + exact Hnd.
    + intros k Hk. simpl. rewrite lookup_delete_ne by (intros ->; contradiction).
      apply Hall. now right.
Qed.

Lemma set_entry_color_at i x y z r g b rs rm :
  rs !! ramp_name = Some rm ->
  as_float x = Some r -> as_float y = Some g -> as_float z = Some b ->
  set_entry_color stored ramp_name i x y z rs
  = Ok (<[ramp_name :=
            with_entries rm
              (<[i := {| color := VList [VList [VFloat (stored r); VFloat (stored g);
                                                VFloat (stored b)]];
                         position :=
                           position (default default_entry (entries rm !! i)) |}]>
                 (entries rm))]> rs).
Proof.
  intros Hrm Hx Hy Hz. unfold set_entry_color. now rewrite Hrm, Hx, Hy, Hz.
Qed.

Lemma set_entry_position_at i p rs rm :
  rs !! ramp_name = Some rm ->
  set_entry_position ramp_name i p rs
  = Ok (<[ramp_name :=
            with_entries rm
              (<[i := {| color := color (default default_entry (entries rm !! i));
                         position := p |}]> (entries rm))]> rs).
Proof. intros Hrm. unfold set_entry_position. now rewrite Hrm. Qed.

(** X20.  [set_ramp_color] on a ramp of the scene whose entries sit at
    the indices [0 .. n-1], with a colour whose first three items are
    numbers: afterwards the ramp is of type [0] and has exactly two
    entries, at [0] and [1], both of that colour, at positions [0.0] and
    [1.0]; the other ramps are as they were.  This holds whether or not
    the host raises on an element that does not exist. *)
Theorem set_ramp_color_flattens_dense_ramp rgb x y z r g b rs rm :
  rs !! ramp_name = Some rm ->
  dense (entries rm) ->
  py_item rgb 0 = Ok x -> py_item rgb 1 = Ok y -> py_item rgb 2 = Ok z ->
  as_float x = Some r -> as_float y = Some g -> as_float z = Some b ->
  set_ramp_color strict stored ramp_name rgb rs
  = <[ramp_name := {| ramp_type := VInt 0; entries := flat stored r g b |}]> rs.
Proof.
  intros Hrm Hdense H0 H1 H2 Hx Hy Hz.
  unfold set_ramp_color. cbv zeta.
  rewrite (set_type_done (VInt 0) rs rm Hrm).
  unfold entry_count. rewrite lookup_insert_eq. cbn [entries].
  rewrite (remove_each_present _ _ {| ramp_type := VInt 0; entries := entries rm |}).
  2:{ apply lookup_insert_eq. }
  2:{ rewrite reverse_Permutation. apply NoDup_seq. }
  2:{ intros j Hj. simpl. apply Hdense.
      rewrite elem_of_reverse, elem_of_seq in Hj. lia. }
  rewrite insert_insert_eq. cbn [entries with_entries ramp_type].
  assert (Hempty :
    foldl (fun m j => delete j m) (entries rm) (reverse (seq 0 (size (entries rm))))
    = ∅).
  { apply map_eq. intros k. rewrite lookup_remove_each, lookup_empty.
    destruct (bool_decide (k ∈ reverse (seq 0 (size (entries rm))))) eqn:Hk;
      [reflexivity|].
    apply bool_decide_eq_false in Hk.
    rewrite elem_of_reverse, elem_of_seq in Hk.
    destruct (entries rm !! k) eqn:Hl; [|reflexivity].
    exfalso. apply Hk. assert (k < size (entries rm))%nat; [|lia].
    apply Hdense. eauto. }
  rewrite Hempty.
  cbn [attempt_steps]. rewrite H0, H1, H2. cbn [mbind result_bind bind].
  rewrite (set_entry_color_at 0 x y z r g b _ _ (lookup_insert_eq _ _ _) Hx Hy Hz).
  rewrite insert_insert_eq.
  rewrite (set_entry_position_at 0 _ _ _ (lookup_insert_eq _ _ _)).
  rewrite insert_insert_eq.
  rewrite (set_entry_color_at 1 x y z r g b _ _ (lookup_insert_eq _ _ _) Hx Hy Hz).
  rewrite insert_insert_eq.
  rewrite (set_entry_position_at 1 _ _ _ (lookup_insert_eq _ _ _)).
  rewrite insert_insert_eq.
  reflexivity.
Qed.

End Host.

Lemma dense_ramps_dense : dense (entries dense_ramp).
Proof.
  intros i. assert (Hsize : size (entries dense_ramp) = 3%nat) by reflexivity.
  rewrite Hsize.
  destruct i as [|[|[|i]]].
  - split; [lia|]. intros _. vm_compute. eauto.
  - split; [lia|]. intros _. vm_compute. eauto.
  - split; [lia|]. intros _. vm_compute. eauto.
  - split; [|lia]. intros [e He]. exfalso. revert He.
    unfold dense_ramp. cbn [entries].
    rewrite !lookup_insert_ne by discriminate. now rewrite lookup_empty.
Qed.

Lemma set_ramp_color_flattens_dense_ramp_witness :
  set_ramp_color true exactly "ramp_ctl"
    (VList [VFloat 1%float; VFloat 0%float; VFloat 0%float])
    {[ "ramp_ctl" := dense_ramp ]}
  = {[ "ramp_ctl" := {| ramp_type := VInt 0;
                        entries := flat exactly 1%float 0%float 0%float |} ]}.
Proof.
  rewrite (set_ramp_color_flattens_dense_ramp true exactly "ramp_ctl"
             (VList [VFloat 1%float; VFloat 0%float; VFloat 0%float])
             (VFloat 1%float) (VFloat 0%float) (VFloat 0%float)
             1%float 0%float 0%float {[ "ramp_ctl" := dense_ramp ]} dense_ramp).
  - apply insert_singleton_eq.
  - apply lookup_singleton_eq.
  - exact dense_ramps_dense.
  - reflexivity.
  - reflexivity.
  - reflexivity.
  - reflexivity.
  - reflexivity.
  - reflexivity.
Defined.

Lemma set_ramp_color_keeps_sparse_entry_witness :
  exists rm',
    set_ramp_color false exactly "ramp_ctl"
      (VList [VFloat 1%float; VFloat 0%float; VFloat 0%float])
      {[ "ramp_ctl" := sparse_ramp ]} !! "ramp_ctl" = Some rm'
    /\ entries rm' !! 5%nat = Some blue_entry.
Proof.
  apply (set_ramp_color_keeps_sparse_entry false exactly "ramp_ctl"
           (VList [VFloat 1%float; VFloat 0%float; VFloat 0%float])
           {[ "ramp_ctl" := sparse_ramp ]} sparse_ramp 5%nat blue_entry).
  - apply lookup_singleton_eq.
  - reflexivity.
  - vm_compute. lia.
  - lia.
Defined.

End RampProps.
